(** * Execution data requester (module/state_synchronization/requester)

    A shallow embedding of the requester component: the fetch workers
    ([processBlockJob], [processSealedHeight], [processFetchRequest],
    [fetchExecutionData]), the notification worker
    ([processNotificationJob], [processNotification], [notifyConsumers]),
    the startup datastore check ([checkDatastore], [checkExecutionData]),
    [bootstrap] and the worker wiring of [New].

    Go code with side effects is written in a state monad over [State]
    whose results are an [outcome]: a normal return, or the end of the
    goroutine through [ctx.Throw].  Collaborators behind interfaces
    (storage, the execution data service, the blob service, the parent
    context) answer through the oracles of [World]; every call the code
    makes on them, and every metric, is appended to the trace. *)

From Stdlib Require Import ZArith List String Bool Lia Arith.
Import ListNotations.
Open Scope Z_scope.

(** ** Basic data *)

Definition Identifier := Z.
Definition Cid := Z.
Definition ExecutionData := Z.
Definition Duration := Z.

(** uint64 arithmetic wraps around. *)
Definition wrap64 (z : Z) : Z := z mod 2 ^ 64.

Record Block := { BlockID_of : Identifier; HeaderHeight : Z }.

Record ExecutionResult := { ExecutionDataID : Identifier }.

(** status.BlockEntry, with the fields the requester reads and writes. *)
Record BlockEntry := {
  BlockID : Identifier;
  Height : Z;
  EntryData : option ExecutionData
}.

Record ExecutionDataConfig := {
  StartBlockHeight : Z;
  MaxCachedEntries : Z;
  MaxSearchAhead : Z;
  FetchTimeout : Duration;
  RetryDelay : Duration;
  MaxRetryDelay : Duration;
  CheckEnabled : bool
}.

(** ** Errors

    A Go error is a chain: [Wrap k cause] is an error of kind [k] whose
    [Unwrap] is [cause] (a typed error with a cause, or [fmt.Errorf] with
    [%w]); [Multi] is a [*multierror.Error].  [errors.Is] and [errors.As]
    walk the chain. *)

Inductive errKind :=
| MalformedDataError
| BlobSizeLimitExceededError
| ErrBlobTreeDepthExceeded
| BlobNotFoundError
| DeadlineExceeded
| Canceled
| ErrNotFound
| ErrHashMismatch
| RequesterHalted
| Errorf (msg : string).

#[local] Set Warnings "-register-all".
Inductive error :=
| Sentinel (k : errKind)
| Wrap (k : errKind) (cause : error)
| Multi (errs : list error).

#[local] Set Warnings "register-all".

Definition errKind_eq_dec (a b : errKind) : {a = b} + {a <> b}.
Proof. decide equality; apply string_dec. Defined.

Definition kind_eqb (a b : errKind) : bool :=
  if errKind_eq_dec a b then true else false.

Fixpoint has_kind (k : errKind) (e : error) : bool :=
  match e with
  | Sentinel k' => kind_eqb k k'
  | Wrap k' cause => kind_eqb k k' || has_kind k cause
  | Multi errs =>
      (fix any (l : list error) : bool :=
         match l with
         | [] => false
         | x :: l' => has_kind k x || any l'
         end) errs
  end.

(** [errors.Is(err, target)] / [errors.As(err, &target)] for a possibly nil
    [err]. *)
Definition errors_Is (err : option error) (k : errKind) : bool :=
  match err with
  | None => false
  | Some e => has_kind k e
  end.

Definition ErrRequesterHalted : error := Sentinel RequesterHalted.

Definition isInvalidBlobError (err : option error) : bool :=
  errors_Is err MalformedDataError
  || errors_Is err BlobSizeLimitExceededError
  || errors_Is err ErrBlobTreeDepthExceeded.

Definition isBlobNotFoundError (err : option error) : bool :=
  errors_Is err BlobNotFoundError.

Inductive result (A : Type) :=
| Ok (a : A)
| Fail (e : error).
Arguments Ok {A} a.
Arguments Fail {A} e.

(** ** Contexts, events and state *)

Inductive Context :=
| SignalerCtx
| WithTimeout (parent : Context) (d : Duration).

Definition Callback := nat.

(** What the requester does to the outside, in order.  Metric events leave
    out durations; only error-level log lines are kept. *)
Inductive Event :=
| EvLogError (msg : string)
| EvFetchStarted
| EvFetchFinished (success : bool) (height : Z)
| EvFetchRetried
| EvHaltedMetric
| EvNotificationSent (height : Z)
| EvGet (ctx : Context) (id : Identifier)
| EvAdd (ctx : Context) (ed : ExecutionData)
| EvCheck (root : Identifier)
| EvDeleteBlob (cid : Cid)
| EvHalt
| EvFetched (entry : BlockEntry)
| EvSleep (d : Duration)
| EvCallback (fn : Callback) (ed : option ExecutionData)
| EvComplete
| EvReady.

(** The collaborators.  Calls whose answer may change over time are indexed
    by the number of earlier calls. *)
Record World := {
  resultsByBlockID : Identifier -> result ExecutionResult;
  blocksByHeight : Z -> result Block;
  edsGet : nat -> Identifier -> result ExecutionData;
  edsAdd : nat -> ExecutionData -> option error;
  ctxErr : nat -> option error;
  edsCheck : Identifier -> list (Cid * error) * bool;
  deleteBlob : Cid -> option error;
  randInt : nat -> Z;
  statusLoad : option error
}.

(** Modelled from the spec: the status cache and the persisted checkpoints
    (package requester/status is not part of the sources).  "halted: bool
    (mirrors ProgressStore.halted)", "last_notified: u64", "entries: mapping
    from height to BlockEntry"; an entry whose data was dropped from memory
    has [EntryData = None]. *)
Record Status := {
  st_halted : bool;
  st_lastNotified : Z;
  st_entries : list BlockEntry
}.

Record State := {
  trace : list Event;
  getCalls : nat;
  addCalls : nat;
  ctxPolls : nat;
  randCalls : nat;
  persistedHalted : bool;
  status : Status;
  consumers : list Callback
}.

(** ** The monad *)

Inductive outcome (A : Type) :=
| Returned (a : A)
| Thrown (e : error)
| Exhausted.
Arguments Returned {A} a.
Arguments Thrown {A} e.
Arguments Exhausted {A}.

Definition M (A : Type) := State -> outcome A * State.

Definition ret {A} (a : A) : M A := fun s => (Returned a, s).

Definition bind {A B} (m : M A) (f : A -> M B) : M B :=
  fun s =>
    match m s with
    | (Returned a, s') => f a s'
    | (Thrown e, s') => (Thrown e, s')
    | (Exhausted, s') => (Exhausted, s')
    end.

(** Modelled from the spec: [ctx.Throw(err)] of the signaler context
    (package irrecoverable is not part of the sources): the error is
    "thrown to the parent scope as a fatal signal" and the worker does not
    go on after it. *)
Definition throw {A} (e : error) : M A := fun s => (Thrown e, s).

Definition exhausted {A} : M A := fun s => (Exhausted, s).

Declare Scope requester_scope.
Notation "x <- m ;; k" := (bind m (fun x => k))
  (at level 61, m at next level, right associativity) : requester_scope.
Notation "m ;;; k" := (bind m (fun _ => k))
  (at level 61, right associativity) : requester_scope.
Open Scope requester_scope.

Definition set_trace (t : list Event) (s : State) : State :=
  {| trace := t; getCalls := getCalls s; addCalls := addCalls s;
     ctxPolls := ctxPolls s; randCalls := randCalls s;
     persistedHalted := persistedHalted s; status := status s;
     consumers := consumers s |}.

Definition set_status (st : Status) (s : State) : State :=
  {| trace := trace s; getCalls := getCalls s; addCalls := addCalls s;
     ctxPolls := ctxPolls s; randCalls := randCalls s;
     persistedHalted := persistedHalted s; status := st;
     consumers := consumers s |}.

Definition emit (ev : Event) : M unit :=
  fun s => (Returned tt, set_trace (trace s ++ [ev]) s).

Definition when (b : bool) (m : M unit) : M unit :=
  if b then m else ret tt.

Definition tick_get (ev : Event) (s : State) : State :=
  {| trace := trace s ++ [ev]; getCalls := S (getCalls s);
     addCalls := addCalls s; ctxPolls := ctxPolls s;
     randCalls := randCalls s; persistedHalted := persistedHalted s;
     status := status s; consumers := consumers s |}.

Definition tick_add (ev : Event) (s : State) : State :=
  {| trace := trace s ++ [ev]; getCalls := getCalls s;
     addCalls := S (addCalls s); ctxPolls := ctxPolls s;
     randCalls := randCalls s; persistedHalted := persistedHalted s;
     status := status s; consumers := consumers s |}.

Definition tick_ctx (s : State) : State :=
  {| trace := trace s; getCalls := getCalls s; addCalls := addCalls s;
     ctxPolls := S (ctxPolls s); randCalls := randCalls s;
     persistedHalted := persistedHalted s; status := status s;
     consumers := consumers s |}.

Definition tick_rand (s : State) : State :=
  {| trace := trace s; getCalls := getCalls s; addCalls := addCalls s;
     ctxPolls := ctxPolls s; randCalls := S (randCalls s);
     persistedHalted := persistedHalted s; status := status s;
     consumers := consumers s |}.

Definition set_consumers (l : list Callback) (s : State) : State :=
  {| trace := trace s; getCalls := getCalls s; addCalls := addCalls s;
     ctxPolls := ctxPolls s; randCalls := randCalls s;
     persistedHalted := persistedHalted s; status := status s;
     consumers := l |}.

Definition set_persistedHalted (b : bool) (s : State) : State :=
  {| trace := trace s; getCalls := getCalls s; addCalls := addCalls s;
     ctxPolls := ctxPolls s; randCalls := randCalls s;
     persistedHalted := b; status := status s;
     consumers := consumers s |}.

(** Jobs handed out by the two job queues: sealed blocks for the block
    consumer, block entries for the notification consumer. *)
Inductive Job :=
| BlockJob (b : Block)
| BlockEntryJob (e : BlockEntry).

(** Modelled from the spec: [status.JobToBlock] (package requester/status
    is not part of the sources); a fetch job is "one per sealed height" and
    carries the sealed block, any other job does not convert. *)
Definition JobToBlock (job : Job) : result Block :=
  match job with
  | BlockJob b => Ok b
  | BlockEntryJob _ => Fail (Sentinel (Errorf "could not convert job to block"))
  end.

(** Modelled from the spec: [status.JobToBlockEntry] (package
    requester/status is not part of the sources); a notification job
    carries the block entry of its height. *)
Definition JobToBlockEntry (job : Job) : result BlockEntry :=
  match job with
  | BlockEntryJob e => Ok e
  | BlockJob _ => Fail (Sentinel (Errorf "could not convert job to block entry"))
  end.

Section Requester.

Variable cfg : ExecutionDataConfig.
Variable w : World.

(** ** Calls on the collaborators *)

Definition eds_Get (ctx : Context) (id : Identifier) : M (result ExecutionData) :=
  fun s => (Returned (edsGet w (getCalls s) id), tick_get (EvGet ctx id) s).

Definition eds_Add (ctx : Context) (ed : ExecutionData) : M (option error) :=
  fun s => (Returned (edsAdd w (addCalls s) ed), tick_add (EvAdd ctx ed) s).

(** [ctx.Err()] of the parent context (nil while it is not done). *)
Definition ctx_Err : M (option error) :=
  fun s => (Returned (ctxErr w (ctxPolls s)), tick_ctx s).

Definition bs_DeleteBlob (cid : Cid) : M (option error) :=
  emit (EvDeleteBlob cid) ;;; ret (deleteBlob w cid).

Definition eds_Check (root : Identifier) : M (list (Cid * error) * bool) :=
  emit (EvCheck root) ;;; ret (edsCheck w root).

(** Modelled from the spec: [Halt()] of the status cache (package
    requester/status is not part of the sources), "halt(): sets halted via
    ProgressStore". *)
Definition status_Halt : M unit :=
  fun s =>
    let st := status s in
    (Returned tt,
     set_trace (trace s ++ [EvHalt])
       (set_persistedHalted true
          (set_status {| st_halted := true;
                         st_lastNotified := st_lastNotified st;
                         st_entries := st_entries st |} s))).

(** Modelled from the spec: [Fetched()] of the status cache, "fetched(entry):
    records that entry.height is downloaded and written back". *)
Definition status_Fetched (entry : BlockEntry) : M unit :=
  fun s =>
    let st := status s in
    (Returned tt,
     set_trace (trace s ++ [EvFetched entry])
       (set_status {| st_halted := st_halted st;
                      st_lastNotified := st_lastNotified st;
                      st_entries := st_entries st ++ [entry] |} s)).

(** Modelled from the spec: [Load()] of the status cache, by which the
    bootstrap worker "reads ProgressStore"; when the load fails the status
    keeps what it was built with ("using defaults" in [bootstrap]). *)
Definition status_Load : M (option error) :=
  fun s =>
    match statusLoad w with
    | Some err => (Returned (Some err), s)
    | None =>
        let st := status s in
        (Returned None,
         set_status {| st_halted := persistedHalted s;
                       st_lastNotified := st_lastNotified st;
                       st_entries := st_entries st |} s)
    end.

(** Modelled from the spec: [Halted()] of the status cache, "halted: bool
    (mirrors ProgressStore.halted)". *)
Definition status_Halted : M bool :=
  fun s => (Returned (st_halted (status s)), s).

(** Modelled from the spec: [LastNotified()] of the status cache,
    "last_notified: u64 (mirrors ProgressStore.notified)". *)
Definition status_LastNotified : M Z :=
  fun s => (Returned (st_lastNotified (status s)), s).

(** ** Fetch worker *)

Definition fetchExecutionData (executionDataID : Identifier) (height : Z)
  : M (result ExecutionData) :=
  let ctx := WithTimeout SignalerCtx (FetchTimeout cfg) in
  emit EvFetchStarted ;;;
  got <- eds_Get ctx executionDataID ;;
  match got with
  | Fail err =>
      emit (EvFetchFinished false height) ;;; ret (Fail err)
  | Ok executionData =>
      added <- eds_Add SignalerCtx executionData ;;
      match added with
      | Some err =>
          emit (EvFetchFinished false height) ;;;
          ret (Fail (Wrap (Errorf "failed to write execution data to blobstore") err))
      | None =>
          emit (EvFetchFinished true height) ;;; ret (Ok executionData)
      end
  end.

Definition err_of {A} (r : result A) : option error :=
  match r with
  | Ok _ => None
  | Fail e => Some e
  end.

Definition processFetchRequest (request : BlockEntry) : M (option error) :=
  result <- match resultsByBlockID w (BlockID request) with
            | Fail err =>
                throw (Wrap (Errorf "failed to lookup execution result for block") err)
            | Ok r => ret r
            end ;;
  fetched <- fetchExecutionData (ExecutionDataID result) (Height request) ;;
  let err := err_of fetched in
  when (isInvalidBlobError err)
    (emit (EvLogError "HALTING REQUESTER: invalid execution data found") ;;;
     status_Halt ;;;
     emit EvHaltedMetric ;;;
     throw ErrRequesterHalted) ;;;
  if isBlobNotFoundError err || errors_Is err DeadlineExceeded
     || errors_Is err Canceled
  then
    emit (EvLogError "failed to get execution data for block") ;;; ret err
  else
    match fetched with
    | Fail e =>
        emit (EvLogError "unexpected error fetching execution data") ;;;
        throw e
    | Ok executionData =>
        status_Fetched {| BlockID := BlockID request;
                          Height := Height request;
                          EntryData := Some executionData |} ;;;
        ret None
    end.

(** Modelled from the spec: a backoff of the retry library (go-retry is
    not part of the sources); the function gives the delay of call number
    [k] of [Next]. *)
Definition Backoff := nat -> M Duration.

(** Modelled from the spec: "exponential backoff: initial retry_delay,
    multiplied by 2 per attempt". *)
Definition exponential (base : Duration) (k : nat) : Duration :=
  base * 2 ^ Z.of_nat k.

(** Modelled from the spec: [retry.NewExponential] of go-retry with
    "initial retry_delay"; the error that [processSealedHeight] handles is
    the library's refusal of a base that is not positive. *)
Definition NewExponential (base : Duration) : result Backoff :=
  if base <=? 0 then Fail (Sentinel (Errorf "base must be greater than 0"))
  else Ok (fun k => ret (exponential base k)).

(** Modelled from the spec: "capped at max_retry_delay". *)
Definition cappedDuration (cap : Duration) (val : Duration) : Duration :=
  Z.min cap val.

(** Modelled from the spec: [retry.WithCappedDuration] of go-retry. *)
Definition WithCappedDuration (cap : Duration) (next : Backoff) : Backoff :=
  fun k => val <- next k ;; ret (cappedDuration cap val).

(** Modelled from the spec: "with +-15% jitter"; the percentage, between
    [-j] and [j], comes from the random draw [r]. *)
Definition jitterPercent (j : Z) (r : Z) (val : Duration) : Duration :=
  let pct := r mod (2 * j + 1) - j in
  val * (100 + pct) / 100.

(** A draw of the random source of the jitter. *)
Definition draw : M Z :=
  fun s => (Returned (randInt w (randCalls s)), tick_rand s).

(** Modelled from the spec: [retry.WithJitterPercent] of go-retry; the
    percentage is drawn anew for every delay. *)
Definition WithJitterPercent (j : Z) (next : Backoff) : Backoff :=
  fun k => val <- next k ;; r <- draw ;; ret (jitterPercent j r val).

(** Modelled from the spec: [retry.Do] (go-retry is not part of the
    sources).  The function is run; a nil error ends the loop; a retryable
    error waits for the next delay and runs it again, "retries forever";
    "retry loops honor cancellation: on cancellation they exit, not retry",
    returning the context's error.  [c] is the state captured by the
    closure, [k] the number of delays taken so far. *)
Fixpoint retry_Do {C : Type} (fuel : nat) (b : Backoff) (k : nat)
  (f : C -> M (option error * C)) (c : C) : M (option error) :=
  match fuel with
  | O => exhausted
  | S fuel' =>
      r <- f c ;;
      match fst r with
      | None => ret None
      | Some _ =>
          d <- b k ;;
          done <- ctx_Err ;;
          match done with
          | Some cerr => ret (Some cerr)
          | None => emit (EvSleep d) ;;; retry_Do fuel' b (S k) f (snd r)
          end
      end
  end.

(** The closure passed to [retry.Do]; [attempt] is its captured counter.
    Every error it returns is wrapped as retryable. *)
Definition fetchAttempt (request : BlockEntry) (attempt : nat)
  : M (option error * nat) :=
  err <- processFetchRequest request ;;
  when (0 <? attempt)%nat (emit EvFetchRetried) ;;;
  ret (err, S attempt).

Definition processSealedHeight (fuel : nat) (request : BlockEntry)
  : M (option error) :=
  backoff <- match NewExponential (RetryDelay cfg) with
             | Fail err =>
                 throw (Wrap (Errorf "failed to create retry mechanism") err)
             | Ok b => ret b
             end ;;
  let backoff := WithCappedDuration (MaxRetryDelay cfg) backoff in
  let backoff := WithJitterPercent 15 backoff in
  retry_Do fuel backoff 0%nat (fetchAttempt request) 0%nat.

Definition processBlockJob (fuel : nat) (job : Job) (complete : M unit)
  : M unit :=
  block <- match JobToBlock job with
           | Fail err => throw (Wrap (Errorf "failed to convert job to block") err)
           | Ok b => ret b
           end ;;
  let request := {| BlockID := BlockID_of block;
                    Height := HeaderHeight block;
                    EntryData := None |} in
  err <- processSealedHeight fuel request ;;
  match err with
  | None => complete
  | Some _ => ret tt
  end.

(** ** Notification worker *)

Definition AddOnExecutionDataFetchedConsumer (fn : Callback) : M unit :=
  fun s => (Returned tt, set_consumers (consumers s ++ [fn]) s).

Fixpoint callEach (fns : list Callback) (executionData : option ExecutionData)
  : M unit :=
  match fns with
  | [] => ret tt
  | fn :: rest =>
      emit (EvCallback fn executionData) ;;; callEach rest executionData
  end.

Definition notifyConsumers (executionData : option ExecutionData) : M unit :=
  fun s => callEach (consumers s) executionData s.

Definition processNotification (entry : BlockEntry) : M unit :=
  data <- match EntryData entry with
          | Some ed => ret (Some ed)
          | None =>
              result <- match resultsByBlockID w (BlockID entry) with
                        | Fail err =>
                            throw (Wrap (Errorf "failed to lookup execution result for block") err)
                        | Ok r => ret r
                        end ;;
              got <- eds_Get SignalerCtx (ExecutionDataID result) ;;
              match got with
              | Fail err =>
                  throw (Wrap (Errorf "failed to get execution data for block") err)
              | Ok ed => ret (Some ed)
              end
          end ;;
  notifyConsumers data ;;;
  emit (EvNotificationSent (Height entry)).

Definition processNotificationJob (job : Job) (complete : M unit) : M unit :=
  entry <- match JobToBlockEntry job with
           | Fail err => throw (Wrap (Errorf "failed to convert job to entry") err)
           | Ok e => ret e
           end ;;
  processNotification entry ;;;
  complete.

(** ** Bootstrap: the datastore check *)

(** [errs.ErrorOrNil()] of the accumulated multierror. *)
Definition ErrorOrNil (errs : list error) : option error :=
  match errs with
  | [] => None
  | _ => Some (Multi errs)
  end.

Fixpoint checkInvalidCIDs (invalidCIDs : list (Cid * error)) (rootID : Identifier)
  (missing : bool) (errs : list error) : M (bool * option error) :=
  match invalidCIDs with
  | [] => ret (missing, ErrorOrNil errs)
  | (cid, err) :: rest =>
      if errors_Is (Some err) ErrNotFound then
        checkInvalidCIDs rest rootID true errs
      else if errors_Is (Some err) ErrHashMismatch then
        del <- bs_DeleteBlob cid ;;
        match del with
        | Some derr =>
            ret (false, Some (Wrap (Errorf "failed to delete corrupted CID") derr))
        | None => checkInvalidCIDs rest rootID true errs
        end
      else if isInvalidBlobError (Some err) then
        ret (false, Some ErrRequesterHalted)
      else
        checkInvalidCIDs rest rootID missing (errs ++ [err])
  end.

Definition checkExecutionData (rootID : Identifier) : M (bool * option error) :=
  checked <- eds_Check rootID ;;
  let '(invalidCIDs, ok) := checked in
  if ok then ret (true, None)
  else checkInvalidCIDs invalidCIDs rootID false [].

(** [localExecutionDataService]: the local service is started and the
    worker waits for it unless the context is done first. *)
Definition localExecutionDataService : M (option error) := ctx_Err.

(** The loop of [checkDatastore] from [height] on; [height++] is uint64. *)
Fixpoint checkHeights (fuel : nat) (height lastHeight : Z) : M (option error) :=
  match fuel with
  | O => exhausted
  | S fuel' =>
      if height <=? lastHeight then
        cerr <- ctx_Err ;;
        match cerr with
        | Some _ => ret None
        | None =>
            match blocksByHeight w height with
            | Fail err =>
                ret (Some (Wrap (Errorf "failed to get block for height") err))
            | Ok block =>
                match resultsByBlockID w (BlockID_of block) with
                | Fail err =>
                    ret (Some (Wrap (Errorf "failed to lookup execution result for block") err))
                | Ok result =>
                    checked <- checkExecutionData (ExecutionDataID result) ;;
                    let '(exists_, err) := checked in
                    when (errors_Is err RequesterHalted)
                      (emit (EvLogError "HALTING REQUESTER: invalid execution data found") ;;;
                       status_Halt ;;;
                       emit EvHaltedMetric ;;;
                       throw ErrRequesterHalted) ;;;
                    match err with
                    | Some e => ret (Some e)
                    | None =>
                        when (negb exists_)
                          (_ <- processSealedHeight fuel'
                                  {| BlockID := BlockID_of block;
                                     Height := height;
                                     EntryData := None |} ;;
                           ret tt) ;;;
                        checkHeights fuel' (wrap64 (height + 1)) lastHeight
                    end
                end
            end
        end
      else ret None
  end.

Definition checkDatastore (fuel : nat) (lastHeight : Z) : M (option error) :=
  lerr <- localExecutionDataService ;;
  if errors_Is lerr Canceled then ret None
  else
    match lerr with
    | Some err =>
        ret (Some (Wrap (Errorf "failed to create local ExecutionDataService") err))
    | None => checkHeights fuel (StartBlockHeight cfg) lastHeight
    end.

(** [bootstrap], from the point where the notification consumer is ready.
    The result tells whether [ready()] was called. *)
Definition bootstrap (fuel : nat) : M bool :=
  lerr <- status_Load ;;
  when (match lerr with Some _ => true | None => false end)
    (emit (EvLogError "failed to load notification state. using defaults")) ;;;
  halted <- status_Halted ;;
  if halted then
    emit (EvLogError "HALTING REQUESTER: requester was halted on a previous run due to invalid data") ;;;
    ret false
  else
    when (CheckEnabled cfg)
      (last <- status_LastNotified ;;
       err <- checkDatastore fuel last ;;
       match err with
       | Some e => throw e
       | None => ret tt
       end) ;;;
    emit EvReady ;;;
    ret true.

End Requester.

(** ** The component: [New] and its three workers

    [New] builds the two job consumers with [rootHeight] as default cursor
    and registers three workers: [bootstrap], the worker that starts the
    block consumer, and the worker that starts the notification consumer.
    Each worker is a small program; [step] interleaves them. *)

Definition rootHeight (cfg : ExecutionDataConfig) : Z :=
  wrap64 (StartBlockHeight cfg - 1).

Inductive BootstrapPc :=
| BootWaiting
| BootReturned (ready : bool)
| BootThrown (e : error).

(** The second worker: [ready()], then wait for the notification consumer
    and for the component, then [blockConsumer.Start]. *)
Inductive BlockWorkerPc :=
| BlkInit
| BlkReady
| BlkStarted.

(** The third worker: [notificationConsumer.Start], wait for it, [ready()]. *)
Inductive NotifWorkerPc :=
| NtfInit
| NtfStarted
| NtfReady.

Record Component := {
  mem : State;
  bootPc : BootstrapPc;
  blkPc : BlockWorkerPc;
  ntfPc : NotifWorkerPc
}.

(** [persistedNotified] is the stored cursor of the notification consumer
    (absent on a first start, when the consumer takes [rootHeight]);
    [haltedFlag] is the stored halted flag. *)
Definition New (cfg : ExecutionDataConfig) (persistedNotified : option Z)
  (haltedFlag : bool) : Component :=
  {| mem := {| trace := []; getCalls := 0; addCalls := 0; ctxPolls := 0;
               randCalls := 0; persistedHalted := haltedFlag;
               status := {| st_halted := false;
                            st_lastNotified :=
                              match persistedNotified with
                              | Some n => n
                              | None => rootHeight cfg
                              end;
                            st_entries := [] |};
               consumers := [] |};
     bootPc := BootWaiting;
     blkPc := BlkInit;
     ntfPc := NtfInit |}.

Definition notificationConsumerReady (c : Component) : bool :=
  match ntfPc c with
  | NtfInit => false
  | _ => true
  end.

(** Modelled from the spec: readiness of the component manager (package
    component is not part of the sources).  The component is ready once
    every worker has called its [ready()]; a bootstrap worker that returns
    without calling it "leaves the component in a permanently-not-ready
    state (no other worker proceeds)". *)
Definition componentReady (c : Component) : bool :=
  match bootPc c, blkPc c, ntfPc c with
  | BootReturned true, (BlkReady | BlkStarted), NtfReady => true
  | _, _, _ => false
  end.

(** Modelled from the spec: the job source of the notification consumer
    (package requester/status is not part of the sources).
    "next_to_notify() returns last_notified + 1 iff last_notified + 1 <=
    highest_fetched AND last_notified + 1 <= highest_consecutive_fetched",
    that is, iff that height has been fetched; after "halt()" it "returns
    nothing".  Heights are uint64. *)
Definition next_to_notify (st : Status) : option BlockEntry :=
  if st_halted st then None
  else find (fun e => Height e =? wrap64 (st_lastNotified st + 1))
            (st_entries st).

(** Modelled from the spec: "mark_notified(height): persists
    notified_height = height via ProgressStore, evicts height from
    entries"; this is what completing a notification job does. *)
Definition mark_notified (height : Z) : M unit :=
  fun s =>
    let st := status s in
    (Returned tt,
     set_trace (trace s ++ [EvComplete])
       (set_status {| st_halted := st_halted st;
                      st_lastNotified := height;
                      st_entries :=
                        filter (fun e => negb (Height e =? height))
                               (st_entries st) |} s)).

(** Dropping the data of cached entries (the cache is bounded). *)
Definition purge (keep : BlockEntry -> bool) (s : State) : State :=
  let st := status s in
  set_status {| st_halted := st_halted st;
                st_lastNotified := st_lastNotified st;
                st_entries :=
                  map (fun e => if keep e then e
                                else {| BlockID := BlockID e;
                                        Height := Height e;
                                        EntryData := None |})
                      (st_entries st) |} s.

Definition set_mem (s : State) (c : Component) : Component :=
  {| mem := s; bootPc := bootPc c; blkPc := blkPc c; ntfPc := ntfPc c |}.

Definition set_bootPc (p : BootstrapPc) (c : Component) : Component :=
  {| mem := mem c; bootPc := p; blkPc := blkPc c; ntfPc := ntfPc c |}.

Definition set_blkPc (p : BlockWorkerPc) (c : Component) : Component :=
  {| mem := mem c; bootPc := bootPc c; blkPc := p; ntfPc := ntfPc c |}.

Definition set_ntfPc (p : NotifWorkerPc) (c : Component) : Component :=
  {| mem := mem c; bootPc := bootPc c; blkPc := blkPc c; ntfPc := p |}.

Definition finished {A} (o : outcome A) : bool :=
  match o with
  | Exhausted => false
  | _ => true
  end.

(** The steps of the component.  The first four rules and the two
    bootstrap rules are the worker bodies of [New] and [bootstrap] with
    their waits.  Modelled from the spec, for the job queues (package
    jobqueue is not part of the sources): a consumer hands out jobs only
    once it is started; the block consumer may hand any sealed block to
    [processBlockJob]; the notification consumer hands the entry of
    [next_to_notify] to [processNotificationJob], and completing that job
    is [mark_notified].  The cache may drop the data of entries at any
    time, and subscribers may register at any time. *)
Inductive step (cfg : ExecutionDataConfig) (w : World)
  : Component -> Component -> Prop :=
| step_ntf_start c :
    ntfPc c = NtfInit ->
    step cfg w c (set_ntfPc NtfStarted c)
| step_ntf_ready c :
    ntfPc c = NtfStarted ->
    step cfg w c (set_ntfPc NtfReady c)
| step_blk_ready c :
    blkPc c = BlkInit ->
    step cfg w c (set_blkPc BlkReady c)
| step_blk_start c :
    blkPc c = BlkReady ->
    notificationConsumerReady c = true ->
    componentReady c = true ->
    step cfg w c (set_blkPc BlkStarted c)
| step_bootstrap c fuel r s' :
    bootPc c = BootWaiting ->
    notificationConsumerReady c = true ->
    bootstrap cfg w fuel (mem c) = (Returned r, s') ->
    step cfg w c (set_bootPc (BootReturned r) (set_mem s' c))
| step_bootstrap_throw c fuel e s' :
    bootPc c = BootWaiting ->
    notificationConsumerReady c = true ->
    bootstrap cfg w fuel (mem c) = (Thrown e, s') ->
    step cfg w c (set_bootPc (BootThrown e) (set_mem s' c))
| step_fetch c fuel job o s' :
    blkPc c = BlkStarted ->
    processBlockJob cfg w fuel job (emit EvComplete) (mem c) = (o, s') ->
    finished o = true ->
    step cfg w c (set_mem s' c)
| step_notify c entry o s' :
    notificationConsumerReady c = true ->
    next_to_notify (status (mem c)) = Some entry ->
    processNotificationJob w (BlockEntryJob entry)
      (mark_notified (Height entry)) (mem c) = (o, s') ->
    step cfg w c (set_mem s' c)
| step_purge c keep :
    step cfg w c (set_mem (purge keep (mem c)) c)
| step_subscribe c fn s' :
    AddOnExecutionDataFetchedConsumer fn (mem c) = (Returned tt, s') ->
    step cfg w c (set_mem s' c).

Inductive reachable (cfg : ExecutionDataConfig) (w : World) (c0 : Component)
  : Component -> Prop :=
| reach_init : reachable cfg w c0 c0
| reach_step c c' :
    reachable cfg w c0 c -> step cfg w c c' -> reachable cfg w c0 c'.

(** ** Reading traces *)

Definition isFetchRetried (ev : Event) : bool :=
  match ev with
  | EvFetchRetried => true
  | _ => false
  end.

Definition fetchRetriedCount (t : list Event) : nat :=
  List.length (filter isFetchRetried t).

Definition isFetchStarted (ev : Event) : bool :=
  match ev with
  | EvFetchStarted => true
  | _ => false
  end.

(** The number of fetch attempts started in a trace. *)
Definition fetchStartedCount (t : list Event) : nat :=
  List.length (filter isFetchStarted t).

Fixpoint sleeps (t : list Event) : list Duration :=
  match t with
  | [] => []
  | EvSleep d :: t' => d :: sleeps t'
  | _ :: t' => sleeps t'
  end.

Fixpoint notifiedHeights (t : list Event) : list Z :=
  match t with
  | [] => []
  | EvNotificationSent h :: t' => h :: notifiedHeights t'
  | _ :: t' => notifiedHeights t'
  end.

Fixpoint callbackCalls (t : list Event) : list (Callback * option ExecutionData) :=
  match t with
  | [] => []
  | EvCallback fn ed :: t' => (fn, ed) :: callbackCalls t'
  | _ :: t' => callbackCalls t'
  end.

(** Events of a fetch: a network get or a fetch-started metric. *)
Definition isFetchEvent (ev : Event) : bool :=
  match ev with
  | EvGet _ _ | EvFetchStarted => true
  | _ => false
  end.

Definition isNotifyEvent (ev : Event) : bool :=
  match ev with
  | EvCallback _ _ | EvNotificationSent _ => true
  | _ => false
  end.

(** ** States written out

    [advance evs g a c r s] is [s] after the events [evs], [g] calls of
    [Get], [a] calls of [Add], [c] polls of the context and [r] random
    draws. *)

Definition advance (evs : list Event) (g a c r : nat) (s : State) : State :=
  {| trace := trace s ++ evs;
     getCalls := g + getCalls s;
     addCalls := a + addCalls s;
     ctxPolls := c + ctxPolls s;
     randCalls := r + randCalls s;
     persistedHalted := persistedHalted s;
     status := status s;
     consumers := consumers s |}.

(** The state after the requester has halted: log line, [Halt()], metric. *)
Definition haltState (s : State) : State :=
  {| trace := trace s ++ [EvLogError "HALTING REQUESTER: invalid execution data found";
                          EvHalt; EvHaltedMetric];
     getCalls := getCalls s;
     addCalls := addCalls s;
     ctxPolls := ctxPolls s;
     randCalls := randCalls s;
     persistedHalted := true;
     status := {| st_halted := true;
                  st_lastNotified := st_lastNotified (status s);
                  st_entries := st_entries (status s) |};
     consumers := consumers s |}.

(** The state after [status.Fetched(entry)]. *)
Definition fetchedState (entry : BlockEntry) (s : State) : State :=
  {| trace := trace s ++ [EvFetched entry];
     getCalls := getCalls s;
     addCalls := addCalls s;
     ctxPolls := ctxPolls s;
     randCalls := randCalls s;
     persistedHalted := persistedHalted s;
     status := {| st_halted := st_halted (status s);
                  st_lastNotified := st_lastNotified (status s);
                  st_entries := st_entries (status s) ++ [entry] |};
     consumers := consumers s |}.

(** The errors [processFetchRequest] hands back to the retry loop. *)
Definition isRetried (err : option error) : bool :=
  isBlobNotFoundError err || errors_Is err DeadlineExceeded
  || errors_Is err Canceled.

Definition fetchCtx (cfg : ExecutionDataConfig) : Context :=
  WithTimeout SignalerCtx (FetchTimeout cfg).

(** The backoff [processSealedHeight] builds when [RetryDelay] is positive. *)
Definition backoff (cfg : ExecutionDataConfig) (w : World) : Backoff :=
  WithJitterPercent w 15
    (WithCappedDuration (MaxRetryDelay cfg)
       (fun k => ret (exponential (RetryDelay cfg) k))).

(** The delay before retry number [k], drawn with random draw number [r]. *)
Definition delay (cfg : ExecutionDataConfig) (w : World) (k r : nat) : Duration :=
  jitterPercent 15 (randInt w r)
    (cappedDuration (MaxRetryDelay cfg) (exponential (RetryDelay cfg) k)).

(** Events of one attempt whose network get failed with a retried error,
    up to and including the wait for the next attempt. *)
Definition failedAttempt (cfg : ExecutionDataConfig) (w : World)
  (id : Identifier) (height : Z) (k attempt : nat) (s : State) : State :=
  advance ([EvFetchStarted; EvGet (fetchCtx cfg) id;
            EvFetchFinished false height;
            EvLogError "failed to get execution data for block"]
           ++ (if (0 <? attempt)%nat then [EvFetchRetried] else [])
           ++ [EvSleep (delay cfg w k (randCalls s))])
    1 0 1 1 s.

Fixpoint failedAttempts (cfg : ExecutionDataConfig) (w : World)
  (id : Identifier) (height : Z) (n k attempt : nat) (s : State) : State :=
  match n with
  | O => s
  | S n' =>
      failedAttempts cfg w id height n' (S k) (S attempt)
        (failedAttempt cfg w id height k attempt s)
  end.

(** The state after an attempt that succeeded. *)
Definition succeededAttempt (cfg : ExecutionDataConfig) (request : BlockEntry)
  (id : Identifier) (ed : ExecutionData) (attempt : nat) (s : State) : State :=
  advance (if (0 <? attempt)%nat then [EvFetchRetried] else []) 0 0 0 0
    (fetchedState {| BlockID := BlockID request; Height := Height request;
                     EntryData := Some ed |}
       (advance [EvFetchStarted; EvGet (fetchCtx cfg) id;
                 EvAdd SignalerCtx ed;
                 EvFetchFinished true (Height request)] 1 1 0 0 s)).

(** A network get, number [g], that fails with an error the loop retries. *)
Definition getFailsRetried (w : World) (id : Identifier) (g : nat) : Prop :=
  exists e, edsGet w g id = Fail e
            /\ isInvalidBlobError (Some e) = false
            /\ isRetried (Some e) = true.

(** ** Concrete configurations and worlds

    The defaults are the constants of the package: fetch timeout and
    maximum retry delay 5 minutes, retry delay 10 seconds (nanoseconds). *)

Definition cfg10 : ExecutionDataConfig :=
  {| StartBlockHeight := 10;
     MaxCachedEntries := 50;
     MaxSearchAhead := 5000;
     FetchTimeout := 300000000000;
     RetryDelay := 10000000000;
     MaxRetryDelay := 300000000000;
     CheckEnabled := false |}.

(** A world in which everything is present and every call succeeds. *)
Definition calmWorld : World :=
  {| resultsByBlockID := fun id => Ok {| ExecutionDataID := id + 1000 |};
     blocksByHeight := fun h => Ok {| BlockID_of := h + 100; HeaderHeight := h |};
     edsGet := fun _ id => Ok (id + 5000);
     edsAdd := fun _ _ => None;
     ctxErr := fun _ => None;
     edsCheck := fun _ => ([], true);
     deleteBlob := fun _ => None;
     randInt := fun n => Z.of_nat n;
     statusLoad := None |}.

Definition with_edsGet (f : nat -> Identifier -> result ExecutionData)
  (w : World) : World :=
  {| resultsByBlockID := resultsByBlockID w;
     blocksByHeight := blocksByHeight w;
     edsGet := f;
     edsAdd := edsAdd w;
     ctxErr := ctxErr w;
     edsCheck := edsCheck w;
     deleteBlob := deleteBlob w;
     randInt := randInt w;
     statusLoad := statusLoad w |}.

Definition with_edsAdd (f : nat -> ExecutionData -> option error)
  (w : World) : World :=
  {| resultsByBlockID := resultsByBlockID w;
     blocksByHeight := blocksByHeight w;
     edsGet := edsGet w;
     edsAdd := f;
     ctxErr := ctxErr w;
     edsCheck := edsCheck w;
     deleteBlob := deleteBlob w;
     randInt := randInt w;
     statusLoad := statusLoad w |}.

Definition with_edsCheck (f : Identifier -> list (Cid * error) * bool)
  (w : World) : World :=
  {| resultsByBlockID := resultsByBlockID w;
     blocksByHeight := blocksByHeight w;
     edsGet := edsGet w;
     edsAdd := edsAdd w;
     ctxErr := ctxErr w;
     edsCheck := f;
     deleteBlob := deleteBlob w;
     randInt := randInt w;
     statusLoad := statusLoad w |}.

Definition with_ctxErr (f : nat -> option error) (w : World) : World :=
  {| resultsByBlockID := resultsByBlockID w;
     blocksByHeight := blocksByHeight w;
     edsGet := edsGet w;
     edsAdd := edsAdd w;
     ctxErr := f;
     edsCheck := edsCheck w;
     deleteBlob := deleteBlob w;
     randInt := randInt w;
     statusLoad := statusLoad w |}.

(** The blob is not found three times, then the get succeeds. *)
Definition flakyWorld : World :=
  with_edsGet (fun n id => if (n <? 3)%nat then Fail (Sentinel BlobNotFoundError)
                           else Ok (id + 5000)) calmWorld.

(** The blob is never found. *)
Definition missingWorld : World :=
  with_edsGet (fun _ _ => Fail (Sentinel BlobNotFoundError)) calmWorld.

(** The network get fails with a plain transport error. *)
Definition transportError : error := Sentinel (Errorf "connection reset by peer").

Definition transportWorld : World :=
  with_edsGet (fun _ _ => Fail transportError) calmWorld.

(** The network get returns malformed data. *)
Definition malformedWorld : World :=
  with_edsGet (fun _ _ => Fail (Wrap MalformedDataError
                                  (Sentinel (Errorf "cbor: unexpected EOF"))))
    calmWorld.

(** The first write to the local blobstore is cut short by a cancelled
    context; later writes succeed. *)
Definition addCanceledWorld : World :=
  with_edsAdd (fun n _ => match n with
                          | O => Some (Sentinel Canceled)
                          | S _ => None
                          end) calmWorld.

(** The parent context is cancelled, and with it every write to the local
    blobstore. *)
Definition shutdownWorld : World :=
  with_ctxErr (fun _ => Some (Sentinel Canceled))
    (with_edsAdd (fun _ _ => Some (Sentinel Canceled)) calmWorld).

(** The local blobstore refuses the write. *)
Definition addRefusedWorld : World :=
  with_edsAdd (fun _ _ => Some (Sentinel (Errorf "disk full"))) calmWorld.

Definition block10 : Block := {| BlockID_of := 110; HeaderHeight := 10 |}.

Definition request10 : BlockEntry :=
  {| BlockID := 110; Height := 10; EntryData := None |}.

Definition result10 : ExecutionResult := {| ExecutionDataID := 1110 |}.

Definition state10 : State := mem (New cfg10 None false).

Definition purgedEntry10 : BlockEntry :=
  {| BlockID := 110; Height := 10; EntryData := None |}.

Definition subscribed10 : State := set_consumers [1%nat; 2%nat] state10.

Definition cachedEntry10 : BlockEntry :=
  {| BlockID := 110; Height := 10; EntryData := Some 6110 |}.

Definition subscribedTwice10 : State := set_consumers [7%nat; 7%nat] state10.

(** How the loop of [checkExecutionData] treats one reported CID: it goes
    on to the next one after a not-found error, after a hash mismatch whose
    blob could be deleted, and after an error of no known kind. *)
Definition loopContinues (w : World) (ce : Cid * error) : bool :=
  let '(cid, err) := ce in
  if errors_Is (Some err) ErrNotFound then true
  else if errors_Is (Some err) ErrHashMismatch then
    match deleteBlob w cid with
    | None => true
    | Some _ => false
    end
  else negb (isInvalidBlobError (Some err)).

(** The error reaches the invalid-blob test of the loop and passes it. *)
Definition classifiedInvalid (err : error) : bool :=
  negb (errors_Is (Some err) ErrNotFound)
  && negb (errors_Is (Some err) ErrHashMismatch)
  && isInvalidBlobError (Some err).

(** The CID is reported missing or corrupted, and a corrupted blob can be
    deleted. *)
Definition repairable (w : World) (ce : Cid * error) : bool :=
  let '(cid, err) := ce in
  if errors_Is (Some err) ErrNotFound then true
  else if errors_Is (Some err) ErrHashMismatch then
    match deleteBlob w cid with
    | None => true
    | Some _ => false
    end
  else false.

(** The blobs the loop of [checkExecutionData] deletes: those whose error
    is a hash mismatch and not a not-found error. *)
Definition deletions (cids : list (Cid * error)) : list Event :=
  flat_map (fun ce : Cid * error =>
              let '(cid, err) := ce in
              if errors_Is (Some err) ErrNotFound then []
              else [EvDeleteBlob cid]) cids.

(** The local check finds blob 7 of the tree of height 10 missing. *)
Definition blobLostWorld : World :=
  with_edsCheck (fun _ => ([(7, Sentinel ErrNotFound)], false)) calmWorld.

(** The local check finds blob 7 of the tree of height 10 corrupted. *)
Definition blobCorruptWorld : World :=
  with_edsCheck (fun _ => ([(7, Sentinel ErrHashMismatch)], false)) calmWorld.

(** The local check finds a blob over the size limit. *)
Definition blobOversizeWorld : World :=
  with_edsCheck (fun _ => ([(7, Sentinel ErrNotFound);
                            (8, Sentinel BlobSizeLimitExceededError)], false))
    calmWorld.

Definition cfgCheck10 : ExecutionDataConfig :=
  {| StartBlockHeight := 10;
     MaxCachedEntries := 50;
     MaxSearchAhead := 5000;
     FetchTimeout := 300000000000;
     RetryDelay := 10000000000;
     MaxRetryDelay := 300000000000;
     CheckEnabled := true |}.

(** The state of a requester that comes up with height 10 notified. *)
Definition stateNotified10 : State := mem (New cfgCheck10 (Some 10) false).

(** The state in which [bootstrap] leaves a requester that came up halted. *)
Definition cameUpHalted (s : State) : State :=
  {| trace := trace s ++ [EvLogError "HALTING REQUESTER: requester was halted on a previous run due to invalid data"];
     getCalls := getCalls s;
     addCalls := addCalls s;
     ctxPolls := ctxPolls s;
     randCalls := randCalls s;
     persistedHalted := persistedHalted s;
     status := {| st_halted := true;
                  st_lastNotified := st_lastNotified (status s);
                  st_entries := st_entries (status s) |};
     consumers := consumers s |}.

(** What must hold of a component that came up halted. *)
Definition staysHalted (c : Component) : Prop :=
  persistedHalted (mem c) = true
  /\ st_entries (status (mem c)) = []
  /\ (bootPc c = BootWaiting \/ bootPc c = BootReturned false)
  /\ blkPc c <> BlkStarted
  /\ filter isFetchEvent (trace (mem c)) = []
  /\ filter isNotifyEvent (trace (mem c)) = []
  /\ ~ In EvReady (trace (mem c)).

(** A requester that stored the halted flag, after its notification
    consumer has started and its bootstrap worker has run. *)
Definition haltedStart10 : Component := New cfg10 (Some 12) true.

Definition haltedComponent10 : Component :=
  set_bootPc (BootReturned false)
    (set_mem (cameUpHalted (mem (set_ntfPc NtfStarted haltedStart10)))
       (set_ntfPc NtfStarted haltedStart10)).

(** What no operation but the completion of a notification job changes:
    the notified cursor and the notifications recorded so far. *)
Definition sameNotified (s s' : State) : Prop :=
  st_lastNotified (status s') = st_lastNotified (status s)
  /\ notifiedHeights (trace s') = notifiedHeights (trace s).

Definition keeps {A} (m : M A) : Prop :=
  forall s, sameNotified s (snd (m s)).

(** The first notification, if any, is for [StartBlockHeight]. *)
Definition startsAtStart (cfg : ExecutionDataConfig) (s : State) : Prop :=
  (notifiedHeights (trace s) = []
   /\ st_lastNotified (status s) = rootHeight cfg)
  \/ exists rest, notifiedHeights (trace s) = StartBlockHeight cfg :: rest.

(** A requester configured to start at height 0. *)
Definition cfg0 : ExecutionDataConfig :=
  {| StartBlockHeight := 0;
     MaxCachedEntries := 50;
     MaxSearchAhead := 5000;
     FetchTimeout := 300000000000;
     RetryDelay := 10000000000;
     MaxRetryDelay := 300000000000;
     CheckEnabled := false |}.

(** A first start at height 0 in the calm world: the workers come up, the
    block of height 0 is fetched, a subscriber registers and the first
    notification job runs. *)
Definition block0 : Block := {| BlockID_of := 100; HeaderHeight := 0 |}.

Definition entry0 : BlockEntry :=
  {| BlockID := 100; Height := 0; EntryData := Some 6100 |}.

Definition run0_1 : Component := set_ntfPc NtfStarted (New cfg0 None false).

Definition run0_2 : Component := set_ntfPc NtfReady run0_1.

Definition run0_3 : Component := set_blkPc BlkReady run0_2.

Definition run0_4 : Component :=
  set_bootPc (BootReturned true)
    (set_mem (snd (bootstrap cfg0 calmWorld 0 (mem run0_3))) run0_3).

Definition run0_5 : Component := set_blkPc BlkStarted run0_4.

Definition run0_6 : Component :=
  set_mem (snd (processBlockJob cfg0 calmWorld 1 (BlockJob block0)
                  (emit EvComplete) (mem run0_5))) run0_5.

Definition run0_7 : Component :=
  set_mem (snd (AddOnExecutionDataFetchedConsumer 1%nat (mem run0_6))) run0_6.

Definition run0_8 : Component :=
  set_mem (snd (processNotificationJob calmWorld (BlockEntryJob entry0)
                  (mark_notified 0) (mem run0_7))) run0_7.

(** ** Worlds and runs for the amended claims *)

Definition with_statusLoad (e : option error) (w : World) : World :=
  {| resultsByBlockID := resultsByBlockID w;
     blocksByHeight := blocksByHeight w;
     edsGet := edsGet w;
     edsAdd := edsAdd w;
     ctxErr := ctxErr w;
     edsCheck := edsCheck w;
     deleteBlob := deleteBlob w;
     randInt := randInt w;
     statusLoad := e |}.

(** The stored state of the requester cannot be read. *)
Definition loadFailsWorld : World :=
  with_statusLoad (Some (Sentinel (Errorf "could not read from badger"))) calmWorld.

(** The blob is not found at the first get; the second get returns
    malformed data. *)
Definition haltLateWorld : World :=
  with_edsGet (fun n _ =>
                 match n with
                 | O => Fail (Sentinel BlobNotFoundError)
                 | S _ => Fail (Wrap MalformedDataError
                                  (Sentinel (Errorf "cbor: unexpected EOF")))
                 end) calmWorld.

(** The get fails with malformed data that wraps a blob-not-found error. *)
Definition malformedNotFound : error :=
  Wrap MalformedDataError (Sentinel BlobNotFoundError).

Definition malformedNotFoundWorld : World :=
  with_edsGet (fun _ _ => Fail malformedNotFound) calmWorld.

Definition block13 : Block := {| BlockID_of := 113; HeaderHeight := 13 |}.

Definition entry13 : BlockEntry :=
  {| BlockID := 113; Height := 13; EntryData := Some 6113 |}.

(** A requester that stored the halted flag and height 12 as notified
    comes up in a world where the load fails: the workers start, the block
    of height 13 is fetched and its notification job runs. *)
Definition runL_0 : Component := New cfg10 (Some 12) true.

Definition runL_1 : Component := set_ntfPc NtfStarted runL_0.

Definition runL_2 : Component := set_ntfPc NtfReady runL_1.

Definition runL_3 : Component := set_blkPc BlkReady runL_2.

Definition runL_4 : Component :=
  set_bootPc (BootReturned true)
    (set_mem (snd (bootstrap cfg10 loadFailsWorld 0 (mem runL_3))) runL_3).

Definition runL_5 : Component := set_blkPc BlkStarted runL_4.

Definition runL_6 : Component :=
  set_mem (snd (processBlockJob cfg10 loadFailsWorld 1 (BlockJob block13)
                  (emit EvComplete) (mem runL_5))) runL_5.

Definition runL_7 : Component :=
  set_mem (snd (processNotificationJob loadFailsWorld (BlockEntryJob entry13)
                  (mark_notified 13) (mem runL_6))) runL_6.

(** ** More worlds and readings of the datastore check *)

Definition with_results (f : Identifier -> result ExecutionResult)
  (w : World) : World :=
  {| resultsByBlockID := f;
     blocksByHeight := blocksByHeight w;
     edsGet := edsGet w;
     edsAdd := edsAdd w;
     ctxErr := ctxErr w;
     edsCheck := edsCheck w;
     deleteBlob := deleteBlob w;
     randInt := randInt w;
     statusLoad := statusLoad w |}.

Definition with_blocks (f : Z -> result Block) (w : World) : World :=
  {| resultsByBlockID := resultsByBlockID w;
     blocksByHeight := f;
     edsGet := edsGet w;
     edsAdd := edsAdd w;
     ctxErr := ctxErr w;
     edsCheck := edsCheck w;
     deleteBlob := deleteBlob w;
     randInt := randInt w;
     statusLoad := statusLoad w |}.

Definition with_deleteBlob (f : Cid -> option error) (w : World) : World :=
  {| resultsByBlockID := resultsByBlockID w;
     blocksByHeight := blocksByHeight w;
     edsGet := edsGet w;
     edsAdd := edsAdd w;
     ctxErr := ctxErr w;
     edsCheck := edsCheck w;
     deleteBlob := f;
     randInt := randInt w;
     statusLoad := statusLoad w |}.

Definition storageError : error := Sentinel (Errorf "key not found").

(** No execution result is stored for any block. *)
Definition noResultWorld : World :=
  with_results (fun _ => Fail storageError) calmWorld.

(** No block is stored for any height. *)
Definition noBlockWorld : World :=
  with_blocks (fun _ => Fail storageError) calmWorld.

(** The blob is never found and the parent context is already cancelled. *)
Definition cancelledWorld : World :=
  with_ctxErr (fun _ => Some (Sentinel Canceled)) missingWorld.

(** The parent context is cancelled from its third poll on. *)
Definition cancelledLaterWorld : World :=
  with_ctxErr (fun n => if (n <? 2)%nat then None else Some (Sentinel Canceled))
    calmWorld.

(** The execution data id of the tree of [height], when the block and its
    execution result are stored. *)
Definition rootAt (w : World) (height : Z) : option Identifier :=
  match blocksByHeight w height with
  | Fail _ => None
  | Ok block =>
      match resultsByBlockID w (BlockID_of block) with
      | Fail _ => None
      | Ok result => Some (ExecutionDataID result)
      end
  end.

(** The tree of [height] is stored and the local check finds it whole. *)
Definition cleanAt (w : World) (height : Z) : bool :=
  match rootAt w height with
  | None => false
  | Some id => snd (edsCheck w id)
  end.

Definition checkEvent (w : World) (height : Z) : list Event :=
  match rootAt w height with
  | None => []
  | Some id => [EvCheck id]
  end.

(** The [n] heights from [height] on. *)
Definition heightsFrom (height : Z) (n : nat) : list Z :=
  map (fun i => height + Z.of_nat i) (seq 0 n).

(** What the loop of [checkExecutionData] has done when it is past a list
    of CIDs: the blobs it deleted, whether it saw one missing or corrupted,
    and the errors of no known kind it collected. *)
Definition loopDeletes (cids : list (Cid * error)) : list Event :=
  flat_map (fun ce : Cid * error =>
              let '(cid, err) := ce in
              if errors_Is (Some err) ErrNotFound then []
              else if errors_Is (Some err) ErrHashMismatch then [EvDeleteBlob cid]
              else []) cids.

Definition loopMissing (cids : list (Cid * error)) : bool :=
  existsb (fun ce : Cid * error =>
             let '(_, err) := ce in
             errors_Is (Some err) ErrNotFound
             || errors_Is (Some err) ErrHashMismatch) cids.

Definition loopOthers (cids : list (Cid * error)) : list error :=
  flat_map (fun ce : Cid * error =>
              let '(_, err) := ce in
              if errors_Is (Some err) ErrNotFound then []
              else if errors_Is (Some err) ErrHashMismatch then []
              else [err]) cids.

Definition isDeleteBlob (ev : Event) : bool :=
  match ev with
  | EvDeleteBlob _ => true
  | _ => false
  end.

(** Blobs 7 and 9 are corrupted, blob 8 is missing; blob 9 cannot be
    deleted. *)
Definition deleteRefusedWorld : World :=
  with_deleteBlob (fun cid => if cid =? 9 then Some (Sentinel (Errorf "read-only datastore"))
                              else None)
    (with_edsCheck (fun _ => ([(7, Sentinel ErrHashMismatch);
                               (8, Sentinel ErrNotFound);
                               (9, Sentinel ErrHashMismatch);
                               (10, Sentinel ErrHashMismatch)], false))
       calmWorld).

(** The local check meets read errors of no known kind on blobs 7 and 9. *)
Definition readErrorWorld : World :=
  with_edsCheck (fun _ => ([(7, Sentinel (Errorf "input/output error"));
                            (8, Sentinel ErrNotFound);
                            (9, Sentinel (Errorf "bad sector"))], false))
    calmWorld.

(** The local check fails without naming a CID. *)
Definition emptyReportWorld : World :=
  with_edsCheck (fun _ => ([], false)) calmWorld.

(** A requester that comes up with heights 10 to 12 notified. *)
Definition stateNotified12 : State := mem (New cfgCheck10 (Some 12) false).

(** The state after a successful [status.Load()]. *)
Definition loaded (s : State) : State :=
  set_status {| st_halted := persistedHalted s;
                st_lastNotified := st_lastNotified (status s);
                st_entries := st_entries (status s) |} s.

(** ** Proofs: tactics and basic facts *)

Ltac state_eq :=
  unfold failedAttempt, succeededAttempt, delay;
  unfold advance, haltState, fetchedState, set_trace, set_status,
    set_persistedHalted, tick_get, tick_add, tick_ctx, tick_rand; cbn;
  repeat rewrite <- app_assoc; cbn; try reflexivity.

Lemma has_kind_Errorf_wrap (k : errKind) (msg : string) (e : error) :
  (forall m, k <> Errorf m) ->
  has_kind k (Wrap (Errorf msg) e) = has_kind k e.
Proof.
  intros Hk. cbn. unfold kind_eqb.
  destruct (errKind_eq_dec k (Errorf msg)) as [Heq | Hne].
  - exfalso. apply (Hk msg). exact Heq.
  - reflexivity.
Qed.

Lemma isInvalidBlobError_wrap (msg : string) (e : error) :
  isInvalidBlobError (Some (Wrap (Errorf msg) e)) = isInvalidBlobError (Some e).
Proof.
  unfold isInvalidBlobError, errors_Is.
  rewrite !has_kind_Errorf_wrap by discriminate.
  reflexivity.
Qed.

Lemma isRetried_wrap (msg : string) (e : error) :
  isRetried (Some (Wrap (Errorf msg) e)) = isRetried (Some e).
Proof.
  unfold isRetried, isBlobNotFoundError, errors_Is.
  rewrite !has_kind_Errorf_wrap by discriminate.
  reflexivity.
Qed.

Lemma advance_nil (s : State) : advance [] 0 0 0 0 s = s.
Proof. destruct s. unfold advance. cbn. rewrite app_nil_r. reflexivity. Qed.

Lemma fetchRetriedCount_app (t1 t2 : list Event) :
  fetchRetriedCount (t1 ++ t2) = (fetchRetriedCount t1 + fetchRetriedCount t2)%nat.
Proof.
  unfold fetchRetriedCount. rewrite filter_app, length_app. reflexivity.
Qed.

Lemma fetchStartedCount_app (t1 t2 : list Event) :
  fetchStartedCount (t1 ++ t2) = (fetchStartedCount t1 + fetchStartedCount t2)%nat.
Proof.
  unfold fetchStartedCount. rewrite filter_app, length_app. reflexivity.
Qed.

Lemma sleeps_app (t1 t2 : list Event) :
  sleeps (t1 ++ t2) = sleeps t1 ++ sleeps t2.
Proof.
  induction t1 as [| ev t1 IH]; [reflexivity |].
  destruct ev; cbn; rewrite IH; reflexivity.
Qed.

Lemma notifiedHeights_app (t1 t2 : list Event) :
  notifiedHeights (t1 ++ t2) = notifiedHeights t1 ++ notifiedHeights t2.
Proof.
  induction t1 as [| ev t1 IH]; [reflexivity |].
  destruct ev; cbn; rewrite IH; reflexivity.
Qed.

Lemma callbackCalls_app (t1 t2 : list Event) :
  callbackCalls (t1 ++ t2) = callbackCalls t1 ++ callbackCalls t2.
Proof.
  induction t1 as [| ev t1 IH]; [reflexivity |].
  destruct ev; cbn; rewrite IH; reflexivity.
Qed.

Section FetchWorker.

Variable cfg : ExecutionDataConfig.
Variable w : World.

(** *** [fetchExecutionData] by cases on the answers of the service *)

Lemma fetchExecutionData_get_fails id height s e :
  edsGet w (getCalls s) id = Fail e ->
  fetchExecutionData cfg w id height s
  = (Returned (Fail e),
     advance [EvFetchStarted; EvGet (fetchCtx cfg) id;
              EvFetchFinished false height] 1 0 0 0 s).
Proof.
  intros Hget. unfold fetchExecutionData, bind, emit, eds_Get. cbn.
  rewrite Hget. cbn. f_equal. state_eq.
Qed.

Lemma fetchExecutionData_add_fails id height s ed e :
  edsGet w (getCalls s) id = Ok ed ->
  edsAdd w (addCalls s) ed = Some e ->
  fetchExecutionData cfg w id height s
  = (Returned (Fail (Wrap (Errorf "failed to write execution data to blobstore") e)),
     advance [EvFetchStarted; EvGet (fetchCtx cfg) id; EvAdd SignalerCtx ed;
              EvFetchFinished false height] 1 1 0 0 s).
Proof.
  intros Hget Hadd. unfold fetchExecutionData, bind, emit, eds_Get, eds_Add. cbn.
  rewrite Hget. cbn. rewrite Hadd. cbn. f_equal. state_eq.
Qed.

Lemma fetchExecutionData_succeeds id height s ed :
  edsGet w (getCalls s) id = Ok ed ->
  edsAdd w (addCalls s) ed = None ->
  fetchExecutionData cfg w id height s
  = (Returned (Ok ed),
     advance [EvFetchStarted; EvGet (fetchCtx cfg) id; EvAdd SignalerCtx ed;
              EvFetchFinished true height] 1 1 0 0 s).
Proof.
  intros Hget Hadd. unfold fetchExecutionData, bind, emit, eds_Get, eds_Add. cbn.
  rewrite Hget. cbn. rewrite Hadd. cbn. f_equal. state_eq.
Qed.

(** *** [processFetchRequest] by cases on the fetch outcome *)

Lemma processFetchRequest_invalid request result err s s1 :
  resultsByBlockID w (BlockID request) = Ok result ->
  fetchExecutionData cfg w (ExecutionDataID result) (Height request) s
  = (Returned (Fail err), s1) ->
  isInvalidBlobError (Some err) = true ->
  processFetchRequest cfg w request s = (Thrown ErrRequesterHalted, haltState s1).
Proof.
  intros Hres Hfetch Hinv.
  unfold processFetchRequest, bind at 1.
  rewrite Hres. cbn [ret].
  unfold bind at 1. rewrite Hfetch.
  cbn [err_of]. rewrite Hinv.
  cbn. f_equal. state_eq.
Qed.

Lemma processFetchRequest_retried request result err s s1 :
  resultsByBlockID w (BlockID request) = Ok result ->
  fetchExecutionData cfg w (ExecutionDataID result) (Height request) s
  = (Returned (Fail err), s1) ->
  isInvalidBlobError (Some err) = false ->
  isRetried (Some err) = true ->
  processFetchRequest cfg w request s
  = (Returned (Some err),
     advance [EvLogError "failed to get execution data for block"] 0 0 0 0 s1).
Proof.
  intros Hres Hfetch Hinv Hretry.
  unfold processFetchRequest, bind at 1.
  rewrite Hres. cbn [ret].
  unfold bind at 1. rewrite Hfetch.
  cbn [err_of]. rewrite Hinv.
  unfold isRetried in Hretry. cbn [when]. unfold bind at 1. cbn [ret].
  rewrite Hretry. reflexivity.
Qed.

Lemma processFetchRequest_unexpected request result err s s1 :
  resultsByBlockID w (BlockID request) = Ok result ->
  fetchExecutionData cfg w (ExecutionDataID result) (Height request) s
  = (Returned (Fail err), s1) ->
  isInvalidBlobError (Some err) = false ->
  isRetried (Some err) = false ->
  processFetchRequest cfg w request s
  = (Thrown err,
     advance [EvLogError "unexpected error fetching execution data"] 0 0 0 0 s1).
Proof.
  intros Hres Hfetch Hinv Hretry.
  unfold processFetchRequest, bind at 1.
  rewrite Hres. cbn [ret].
  unfold bind at 1. rewrite Hfetch.
  cbn [err_of]. rewrite Hinv.
  unfold isRetried in Hretry. cbn [when]. unfold bind at 1. cbn [ret].
  rewrite Hretry. reflexivity.
Qed.

Lemma processFetchRequest_fetched request result ed s s1 :
  resultsByBlockID w (BlockID request) = Ok result ->
  fetchExecutionData cfg w (ExecutionDataID result) (Height request) s
  = (Returned (Ok ed), s1) ->
  processFetchRequest cfg w request s
  = (Returned None,
     fetchedState {| BlockID := BlockID request; Height := Height request;
                     EntryData := Some ed |} s1).
Proof.
  intros Hres Hfetch.
  unfold processFetchRequest, bind at 1.
  rewrite Hres. cbn [ret].
  unfold bind at 1. rewrite Hfetch.
  reflexivity.
Qed.

(** *** The retry loop *)

Lemma retry_Do_failed request result fuel k attempt s :
  resultsByBlockID w (BlockID request) = Ok result ->
  getFailsRetried w (ExecutionDataID result) (getCalls s) ->
  ctxErr w (ctxPolls s) = None ->
  retry_Do w (S fuel) (backoff cfg w) k (fetchAttempt cfg w request) attempt s
  = retry_Do w fuel (backoff cfg w) (S k) (fetchAttempt cfg w request) (S attempt)
      (failedAttempt cfg w (ExecutionDataID result) (Height request) k attempt s).
Proof.
  intros Hres (e & Hget & Hinv & Hretry) Hctx.
  pose proof (processFetchRequest_retried request result e s _ Hres
                (fetchExecutionData_get_fails _ (Height request) s e Hget)
                Hinv Hretry) as Hp.
  cbn [retry_Do]. unfold bind at 1. unfold fetchAttempt at 1.
  unfold bind at 1. rewrite Hp.
  destruct attempt as [| attempt']; cbn [Nat.ltb Nat.leb when];
    unfold bind, ret, emit, backoff, WithJitterPercent, WithCappedDuration, draw, ctx_Err; cbn;
    rewrite Hctx; cbn; f_equal; state_eq.
Qed.

Lemma retry_Do_failures request result n :
  forall fuel k attempt s,
    resultsByBlockID w (BlockID request) = Ok result ->
    (forall i, (i < n)%nat ->
               getFailsRetried w (ExecutionDataID result) (i + getCalls s)%nat) ->
    (forall i, (i < n)%nat -> ctxErr w (i + ctxPolls s)%nat = None) ->
    retry_Do w (n + fuel)%nat (backoff cfg w) k (fetchAttempt cfg w request) attempt s
    = retry_Do w fuel (backoff cfg w) (n + k)%nat (fetchAttempt cfg w request) (n + attempt)%nat
        (failedAttempts cfg w (ExecutionDataID result) (Height request)
           n k attempt s).
Proof.
  induction n as [| n IH]; intros fuel k attempt s Hres Hget Hctx.
  - reflexivity.
  - change (S n + fuel)%nat with (S (n + fuel)).
    rewrite (retry_Do_failed request result (n + fuel) k attempt s Hres).
    + rewrite IH.
      * cbn [failedAttempts]. rewrite !Nat.add_succ_r. reflexivity.
      * exact Hres.
      * intros i Hi. cbn. rewrite Nat.add_succ_r.
        apply (Hget (S i)). lia.
      * intros i Hi. cbn. rewrite Nat.add_succ_r.
        apply (Hctx (S i)). lia.
    + apply (Hget 0%nat). lia.
    + apply (Hctx 0%nat). lia.
Qed.

Lemma retry_Do_succeeded request result ed fuel k attempt s :
  resultsByBlockID w (BlockID request) = Ok result ->
  edsGet w (getCalls s) (ExecutionDataID result) = Ok ed ->
  edsAdd w (addCalls s) ed = None ->
  retry_Do w (S fuel) (backoff cfg w) k (fetchAttempt cfg w request) attempt s
  = (Returned None,
     succeededAttempt cfg request (ExecutionDataID result) ed attempt s).
Proof.
  intros Hres Hget Hadd.
  pose proof (processFetchRequest_fetched request result ed s _ Hres
                (fetchExecutionData_succeeds _ (Height request) s ed Hget Hadd))
    as Hp.
  cbn [retry_Do]. unfold bind at 1. unfold fetchAttempt at 1.
  unfold bind at 1. rewrite Hp.
  destruct attempt as [| attempt']; cbn [Nat.ltb Nat.leb when];
    unfold bind, ret, emit; cbn; f_equal; state_eq.
Qed.

(** *** What [failedAttempts] leaves behind *)

Lemma failedAttempts_counters id height n :
  forall k attempt s,
    let s' := failedAttempts cfg w id height n k attempt s in
    getCalls s' = (n + getCalls s)%nat
    /\ addCalls s' = addCalls s
    /\ ctxPolls s' = (n + ctxPolls s)%nat
    /\ randCalls s' = (n + randCalls s)%nat
    /\ status s' = status s
    /\ persistedHalted s' = persistedHalted s
    /\ consumers s' = consumers s.
Proof.
  induction n as [| n IH]; intros k attempt s; cbn zeta.
  - cbn. repeat split.
  - cbn [failedAttempts].
    destruct (IH (S k) (S attempt)
                (failedAttempt cfg w id height k attempt s))
      as (Hg & Ha & Hc & Hr & Hst & Hp & Hcs).
    rewrite Hg, Ha, Hc, Hr, Hst, Hp, Hcs. cbn.
    rewrite !Nat.add_succ_r. repeat split.
Qed.

Lemma failedAttempts_retried id height n :
  forall k attempt s,
    fetchRetriedCount (trace (failedAttempts cfg w id height n k attempt s))
    = (fetchRetriedCount (trace s)
       + match attempt with O => pred n | S _ => n end)%nat.
Proof.
  induction n as [| n IH]; intros k attempt s.
  - cbn. destruct attempt; lia.
  - cbn [failedAttempts]. rewrite IH.
    unfold failedAttempt, advance. cbn [trace].
    rewrite fetchRetriedCount_app.
    destruct attempt as [| a]; cbn; lia.
Qed.

Lemma failedAttempts_sleeps id height n :
  forall k attempt s,
    sleeps (trace (failedAttempts cfg w id height n k attempt s))
    = sleeps (trace s)
      ++ map (fun i => delay cfg w (i + k)%nat (i + randCalls s)%nat) (seq 0 n).
Proof.
  induction n as [| n IH]; intros k attempt s.
  - cbn. rewrite app_nil_r. reflexivity.
  - cbn [failedAttempts]. rewrite IH.
    unfold failedAttempt. unfold advance. cbn [trace randCalls].
    rewrite sleeps_app. rewrite <- app_assoc. f_equal.
    cbn [seq map]. rewrite <- seq_shift, map_map.
    destruct attempt as [| a]; cbn;
      (f_equal; apply map_ext; intros i; rewrite !Nat.add_succ_r; reflexivity).
Qed.

Lemma delay_bounds k r :
  exists pct,
    -15 <= pct <= 15
    /\ delay cfg w k r
       = Z.min (MaxRetryDelay cfg) (RetryDelay cfg * 2 ^ Z.of_nat k)
         * (100 + pct) / 100.
Proof.
  unfold delay, jitterPercent, cappedDuration, exponential.
  exists (randInt w r mod (2 * 15 + 1) - 15). split; [| reflexivity].
  pose proof (Z.mod_pos_bound (randInt w r) (2 * 15 + 1)). lia.
Qed.

Lemma retry_Do_cancelled request result fuel k attempt s cerr :
  resultsByBlockID w (BlockID request) = Ok result ->
  getFailsRetried w (ExecutionDataID result) (getCalls s) ->
  ctxErr w (ctxPolls s) = Some cerr ->
  fst (retry_Do w (S fuel) (backoff cfg w) k (fetchAttempt cfg w request) attempt s)
  = Returned (Some cerr).
Proof.
  intros Hres (e & Hget & Hinv & Hretry) Hctx.
  pose proof (processFetchRequest_retried request result e s _ Hres
                (fetchExecutionData_get_fails _ (Height request) s e Hget)
                Hinv Hretry) as Hp.
  cbn [retry_Do]. unfold bind at 1. unfold fetchAttempt at 1.
  unfold bind at 1. rewrite Hp.
  destruct attempt as [| attempt']; cbn [Nat.ltb Nat.leb when];
    unfold bind, ret, emit, backoff, WithJitterPercent, WithCappedDuration, draw, ctx_Err; cbn;
    rewrite Hctx; reflexivity.
Qed.

Lemma retry_Do_never_done request result fuel :
  forall k attempt s,
    resultsByBlockID w (BlockID request) = Ok result ->
    (forall i, getFailsRetried w (ExecutionDataID result) (i + getCalls s)%nat) ->
    (forall i, ctxErr w (i + ctxPolls s)%nat = None) ->
    fst (retry_Do w fuel (backoff cfg w) k (fetchAttempt cfg w request) attempt s)
    = Exhausted.
Proof.
  induction fuel as [| fuel IH]; intros k attempt s Hres Hget Hctx.
  - reflexivity.
  - rewrite (retry_Do_failed request result fuel k attempt s Hres
               (Hget 0%nat) (Hctx 0%nat)).
    apply IH.
    + exact Hres.
    + intros i. cbn. rewrite Nat.add_succ_r. apply (Hget (S i)).
    + intros i. cbn. rewrite Nat.add_succ_r. apply (Hctx (S i)).
Qed.

Lemma retry_Do_thrown request fuel k attempt s e s1 :
  processFetchRequest cfg w request s = (Thrown e, s1) ->
  retry_Do w (S fuel) (backoff cfg w) k (fetchAttempt cfg w request) attempt s
  = (Thrown e, s1).
Proof.
  intros Hp. cbn [retry_Do]. unfold bind at 1. unfold fetchAttempt at 1.
  unfold bind at 1. rewrite Hp. reflexivity.
Qed.

Lemma processSealedHeight_retry fuel request s :
  0 < RetryDelay cfg ->
  processSealedHeight cfg w fuel request s
  = retry_Do w fuel (backoff cfg w) 0%nat (fetchAttempt cfg w request) 0%nat s.
Proof.
  intros Hpos. unfold processSealedHeight, NewExponential.
  replace (RetryDelay cfg <=? 0) with false by (symmetry; apply Z.leb_gt; lia).
  reflexivity.
Qed.

Lemma processSealedHeight_no_backoff fuel request s :
  RetryDelay cfg <= 0 ->
  processSealedHeight cfg w fuel request s
  = (Thrown (Wrap (Errorf "failed to create retry mechanism")
               (Sentinel (Errorf "base must be greater than 0"))), s).
Proof.
  intros Hle. unfold processSealedHeight, NewExponential.
  replace (RetryDelay cfg <=? 0) with true by (symmetry; apply Z.leb_le; lia).
  reflexivity.
Qed.

Lemma backoff_run k s :
  backoff cfg w k s = (Returned (delay cfg w k (randCalls s)), tick_rand s).
Proof. reflexivity. Qed.

(** *** Inversion: how the loop can return nil *)

Lemma processFetchRequest_returns_nil request s s1 :
  processFetchRequest cfg w request s = (Returned None, s1) ->
  exists result ed,
    resultsByBlockID w (BlockID request) = Ok result
    /\ edsGet w (getCalls s) (ExecutionDataID result) = Ok ed
    /\ edsAdd w (addCalls s) ed = None
    /\ s1 = fetchedState {| BlockID := BlockID request;
                            Height := Height request;
                            EntryData := Some ed |}
              (advance [EvFetchStarted;
                        EvGet (fetchCtx cfg) (ExecutionDataID result);
                        EvAdd SignalerCtx ed;
                        EvFetchFinished true (Height request)] 1 1 0 0 s).
Proof.
  intros Hp.
  destruct (resultsByBlockID w (BlockID request)) as [result | e0] eqn:Hres.
  2:{ unfold processFetchRequest, bind in Hp. rewrite Hres in Hp.
      discriminate Hp. }
  assert (Hfail : forall err s2,
             fetchExecutionData cfg w (ExecutionDataID result)
               (Height request) s = (Returned (Fail err), s2) -> False).
  { intros err s2 Hf.
    destruct (isInvalidBlobError (Some err)) eqn:Hinv.
    - rewrite (processFetchRequest_invalid request result err s s2 Hres Hf Hinv)
        in Hp. discriminate Hp.
    - destruct (isRetried (Some err)) eqn:Hretry.
      + rewrite (processFetchRequest_retried request result err s s2
                   Hres Hf Hinv Hretry) in Hp. discriminate Hp.
      + rewrite (processFetchRequest_unexpected request result err s s2
                   Hres Hf Hinv Hretry) in Hp. discriminate Hp. }
  destruct (edsGet w (getCalls s) (ExecutionDataID result)) as [ed | e1] eqn:Hget.
  2:{ exfalso. eapply Hfail. apply fetchExecutionData_get_fails. exact Hget. }
  destruct (edsAdd w (addCalls s) ed) as [e2 |] eqn:Hadd.
  { exfalso. eapply Hfail. apply fetchExecutionData_add_fails; eassumption. }
  exists result, ed. repeat split; try assumption.
  rewrite (processFetchRequest_fetched request result ed s _ Hres
             (fetchExecutionData_succeeds _ (Height request) s ed Hget Hadd))
    in Hp.
  inversion Hp. reflexivity.
Qed.

Lemma retry_Do_returns_nil request fuel :
  forall k attempt s s1,
    retry_Do w fuel (backoff cfg w) k (fetchAttempt cfg w request) attempt s
    = (Returned None, s1) ->
    exists s0 attempt0 result ed,
      resultsByBlockID w (BlockID request) = Ok result
      /\ edsGet w (getCalls s0) (ExecutionDataID result) = Ok ed
      /\ edsAdd w (addCalls s0) ed = None
      /\ s1 = succeededAttempt cfg request (ExecutionDataID result) ed
                attempt0 s0.
Proof.
  induction fuel as [| fuel IH]; intros k attempt s s1 Hrun.
  - discriminate Hrun.
  - cbn [retry_Do] in Hrun. unfold bind at 1 in Hrun.
    unfold fetchAttempt at 1 in Hrun. unfold bind at 1 in Hrun.
    destruct (processFetchRequest cfg w request s) as [[[err |] | e |] sp] eqn:Hp;
      try discriminate Hrun.
    + (* the attempt failed: either the context ended the loop, or it went on *)
      unfold bind at 1 in Hrun.
      destruct (when (0 <? attempt)%nat (emit EvFetchRetried) sp)
        as [[[] | e |] sq] eqn:Hw; try discriminate Hrun.
      cbn [ret fst snd] in Hrun.
      unfold bind at 1 in Hrun. rewrite backoff_run in Hrun.
      unfold bind at 1 in Hrun. unfold ctx_Err at 1 in Hrun.
      destruct (ctxErr w (ctxPolls (tick_rand sq))) as [cerr |];
        [discriminate Hrun |].
      unfold bind at 1, emit at 1 in Hrun.
      apply IH in Hrun. exact Hrun.
    + (* the attempt succeeded *)
      apply processFetchRequest_returns_nil in Hp.
      destruct Hp as (result & ed & Hres & Hget & Hadd & Hsp).
      exists s, attempt, result, ed. repeat split; try assumption.
      subst sp. unfold bind at 1 in Hrun.
      destruct attempt as [| a]; cbn in Hrun; inversion Hrun; state_eq.
Qed.

(** *** What a returning attempt and a successful run of the loop record *)

Lemma processFetchRequest_returned request s r s1 :
  processFetchRequest cfg w request s = (Returned r, s1) ->
  exists evs,
    trace s1 = trace s ++ evs
    /\ fetchStartedCount evs = 1%nat
    /\ fetchRetriedCount evs = 0%nat
    /\ sleeps evs = []
    /\ randCalls s1 = randCalls s
    /\ ctxPolls s1 = ctxPolls s.
Proof.
  intros Hp.
  destruct (resultsByBlockID w (BlockID request)) as [result | e0] eqn:Hres.
  2:{ unfold processFetchRequest, bind in Hp. rewrite Hres in Hp.
      discriminate Hp. }
  assert (Hfail : forall err evs0 a,
             fetchExecutionData cfg w (ExecutionDataID result)
               (Height request) s
             = (Returned (Fail err), advance evs0 1 a 0 0 s) ->
             s1 = advance [EvLogError "failed to get execution data for block"]
                    0 0 0 0 (advance evs0 1 a 0 0 s)).
  { intros err evs0 a Hf.
    destruct (isInvalidBlobError (Some err)) eqn:Hinv.
    - rewrite (processFetchRequest_invalid request result err s _ Hres Hf Hinv)
        in Hp. discriminate Hp.
    - destruct (isRetried (Some err)) eqn:Hretry.
      + rewrite (processFetchRequest_retried request result err s _
                   Hres Hf Hinv Hretry) in Hp. inversion Hp. reflexivity.
      + rewrite (processFetchRequest_unexpected request result err s _
                   Hres Hf Hinv Hretry) in Hp. discriminate Hp. }
  destruct (edsGet w (getCalls s) (ExecutionDataID result)) as [ed | e1] eqn:Hget.
  2:{ rewrite (Hfail _ _ _ (fetchExecutionData_get_fails _ (Height request) s e1 Hget)).
      eexists. split; [state_eq |]. repeat split. }
  destruct (edsAdd w (addCalls s) ed) as [e2 |] eqn:Hadd.
  { rewrite (Hfail _ _ _ (fetchExecutionData_add_fails _ (Height request) s ed e2
                             Hget Hadd)).
    eexists. split; [state_eq |]. repeat split. }
  rewrite (processFetchRequest_fetched request result ed s _ Hres
             (fetchExecutionData_succeeds _ (Height request) s ed Hget Hadd))
    in Hp.
  inversion Hp. eexists. split; [state_eq |]. repeat split.
Qed.

Lemma retry_Do_success_counts request fuel :
  forall k attempt s s',
    retry_Do w fuel (backoff cfg w) k (fetchAttempt cfg w request) attempt s
    = (Returned None, s') ->
    exists m,
      fetchStartedCount (trace s') = (fetchStartedCount (trace s) + S m)%nat
      /\ fetchRetriedCount (trace s')
         = (fetchRetriedCount (trace s)
            + match attempt with O => m | S _ => S m end)%nat
      /\ sleeps (trace s')
         = sleeps (trace s)
           ++ map (fun i => delay cfg w (i + k)%nat (i + randCalls s)%nat)
                  (seq 0 m).
Proof.
  induction fuel as [| fuel IH]; intros k attempt s s' Hrun.
  - discriminate Hrun.
  - cbn [retry_Do] in Hrun. unfold bind at 1 in Hrun.
    unfold fetchAttempt at 1 in Hrun. unfold bind at 1 in Hrun.
    destruct (processFetchRequest cfg w request s) as [[r | e |] sp] eqn:Hp;
      try discriminate Hrun.
    apply processFetchRequest_returned in Hp.
    destruct Hp as (evs & Htr & Hst & Hre & Hsl & Hrand & Hctx).
    unfold bind at 1 in Hrun.
    assert (Hw : when (0 <? attempt)%nat (emit EvFetchRetried) sp
                 = (Returned tt,
                    advance (if (0 <? attempt)%nat then [EvFetchRetried] else [])
                      0 0 0 0 sp)).
    { destruct attempt; cbn; [rewrite advance_nil | unfold emit; f_equal];
        reflexivity. }
    rewrite Hw in Hrun. cbn [ret fst snd] in Hrun.
    set (sq := advance (if (0 <? attempt)%nat then [EvFetchRetried] else [])
                 0 0 0 0 sp) in Hrun.
    assert (Hsq_started : fetchStartedCount (trace sq)
                          = S (fetchStartedCount (trace s))).
    { unfold sq, advance. cbn [trace]. rewrite Htr.
      rewrite !fetchStartedCount_app, Hst.
      destruct (0 <? attempt)%nat; cbn; lia. }
    assert (Hsq_retried : fetchRetriedCount (trace sq)
                          = (fetchRetriedCount (trace s)
                             + match attempt with O => 0 | S _ => 1 end)%nat).
    { unfold sq, advance. cbn [trace]. rewrite Htr.
      rewrite !fetchRetriedCount_app, Hre. destruct attempt; cbn; lia. }
    assert (Hsq_sleeps : sleeps (trace sq) = sleeps (trace s)).
    { unfold sq, advance. cbn [trace]. rewrite Htr.
      rewrite !sleeps_app, Hsl. destruct (0 <? attempt)%nat; cbn;
        rewrite !app_nil_r; reflexivity. }
    assert (Hsq_rand : randCalls sq = randCalls s) by (unfold sq; cbn; exact Hrand).
    clearbody sq.
    destruct r as [err |].
    + unfold bind at 1 in Hrun. rewrite backoff_run in Hrun.
      unfold bind at 1 in Hrun. unfold ctx_Err at 1 in Hrun.
      destruct (ctxErr w (ctxPolls (tick_rand sq))) as [cerr |];
        [discriminate Hrun |].
      unfold bind at 1, emit at 1 in Hrun.
      apply IH in Hrun. destruct Hrun as (m & Hs & Hr & Hz).
      cbn [trace set_trace tick_ctx tick_rand randCalls] in Hs, Hr, Hz.
      exists (S m). split; [| split].
      * rewrite Hs, fetchStartedCount_app, Hsq_started. cbn. lia.
      * rewrite Hr, fetchRetriedCount_app, Hsq_retried.
        destruct attempt; cbn; lia.
      * rewrite Hz, sleeps_app, Hsq_sleeps, Hsq_rand. cbn [sleeps].
        rewrite <- app_assoc. f_equal. cbn [seq map app]. f_equal.
        rewrite <- seq_shift, map_map. apply map_ext. intros i.
        rewrite !Nat.add_succ_r. reflexivity.
    + inversion Hrun; subst s'. exists 0%nat. split; [| split].
      * rewrite Hsq_started. lia.
      * rewrite Hsq_retried. destruct attempt; lia.
      * rewrite Hsq_sleeps. cbn. rewrite app_nil_r. reflexivity.
Qed.

Lemma retry_Do_returned_counts request fuel :
  forall k attempt s ro s',
    retry_Do w fuel (backoff cfg w) k (fetchAttempt cfg w request) attempt s
    = (Returned ro, s') ->
    exists m,
      fetchStartedCount (trace s') = (fetchStartedCount (trace s) + S m)%nat
      /\ fetchRetriedCount (trace s')
         = (fetchRetriedCount (trace s)
            + match attempt with O => m | S _ => S m end)%nat
      /\ sleeps (trace s')
         = sleeps (trace s)
           ++ map (fun i => delay cfg w (i + k)%nat (i + randCalls s)%nat)
                  (seq 0 m).
Proof.
  induction fuel as [| fuel IH]; intros k attempt s ro s' Hrun.
  - discriminate Hrun.
  - cbn [retry_Do] in Hrun. unfold bind at 1 in Hrun.
    unfold fetchAttempt at 1 in Hrun. unfold bind at 1 in Hrun.
    destruct (processFetchRequest cfg w request s) as [[r | e |] sp] eqn:Hp;
      try discriminate Hrun.
    apply processFetchRequest_returned in Hp.
    destruct Hp as (evs & Htr & Hst & Hre & Hsl & Hrand & Hctx).
    unfold bind at 1 in Hrun.
    assert (Hw : when (0 <? attempt)%nat (emit EvFetchRetried) sp
                 = (Returned tt,
                    advance (if (0 <? attempt)%nat then [EvFetchRetried] else [])
                      0 0 0 0 sp)).
    { destruct attempt; cbn; [rewrite advance_nil | unfold emit; f_equal];
        reflexivity. }
    rewrite Hw in Hrun. cbn [ret fst snd] in Hrun.
    set (sq := advance (if (0 <? attempt)%nat then [EvFetchRetried] else [])
                 0 0 0 0 sp) in Hrun.
    assert (Hsq_started : fetchStartedCount (trace sq)
                          = S (fetchStartedCount (trace s))).
    { unfold sq, advance. cbn [trace]. rewrite Htr.
      rewrite !fetchStartedCount_app, Hst.
      destruct (0 <? attempt)%nat; cbn; lia. }
    assert (Hsq_retried : fetchRetriedCount (trace sq)
                          = (fetchRetriedCount (trace s)
                             + match attempt with O => 0 | S _ => 1 end)%nat).
    { unfold sq, advance. cbn [trace]. rewrite Htr.
      rewrite !fetchRetriedCount_app, Hre. destruct attempt; cbn; lia. }
    assert (Hsq_sleeps : sleeps (trace sq) = sleeps (trace s)).
    { unfold sq, advance. cbn [trace]. rewrite Htr.
      rewrite !sleeps_app, Hsl. destruct (0 <? attempt)%nat; cbn;
        rewrite !app_nil_r; reflexivity. }
    assert (Hsq_rand : randCalls sq = randCalls s) by (unfold sq; cbn; exact Hrand).
    clearbody sq.
    destruct r as [err |].
    + unfold bind at 1 in Hrun. rewrite backoff_run in Hrun.
      unfold bind at 1 in Hrun. unfold ctx_Err at 1 in Hrun.
      destruct (ctxErr w (ctxPolls (tick_rand sq))) as [cerr |].
      * inversion Hrun; subst ro s'. exists 0%nat.
        cbn [trace tick_ctx tick_rand]. split; [| split].
        -- rewrite Hsq_started. lia.
        -- rewrite Hsq_retried. destruct attempt; lia.
        -- rewrite Hsq_sleeps. cbn. rewrite app_nil_r. reflexivity.
      * unfold bind at 1, emit at 1 in Hrun.
        apply IH in Hrun. destruct Hrun as (m & Hs & Hr & Hz).
        cbn [trace set_trace tick_ctx tick_rand randCalls] in Hs, Hr, Hz.
        exists (S m). split; [| split].
        -- rewrite Hs, fetchStartedCount_app, Hsq_started. cbn. lia.
        -- rewrite Hr, fetchRetriedCount_app, Hsq_retried.
           destruct attempt; cbn; lia.
        -- rewrite Hz, sleeps_app, Hsq_sleeps, Hsq_rand. cbn [sleeps].
           rewrite <- app_assoc. f_equal. cbn [seq map app]. f_equal.
           rewrite <- seq_shift, map_map. apply map_ext. intros i.
           rewrite !Nat.add_succ_r. reflexivity.
    + inversion Hrun; subst ro s'. exists 0%nat. split; [| split].
      * rewrite Hsq_started. lia.
      * rewrite Hsq_retried. destruct attempt; lia.
      * rewrite Hsq_sleeps. cbn. rewrite app_nil_r. reflexivity.
Qed.

Lemma processFetchRequest_thrown_events request s e s1 :
  processFetchRequest cfg w request s = (Thrown e, s1) ->
  exists evs,
    trace s1 = trace s ++ evs
    /\ (fetchStartedCount evs <= 1)%nat
    /\ fetchRetriedCount evs = 0%nat
    /\ sleeps evs = [].
Proof.
  intros Hp.
  destruct (resultsByBlockID w (BlockID request)) as [result | e0] eqn:Hres.
  2:{ unfold processFetchRequest, bind in Hp. rewrite Hres in Hp.
      inversion Hp; subst. exists []. rewrite app_nil_r.
      repeat split. cbn. lia. }
  assert (Hfail : forall err evs0 a,
             fetchExecutionData cfg w (ExecutionDataID result)
               (Height request) s
             = (Returned (Fail err), advance evs0 1 a 0 0 s) ->
             s1 = haltState (advance evs0 1 a 0 0 s)
             \/ s1 = advance [EvLogError "unexpected error fetching execution data"]
                       0 0 0 0 (advance evs0 1 a 0 0 s)).
  { intros err evs0 a Hf.
    destruct (isInvalidBlobError (Some err)) eqn:Hinv.
    - rewrite (processFetchRequest_invalid request result err s _ Hres Hf Hinv)
        in Hp. inversion Hp. left. reflexivity.
    - destruct (isRetried (Some err)) eqn:Hretry.
      + rewrite (processFetchRequest_retried request result err s _
                   Hres Hf Hinv Hretry) in Hp. discriminate Hp.
      + rewrite (processFetchRequest_unexpected request result err s _
                   Hres Hf Hinv Hretry) in Hp. inversion Hp. right.
        reflexivity. }
  destruct (edsGet w (getCalls s) (ExecutionDataID result)) as [ed | e1] eqn:Hget.
  2:{ destruct (Hfail _ _ _ (fetchExecutionData_get_fails _ (Height request) s e1 Hget))
        as [Hs1 | Hs1]; rewrite Hs1;
        (eexists; split; [state_eq |]; repeat split; cbn; lia). }
  destruct (edsAdd w (addCalls s) ed) as [e2 |] eqn:Hadd.
  { destruct (Hfail _ _ _ (fetchExecutionData_add_fails _ (Height request) s ed e2
                             Hget Hadd))
      as [Hs1 | Hs1]; rewrite Hs1;
      (eexists; split; [state_eq |]; repeat split; cbn; lia). }
  rewrite (processFetchRequest_fetched request result ed s _ Hres
             (fetchExecutionData_succeeds _ (Height request) s ed Hget Hadd))
    in Hp.
  discriminate Hp.
Qed.

Lemma retry_Do_thrown_counts request fuel :
  forall k attempt s e s',
    retry_Do w fuel (backoff cfg w) k (fetchAttempt cfg w request) attempt s
    = (Thrown e, s') ->
    exists m,
      (fetchStartedCount (trace s') <= fetchStartedCount (trace s) + S m)%nat
      /\ fetchRetriedCount (trace s')
         = (fetchRetriedCount (trace s)
            + match attempt with O => pred m | S _ => m end)%nat
      /\ sleeps (trace s')
         = sleeps (trace s)
           ++ map (fun i => delay cfg w (i + k)%nat (i + randCalls s)%nat)
                  (seq 0 m).
Proof.
  induction fuel as [| fuel IH]; intros k attempt s e s' Hrun.
  - discriminate Hrun.
  - cbn [retry_Do] in Hrun. unfold bind at 1 in Hrun.
    unfold fetchAttempt at 1 in Hrun. unfold bind at 1 in Hrun.
    destruct (processFetchRequest cfg w request s) as [[r | e0 |] sp] eqn:Hp;
      try discriminate Hrun.
    + apply processFetchRequest_returned in Hp.
      destruct Hp as (evs & Htr & Hst & Hre & Hsl & Hrand & Hctx).
      unfold bind at 1 in Hrun.
      assert (Hw : when (0 <? attempt)%nat (emit EvFetchRetried) sp
                   = (Returned tt,
                      advance (if (0 <? attempt)%nat then [EvFetchRetried] else [])
                        0 0 0 0 sp)).
      { destruct attempt; cbn; [rewrite advance_nil | unfold emit; f_equal];
          reflexivity. }
      rewrite Hw in Hrun. cbn [ret fst snd] in Hrun.
      set (sq := advance (if (0 <? attempt)%nat then [EvFetchRetried] else [])
                   0 0 0 0 sp) in Hrun.
      assert (Hsq_started : fetchStartedCount (trace sq)
                            = S (fetchStartedCount (trace s))).
      { unfold sq, advance. cbn [trace]. rewrite Htr.
        rewrite !fetchStartedCount_app, Hst.
        destruct (0 <? attempt)%nat; cbn; lia. }
      assert (Hsq_retried : fetchRetriedCount (trace sq)
                            = (fetchRetriedCount (trace s)
                               + match attempt with O => 0 | S _ => 1 end)%nat).
      { unfold sq, advance. cbn [trace]. rewrite Htr.
        rewrite !fetchRetriedCount_app, Hre. destruct attempt; cbn; lia. }
      assert (Hsq_sleeps : sleeps (trace sq) = sleeps (trace s)).
      { unfold sq, advance. cbn [trace]. rewrite Htr.
        rewrite !sleeps_app, Hsl. destruct (0 <? attempt)%nat; cbn;
          rewrite !app_nil_r; reflexivity. }
      assert (Hsq_rand : randCalls sq = randCalls s)
        by (unfold sq; cbn; exact Hrand).
      clearbody sq.
      destruct r as [err |]; [| discriminate Hrun].
      unfold bind at 1 in Hrun. rewrite backoff_run in Hrun.
      unfold bind at 1 in Hrun. unfold ctx_Err at 1 in Hrun.
      destruct (ctxErr w (ctxPolls (tick_rand sq))) as [cerr |];
        [discriminate Hrun |].
      unfold bind at 1, emit at 1 in Hrun.
      apply IH in Hrun. destruct Hrun as (m & Hs & Hr & Hz).
      cbn [trace set_trace tick_ctx tick_rand randCalls] in Hs, Hr, Hz.
      exists (S m). split; [| split].
      * rewrite fetchStartedCount_app, Hsq_started in Hs. cbn in Hs. lia.
      * rewrite Hr, fetchRetriedCount_app, Hsq_retried.
        destruct attempt; cbn; lia.
      * rewrite Hz, sleeps_app, Hsq_sleeps, Hsq_rand. cbn [sleeps].
        rewrite <- app_assoc. f_equal. cbn [seq map app]. f_equal.
        rewrite <- seq_shift, map_map. apply map_ext. intros i.
        rewrite !Nat.add_succ_r. reflexivity.
    + apply processFetchRequest_thrown_events in Hp.
      destruct Hp as (evs & Htr & Hst & Hre & Hsl).
      inversion Hrun; subst e0 s'. exists 0%nat. rewrite Htr.
      rewrite fetchStartedCount_app, fetchRetriedCount_app, sleeps_app, Hre, Hsl.
      split; [lia |]. split; [destruct attempt; cbn; lia |].
      cbn. reflexivity.
Qed.

End FetchWorker.

(** ** The fetch worker: retries, errors and completion *)

(** C8 as the spec has it fails for an attempt that ends in a throw: the
    metric is recorded after [processFetchRequest] has returned, so when the
    blob is not found at the first attempt and the second attempt meets
    malformed data and halts, two attempts were made and the fetch-retried
    metric was never recorded. *)
Lemma C8_counterexample :
  fst (processSealedHeight cfg10 haltLateWorld 5 request10 state10)
  = Thrown ErrRequesterHalted
  /\ fetchStartedCount
       (trace (snd (processSealedHeight cfg10 haltLateWorld 5 request10 state10)))
     = 2%nat
  /\ fetchRetriedCount
       (trace (snd (processSealedHeight cfg10 haltLateWorld 5 request10 state10)))
     = 0%nat.
Proof. vm_compute. repeat split. Qed.

(** C8, amended: the retry loop around a fetch waits, before retry number
    [i] (counted from 0), the exponential delay [RetryDelay * 2^i] capped
    at [MaxRetryDelay] and moved by a jitter of at most 15 percent either
    way.  The fetch-retried metric is recorded exactly once for every
    attempt after the first that returns to the loop: a run that returns,
    with nil or with the context's error, after [m + 1] attempts has
    recorded it [m] times and waited [m] times; a run that ends in a throw
    after [m] waits has recorded it for the returned attempts after the
    first only, the throwing attempt recording nothing; and [n] failed
    gets followed by a success record it [n] times. *)
Theorem C8_backoff_and_fetch_retried
  (cfg : ExecutionDataConfig) (w : World) (request : BlockEntry) :
  (forall fuel s ro s',
      processSealedHeight cfg w fuel request s = (Returned ro, s') ->
      exists m,
        fetchStartedCount (trace s') = (fetchStartedCount (trace s) + S m)%nat
        /\ fetchRetriedCount (trace s') = (fetchRetriedCount (trace s) + m)%nat
        /\ sleeps (trace s')
           = sleeps (trace s)
             ++ map (fun i => delay cfg w i (i + randCalls s)%nat) (seq 0 m))
  /\ (forall fuel s e s',
         processSealedHeight cfg w fuel request s = (Thrown e, s') ->
         exists m,
           (fetchStartedCount (trace s') <= fetchStartedCount (trace s) + S m)%nat
           /\ fetchRetriedCount (trace s')
              = (fetchRetriedCount (trace s) + pred m)%nat
           /\ sleeps (trace s')
              = sleeps (trace s)
                ++ map (fun i => delay cfg w i (i + randCalls s)%nat) (seq 0 m))
  /\ (forall result ed n fuel s,
         0 < RetryDelay cfg ->
         resultsByBlockID w (BlockID request) = Ok result ->
         (forall i, (i < n)%nat ->
            getFailsRetried w (ExecutionDataID result) (i + getCalls s)%nat) ->
         (forall i, (i < n)%nat -> ctxErr w (i + ctxPolls s)%nat = None) ->
         edsGet w (n + getCalls s)%nat (ExecutionDataID result) = Ok ed ->
         edsAdd w (addCalls s) ed = None ->
         exists s',
           processSealedHeight cfg w (n + S fuel) request s = (Returned None, s')
           /\ getCalls s' = (S n + getCalls s)%nat
           /\ fetchRetriedCount (trace s') = (fetchRetriedCount (trace s) + n)%nat
           /\ sleeps (trace s')
              = sleeps (trace s)
                ++ map (fun i => delay cfg w i (i + randCalls s)%nat) (seq 0 n))
  /\ (forall i r, exists pct,
         -15 <= pct <= 15
         /\ delay cfg w i r
            = Z.min (MaxRetryDelay cfg) (RetryDelay cfg * 2 ^ Z.of_nat i)
              * (100 + pct) / 100).
Proof.
  split; [| split; [| split]].
  - intros fuel s ro s' Hrun.
    assert (Hpos : 0 < RetryDelay cfg).
    { destruct (Z.leb_spec (RetryDelay cfg) 0) as [Hle | Hgt]; [| exact Hgt].
      exfalso.
      rewrite processSealedHeight_no_backoff in Hrun by exact Hle.
      discriminate Hrun. }
    rewrite processSealedHeight_retry in Hrun by exact Hpos.
    apply retry_Do_returned_counts in Hrun.
    destruct Hrun as (m & Hs & Hr & Hz). exists m.
    split; [exact Hs |]. split; [exact Hr |].
    rewrite Hz. f_equal. apply map_ext. intros i.
    rewrite Nat.add_0_r. reflexivity.
  - intros fuel s e s' Hrun.
    destruct (Z.leb_spec (RetryDelay cfg) 0) as [Hle | Hgt].
    + rewrite processSealedHeight_no_backoff in Hrun by exact Hle.
      inversion Hrun; subst. exists 0%nat. cbn. rewrite app_nil_r.
      split; [lia |]. split; [lia | reflexivity].
    + rewrite processSealedHeight_retry in Hrun by exact Hgt.
      apply retry_Do_thrown_counts in Hrun.
      destruct Hrun as (m & Hs & Hr & Hz). exists m.
      split; [exact Hs |]. split; [exact Hr |].
      rewrite Hz. f_equal. apply map_ext. intros i.
      rewrite Nat.add_0_r. reflexivity.
  - intros result ed n fuel s Hpos Hres Hfail Hctx Hget Hadd.
    set (id := ExecutionDataID result).
    set (sn := failedAttempts cfg w id (Height request) n 0 0 s).
    destruct (failedAttempts_counters cfg w id (Height request) n 0%nat 0%nat s)
      as (Hg & Ha & _ & _ & _ & _ & _).
    fold sn in Hg, Ha.
    exists (succeededAttempt cfg request id ed (n + 0) sn).
    split; [| split; [| split]].
    + rewrite processSealedHeight_retry by exact Hpos.
      rewrite (retry_Do_failures cfg w request result n (S fuel) 0%nat 0%nat s
                 Hres Hfail Hctx).
      apply retry_Do_succeeded.
      * exact Hres.
      * fold id. fold sn. rewrite Hg. exact Hget.
      * fold id. fold sn. rewrite Ha. exact Hadd.
    + unfold succeededAttempt, fetchedState, advance. cbn [getCalls].
      rewrite Hg. reflexivity.
    + unfold succeededAttempt, fetchedState, advance. cbn [trace].
      rewrite !fetchRetriedCount_app. unfold sn.
      rewrite failedAttempts_retried.
      rewrite Nat.add_0_r. destruct n as [| n']; cbn; lia.
    + unfold succeededAttempt, fetchedState, advance. cbn [trace].
      rewrite !sleeps_app. unfold sn. rewrite failedAttempts_sleeps.
      replace (sleeps (if (0 <? n + 0)%nat then [EvFetchRetried] else []))
        with (@nil Duration) by (destruct (0 <? n + 0)%nat; reflexivity).
      cbn [sleeps]. rewrite !app_nil_r.
      f_equal. apply map_ext. intros i. rewrite Nat.add_0_r. reflexivity.
  - intros i r. apply delay_bounds.
Qed.

Lemma C8_witness :
  (exists s',
      processSealedHeight cfg10 flakyWorld 4 request10 state10 = (Returned None, s')
      /\ fetchRetriedCount (trace s') = 3%nat
      /\ sleeps (trace s') = [8500000000; 17200000000; 34800000000])
  /\ (exists m,
         fetchRetriedCount
           (trace (snd (processSealedHeight cfg10 haltLateWorld 5 request10 state10)))
         = (fetchRetriedCount (trace state10) + pred m)%nat
         /\ sleeps
              (trace (snd (processSealedHeight cfg10 haltLateWorld 5 request10
                             state10)))
            = sleeps (trace state10)
              ++ map (fun i => delay cfg10 haltLateWorld i (i + randCalls state10)%nat)
                     (seq 0 m)).
Proof.
  split.
  - destruct (C8_backoff_and_fetch_retried cfg10 flakyWorld request10)
      as (_ & _ & Hflaky & _).
    destruct (Hflaky result10 6110 3%nat 0%nat state10)
      as (s' & Hrun & _ & Hcount & Hsleeps).
    + reflexivity.
    + reflexivity.
    + intros i Hi. exists (Sentinel BlobNotFoundError).
      destruct i as [| [| [| i]]]; try lia; repeat split; reflexivity.
    + intros i Hi. reflexivity.
    + reflexivity.
    + reflexivity.
    + exists s'. split; [exact Hrun |]. split; [exact Hcount |].
      rewrite Hsleeps. vm_compute. reflexivity.
  - destruct (C8_backoff_and_fetch_retried cfg10 haltLateWorld request10)
      as (_ & Hthrown & _).
    destruct (Hthrown 5%nat state10 ErrRequesterHalted
                (snd (processSealedHeight cfg10 haltLateWorld 5 request10 state10)))
      as (m & _ & Hr & Hz).
    + vm_compute. reflexivity.
    + exists m. split; assumption.
Defined.

(** C4 as the spec has it fails on a generic transport error: it is neither
    invalid nor one of the retried errors, so the worker throws it to the
    parent after a single attempt. *)
Lemma C4_counterexample :
  isInvalidBlobError (Some transportError) = false
  /\ fst (processSealedHeight cfg10 transportWorld 5 request10 state10)
     = Thrown transportError
  /\ getCalls (snd (processSealedHeight cfg10 transportWorld 5 request10 state10))
     = 1%nat.
Proof. vm_compute. repeat split. Qed.

(** C4, amended: a fetch attempt that fails with a blob-not-found,
    deadline-exceeded or cancellation error that is not also invalid data
    is handed back to the retry loop and never thrown; while the parent
    context is not done the loop goes on to the next attempt after every
    such failure, without bound; when the parent context is done the loop
    returns the context's error.  Any other error that is not invalid
    data, such as a generic transport error, is thrown to the parent at
    once; and an error that is invalid data halts the requester even when
    it is also of a retried kind. *)
Theorem C4_retried_errors_and_thrown_errors
  (cfg : ExecutionDataConfig) (w : World) (request : BlockEntry)
  (result : ExecutionResult) :
  resultsByBlockID w (BlockID request) = Ok result ->
  (forall s err s1,
      fetchExecutionData cfg w (ExecutionDataID result) (Height request) s
      = (Returned (Fail err), s1) ->
      isInvalidBlobError (Some err) = false ->
      isRetried (Some err) = true ->
      exists s2,
        processFetchRequest cfg w request s = (Returned (Some err), s2))
  /\ (forall n fuel k attempt s,
         (forall i, (i < n)%nat ->
            getFailsRetried w (ExecutionDataID result) (i + getCalls s)%nat) ->
         (forall i, (i < n)%nat -> ctxErr w (i + ctxPolls s)%nat = None) ->
         exists sn,
           retry_Do w (n + fuel)%nat (backoff cfg w) k (fetchAttempt cfg w request) attempt s
           = retry_Do w fuel (backoff cfg w) (n + k)%nat (fetchAttempt cfg w request)
               (n + attempt)%nat sn
           /\ getCalls sn = (n + getCalls s)%nat)
  /\ (forall fuel s,
         0 < RetryDelay cfg ->
         (forall i, getFailsRetried w (ExecutionDataID result) (i + getCalls s)%nat) ->
         (forall i, ctxErr w (i + ctxPolls s)%nat = None) ->
         fst (processSealedHeight cfg w fuel request s) = Exhausted)
  /\ (forall fuel k attempt s cerr,
         getFailsRetried w (ExecutionDataID result) (getCalls s) ->
         ctxErr w (ctxPolls s) = Some cerr ->
         fst (retry_Do w (S fuel) (backoff cfg w) k (fetchAttempt cfg w request) attempt s)
         = Returned (Some cerr))
  /\ (forall s err s1,
         fetchExecutionData cfg w (ExecutionDataID result) (Height request) s
         = (Returned (Fail err), s1) ->
         isInvalidBlobError (Some err) = false ->
         isRetried (Some err) = false ->
         forall fuel k attempt,
           fst (retry_Do w (S fuel) (backoff cfg w) k (fetchAttempt cfg w request) attempt s)
           = Thrown err)
  /\ (forall s err s1,
         fetchExecutionData cfg w (ExecutionDataID result) (Height request) s
         = (Returned (Fail err), s1) ->
         isInvalidBlobError (Some err) = true ->
         forall fuel k attempt,
           retry_Do w (S fuel) (backoff cfg w) k (fetchAttempt cfg w request) attempt s
           = (Thrown ErrRequesterHalted, haltState s1)).
Proof.
  intros Hres. split; [| split; [| split; [| split; [| split]]]].
  - intros s err s1 Hf Hinv Hretry. eexists.
    apply (processFetchRequest_retried cfg w request result err s s1);
      assumption.
  - intros n fuel k attempt s Hfail Hctx. eexists. split.
    + apply (retry_Do_failures cfg w request result); assumption.
    + apply failedAttempts_counters.
  - intros fuel s Hpos Hfail Hctx.
    rewrite processSealedHeight_retry by exact Hpos.
    apply (retry_Do_never_done cfg w request result); assumption.
  - intros fuel k attempt s cerr Hfail Hctx.
    apply (retry_Do_cancelled cfg w request result); assumption.
  - intros s err s1 Hf Hinv Hretry fuel k attempt.
    erewrite retry_Do_thrown; [reflexivity |].
    apply (processFetchRequest_unexpected cfg w request result err s s1);
      assumption.
  - intros s err s1 Hf Hinv fuel k attempt.
    apply retry_Do_thrown.
    apply (processFetchRequest_invalid cfg w request result err s s1);
      assumption.
Qed.

Lemma C4_witness :
  resultsByBlockID missingWorld (BlockID request10) = Ok result10
  /\ fst (processSealedHeight cfg10 missingWorld 25 request10 state10) = Exhausted
  /\ isRetried (Some malformedNotFound) = true
  /\ fst (processSealedHeight cfg10 malformedNotFoundWorld 5 request10 state10)
     = Thrown ErrRequesterHalted.
Proof.
  destruct (C4_retried_errors_and_thrown_errors cfg10 missingWorld request10
              result10 eq_refl) as (_ & _ & Hforever & _).
  destruct (C4_retried_errors_and_thrown_errors cfg10 malformedNotFoundWorld
              request10 result10 eq_refl) as (_ & _ & _ & _ & _ & Hinvalid).
  split; [reflexivity |]. split; [| split; [reflexivity |]].
  - apply Hforever.
    + reflexivity.
    + intros i. exists (Sentinel BlobNotFoundError). repeat split; reflexivity.
    + intros i. reflexivity.
  - change (processSealedHeight cfg10 malformedNotFoundWorld 5 request10 state10)
      with (retry_Do malformedNotFoundWorld 5 (backoff cfg10 malformedNotFoundWorld)
              0%nat (fetchAttempt cfg10 malformedNotFoundWorld request10) 0%nat
              state10).
    rewrite (Hinvalid state10 malformedNotFound
               (snd (fetchExecutionData cfg10 malformedNotFoundWorld 1110 10 state10))
               eq_refl eq_refl 4%nat 0%nat 0%nat).
    reflexivity.
Defined.

(** C7 as the spec has it fails when the write to the local blobstore fails
    with a cancellation error: the error is handed to the retry loop and
    nothing is thrown.  If the parent context is still live the loop fetches
    and writes again; if it is done the loop returns the context's error
    and the job ends without a throw. *)
Lemma C7_counterexample :
  fst (processFetchRequest cfg10 addCanceledWorld request10 state10)
  = Returned (Some (Wrap (Errorf "failed to write execution data to blobstore")
                      (Sentinel Canceled)))
  /\ fst (processSealedHeight cfg10 addCanceledWorld 2 request10 state10)
     = Returned None
  /\ addCalls (snd (processSealedHeight cfg10 addCanceledWorld 2 request10 state10))
     = 2%nat
  /\ fst (processSealedHeight cfg10 shutdownWorld 2 request10 state10)
     = Returned (Some (Sentinel Canceled))
  /\ fst (processBlockJob cfg10 shutdownWorld 2 (BlockJob block10)
            (emit EvComplete) state10)
     = Returned tt.
Proof. vm_compute. repeat split. Qed.

(** C7, amended: after every successful network get the tree is written
    to the local blobstore with the parent context, not the context that
    carries the fetch timeout; a failure of that write is thrown to the
    parent and not retried, unless it wraps a blob-not-found,
    deadline-exceeded or cancellation error without being invalid data, in
    which case it is handed to the retry loop like a failed get. *)
Theorem C7_write_under_parent_context
  (cfg : ExecutionDataConfig) (w : World) (request : BlockEntry)
  (result : ExecutionResult) (ed : ExecutionData) (s : State) :
  resultsByBlockID w (BlockID request) = Ok result ->
  edsGet w (getCalls s) (ExecutionDataID result) = Ok ed ->
  (exists r s1 success,
      fetchExecutionData cfg w (ExecutionDataID result) (Height request) s
      = (Returned r, s1)
      /\ trace s1
         = trace s ++ [EvFetchStarted;
                       EvGet (WithTimeout SignalerCtx (FetchTimeout cfg))
                         (ExecutionDataID result);
                       EvAdd SignalerCtx ed;
                       EvFetchFinished success (Height request)]
      /\ addCalls s1 = S (addCalls s))
  /\ (forall e,
         edsAdd w (addCalls s) ed = Some e ->
         (isInvalidBlobError (Some e) || negb (isRetried (Some e))) = true ->
         exists s2,
           let thrown :=
             if isInvalidBlobError (Some e) then ErrRequesterHalted
             else Wrap (Errorf "failed to write execution data to blobstore") e in
           processFetchRequest cfg w request s = (Thrown thrown, s2)
           /\ forall fuel k attempt,
               retry_Do w (S fuel) (backoff cfg w) k (fetchAttempt cfg w request) attempt s
               = (Thrown thrown, s2))
  /\ (forall e,
         edsAdd w (addCalls s) ed = Some e ->
         isInvalidBlobError (Some e) = false ->
         isRetried (Some e) = true ->
         fst (processFetchRequest cfg w request s)
         = Returned (Some (Wrap (Errorf "failed to write execution data to blobstore") e))).
Proof.
  intros Hres Hget. split; [| split].
  - destruct (edsAdd w (addCalls s) ed) as [e |] eqn:Hadd.
    + eexists _, _, false. split.
      * apply fetchExecutionData_add_fails; eassumption.
      * split; reflexivity.
    + eexists _, _, true. split.
      * apply fetchExecutionData_succeeds; eassumption.
      * split; reflexivity.
  - intros e Hadd Hfatal.
    pose proof (fetchExecutionData_add_fails cfg w _ (Height request) s ed e
                  Hget Hadd) as Hf.
    destruct (isInvalidBlobError (Some e)) eqn:Hinv.
    + assert (Hinv' : isInvalidBlobError
                        (Some (Wrap (Errorf "failed to write execution data to blobstore") e))
                      = true)
        by (rewrite isInvalidBlobError_wrap; exact Hinv).
      pose proof (processFetchRequest_invalid cfg w request result _ s _
                    Hres Hf Hinv') as Hp.
      eexists. cbn zeta. split; [exact Hp |].
      intros fuel k attempt. apply retry_Do_thrown. exact Hp.
    + cbn in Hfatal. apply negb_true_iff in Hfatal.
      assert (Hinv' : isInvalidBlobError
                        (Some (Wrap (Errorf "failed to write execution data to blobstore") e))
                      = false)
        by (rewrite isInvalidBlobError_wrap; exact Hinv).
      assert (Hretry' : isRetried
                          (Some (Wrap (Errorf "failed to write execution data to blobstore") e))
                        = false)
        by (rewrite isRetried_wrap; exact Hfatal).
      pose proof (processFetchRequest_unexpected cfg w request result _ s _
                    Hres Hf Hinv' Hretry') as Hp.
      eexists. cbn zeta. split; [exact Hp |].
      intros fuel k attempt. apply retry_Do_thrown. exact Hp.
  - intros e Hadd Hinv Hretry.
    pose proof (fetchExecutionData_add_fails cfg w _ (Height request) s ed e
                  Hget Hadd) as Hf.
    erewrite processFetchRequest_retried;
      [reflexivity | exact Hres | exact Hf | |].
    + rewrite isInvalidBlobError_wrap. exact Hinv.
    + rewrite isRetried_wrap. exact Hretry.
Qed.

Lemma C7_witness :
  exists s2,
    processFetchRequest cfg10 addRefusedWorld request10 state10
    = (Thrown (Wrap (Errorf "failed to write execution data to blobstore")
                 (Sentinel (Errorf "disk full"))), s2).
Proof.
  destruct (C7_write_under_parent_context cfg10 addRefusedWorld request10
              result10 6110 state10) as (_ & Hthrown & _).
  - reflexivity.
  - reflexivity.
  - destruct (Hthrown (Sentinel (Errorf "disk full"))) as (s2 & Hp & _).
    + reflexivity.
    + reflexivity.
    + exists s2. exact Hp.
Defined.

(** C10: a block job is completed exactly when the fetch for its height
    returned nil, and the fetch returns nil only after an attempt in which
    the execution data was downloaded, written to the local blobstore and
    recorded in the status cache through [Fetched]; on every other outcome
    the completion callback is not run. *)
Theorem C10_job_completed_iff_fetch_succeeded
  (cfg : ExecutionDataConfig) (w : World) (fuel : nat) (block : Block)
  (complete : M unit) (s : State) (o : outcome (option error)) (s1 : State) :
  let request := {| BlockID := BlockID_of block;
                    Height := HeaderHeight block;
                    EntryData := None |} in
  processSealedHeight cfg w fuel request s = (o, s1) ->
  (o = Returned None ->
   processBlockJob cfg w fuel (BlockJob block) complete s = complete s1
   /\ exists s0 result ed tail,
       let entry := {| BlockID := BlockID_of block;
                       Height := HeaderHeight block;
                       EntryData := Some ed |} in
       resultsByBlockID w (BlockID_of block) = Ok result
       /\ edsGet w (getCalls s0) (ExecutionDataID result) = Ok ed
       /\ edsAdd w (addCalls s0) ed = None
       /\ trace s1
          = trace s0
            ++ [EvFetchStarted;
                EvGet (WithTimeout SignalerCtx (FetchTimeout cfg))
                  (ExecutionDataID result);
                EvAdd SignalerCtx ed;
                EvFetchFinished true (HeaderHeight block);
                EvFetched entry]
            ++ tail
       /\ (tail = [] \/ tail = [EvFetchRetried])
       /\ In entry (st_entries (status s1)))
  /\ (o <> Returned None ->
      processBlockJob cfg w fuel (BlockJob block) complete s
      = (match o with
         | Returned _ => Returned tt
         | Thrown e => Thrown e
         | Exhausted => Exhausted
         end, s1)).
Proof.
  intros request Hrun. split.
  - intros Ho. subst o. split.
    + unfold processBlockJob. cbn [JobToBlock]. unfold bind at 1. cbn [ret].
      fold request. unfold bind at 1. rewrite Hrun. reflexivity.
    + assert (Hpos : 0 < RetryDelay cfg).
      { destruct (Z.leb_spec (RetryDelay cfg) 0) as [Hle | Hgt]; [| exact Hgt].
          exfalso.
        rewrite processSealedHeight_no_backoff in Hrun by exact Hle.
        discriminate Hrun. }
      rewrite processSealedHeight_retry in Hrun by exact Hpos.
      apply retry_Do_returns_nil in Hrun.
      destruct Hrun as (s0 & attempt0 & result & ed & Hres & Hget & Hadd & Hs1).
      exists s0, result, ed,
        (if (0 <? attempt0)%nat then [EvFetchRetried] else []).
      cbn zeta. repeat split; try assumption.
      * subst s1. state_eq.
      * destruct (0 <? attempt0)%nat; [right | left]; reflexivity.
      * subst s1. unfold succeededAttempt, fetchedState, advance.
        cbn [status st_entries]. apply in_or_app. right. left. reflexivity.
  - intros Ho.
    unfold processBlockJob. cbn [JobToBlock]. unfold bind at 1. cbn [ret].
    fold request. unfold bind at 1. rewrite Hrun.
    destruct o as [[e |] | e |]; try reflexivity.
    exfalso. apply Ho. reflexivity.
Qed.

Lemma C10_witness :
  processBlockJob cfg10 calmWorld 1 (BlockJob block10) (emit EvComplete) state10
  = (Returned tt,
     advance [EvComplete] 0 0 0 0
       (snd (processSealedHeight cfg10 calmWorld 1 request10 state10))).
Proof.
  destruct (C10_job_completed_iff_fetch_succeeded cfg10 calmWorld 1 block10
              (emit EvComplete) state10 _ _
              (surjective_pairing
                 (processSealedHeight cfg10 calmWorld 1 request10 state10)))
    as [Hdone _].
  destruct (Hdone eq_refl) as [Hjob _].
  rewrite Hjob. reflexivity.
Defined.

(** ** The notification worker *)

Lemma callEach_run (fns : list Callback) (ed : option ExecutionData) :
  forall s,
    callEach fns ed s
    = (Returned tt, advance (map (fun fn => EvCallback fn ed) fns) 0 0 0 0 s).
Proof.
  induction fns as [| fn rest IH]; intros s.
  - cbn. f_equal. destruct s. state_eq. rewrite app_nil_r. reflexivity.
  - cbn [callEach map]. unfold bind, emit. rewrite IH. f_equal. state_eq.
Qed.

Lemma notifyConsumers_run (ed : option ExecutionData) (s : State) :
  notifyConsumers ed s
  = (Returned tt,
     advance (map (fun fn => EvCallback fn ed) (consumers s)) 0 0 0 0 s).
Proof. unfold notifyConsumers. apply callEach_run. Qed.

Lemma processNotification_cached (w : World) (entry : BlockEntry)
  (ed : ExecutionData) (s : State) :
  EntryData entry = Some ed ->
  processNotification w entry s
  = (Returned tt,
     advance (map (fun fn => EvCallback fn (Some ed)) (consumers s)
              ++ [EvNotificationSent (Height entry)]) 0 0 0 0 s).
Proof.
  intros Hdata. unfold processNotification. rewrite Hdata.
  unfold bind at 1. cbn [ret]. unfold bind at 1.
  rewrite notifyConsumers_run. unfold emit. f_equal. state_eq.
Qed.

Lemma processNotification_refetched (w : World) (entry : BlockEntry)
  (result : ExecutionResult) (ed : ExecutionData) (s : State) :
  EntryData entry = None ->
  resultsByBlockID w (BlockID entry) = Ok result ->
  edsGet w (getCalls s) (ExecutionDataID result) = Ok ed ->
  processNotification w entry s
  = (Returned tt,
     advance ([EvGet SignalerCtx (ExecutionDataID result)]
              ++ map (fun fn => EvCallback fn (Some ed)) (consumers s)
              ++ [EvNotificationSent (Height entry)]) 1 0 0 0 s).
Proof.
  intros Hdata Hres Hget. unfold processNotification. rewrite Hdata, Hres.
  unfold bind at 1. unfold bind at 1. cbn [ret]. unfold bind at 1.
  unfold eds_Get at 1. rewrite Hget. cbn [ret]. unfold bind at 1.
  rewrite notifyConsumers_run. unfold emit. f_equal. state_eq.
Qed.

Lemma processNotification_refetch_fails (w : World) (entry : BlockEntry)
  (result : ExecutionResult) (e : error) (s : State) :
  EntryData entry = None ->
  resultsByBlockID w (BlockID entry) = Ok result ->
  edsGet w (getCalls s) (ExecutionDataID result) = Fail e ->
  processNotification w entry s
  = (Thrown (Wrap (Errorf "failed to get execution data for block") e),
     advance [EvGet SignalerCtx (ExecutionDataID result)] 1 0 0 0 s).
Proof.
  intros Hdata Hres Hget. unfold processNotification. rewrite Hdata, Hres.
  unfold bind at 1. unfold bind at 1. cbn [ret]. unfold bind at 1.
  unfold eds_Get at 1. rewrite Hget. unfold throw. f_equal.
Qed.

(** C6: a notification job whose entry lost its data gets it again by the
    execution data id recorded in the execution result, with a single call
    whose failure is thrown to the parent; then every registered callback
    is called with the data, the notification-sent metric is recorded, and
    only then the job is completed, which stores the height as notified. *)
Theorem C6_notification_job
  (w : World) (entry : BlockEntry) (complete : M unit) (s : State) :
  (forall ed,
      EntryData entry = Some ed ->
      processNotificationJob w (BlockEntryJob entry) complete s
      = complete
          (advance (map (fun fn => EvCallback fn (Some ed)) (consumers s)
                    ++ [EvNotificationSent (Height entry)]) 0 0 0 0 s))
  /\ (forall result ed,
         EntryData entry = None ->
         resultsByBlockID w (BlockID entry) = Ok result ->
         edsGet w (getCalls s) (ExecutionDataID result) = Ok ed ->
         processNotificationJob w (BlockEntryJob entry) complete s
         = complete
             (advance ([EvGet SignalerCtx (ExecutionDataID result)]
                       ++ map (fun fn => EvCallback fn (Some ed)) (consumers s)
                       ++ [EvNotificationSent (Height entry)]) 1 0 0 0 s))
  /\ (forall result e,
         EntryData entry = None ->
         resultsByBlockID w (BlockID entry) = Ok result ->
         edsGet w (getCalls s) (ExecutionDataID result) = Fail e ->
         processNotificationJob w (BlockEntryJob entry) complete s
         = (Thrown (Wrap (Errorf "failed to get execution data for block") e),
            advance [EvGet SignalerCtx (ExecutionDataID result)] 1 0 0 0 s))
  /\ (forall e,
         EntryData entry = None ->
         resultsByBlockID w (BlockID entry) = Fail e ->
         processNotificationJob w (BlockEntryJob entry) complete s
         = (Thrown (Wrap (Errorf "failed to lookup execution result for block") e),
            s))
  /\ (forall s2 s3,
         processNotification w entry s = (Returned tt, s2) ->
         mark_notified (Height entry) s2 = (Returned tt, s3) ->
         st_lastNotified (status s3) = Height entry
         /\ trace s3 = trace s2 ++ [EvComplete]).
Proof.
  split; [| split; [| split; [| split]]].
  - intros ed Hdata. unfold processNotificationJob. cbn [JobToBlockEntry].
    unfold bind at 1. cbn [ret]. unfold bind at 1.
    rewrite (processNotification_cached w entry ed s Hdata). reflexivity.
  - intros result ed Hdata Hres Hget.
    unfold processNotificationJob. cbn [JobToBlockEntry].
    unfold bind at 1. cbn [ret]. unfold bind at 1.
    rewrite (processNotification_refetched w entry result ed s Hdata Hres Hget).
    reflexivity.
  - intros result e Hdata Hres Hget.
    unfold processNotificationJob. cbn [JobToBlockEntry].
    unfold bind at 1. cbn [ret]. unfold bind at 1.
    rewrite (processNotification_refetch_fails w entry result e s Hdata Hres Hget).
    reflexivity.
  - intros e Hdata Hres.
    unfold processNotificationJob. cbn [JobToBlockEntry].
    unfold bind at 1. cbn [ret]. unfold bind at 1.
    unfold processNotification. rewrite Hdata, Hres. reflexivity.
  - intros s2 s3 _ Hmark. unfold mark_notified in Hmark.
    inversion Hmark. split; reflexivity.
Qed.

Lemma C6_witness :
  processNotificationJob calmWorld (BlockEntryJob purgedEntry10)
    (mark_notified 10) subscribed10
  = mark_notified 10
      (advance [EvGet SignalerCtx 1110; EvCallback 1%nat (Some 6110);
                EvCallback 2%nat (Some 6110); EvNotificationSent 10] 1 0 0 0
         subscribed10).
Proof.
  destruct (C6_notification_job calmWorld purgedEntry10 (mark_notified 10)
              subscribed10) as (_ & Hrefetch & _).
  apply (Hrefetch result10 6110); reflexivity.
Defined.

(** C9: the fan-out calls every element of the consumers list once, in
    the order of registration, all with the same execution data; a callback
    registered twice is therefore called twice per notified height. *)
Theorem C9_fan_out_in_registration_order
  (w : World) (ed : option ExecutionData) (s : State) :
  (exists s',
      notifyConsumers ed s = (Returned tt, s')
      /\ trace s' = trace s ++ map (fun fn => EvCallback fn ed) (consumers s)
      /\ consumers s' = consumers s)
  /\ (forall fn,
         exists s2 s3,
           (AddOnExecutionDataFetchedConsumer fn ;;;
            AddOnExecutionDataFetchedConsumer fn) s = (Returned tt, s2)
           /\ consumers s2 = consumers s ++ [fn; fn]
           /\ notifyConsumers ed s2 = (Returned tt, s3)
           /\ callbackCalls (trace s3)
              = callbackCalls (trace s)
                ++ map (fun g => (g, ed)) (consumers s ++ [fn; fn])
           /\ count_occ Nat.eq_dec (consumers s ++ [fn; fn]) fn
              = (count_occ Nat.eq_dec (consumers s) fn + 2)%nat)
  /\ (forall entry data s',
         EntryData entry = Some data ->
         processNotification w entry s = (Returned tt, s') ->
         callbackCalls (trace s')
         = callbackCalls (trace s)
           ++ map (fun g => (g, Some data)) (consumers s)).
Proof.
  assert (Hcalls : forall (d : option ExecutionData) (l : list Callback),
             callbackCalls (map (fun fn => EvCallback fn d) l)
             = map (fun g => (g, d)) l).
  { intros d l. induction l as [| g l IH]; [reflexivity |].
    cbn. rewrite IH. reflexivity. }
  split; [| split].
  - eexists. split; [apply notifyConsumers_run |]. split; reflexivity.
  - intros fn. eexists _, _. split; [reflexivity |].
    split; [cbn; rewrite <- app_assoc; reflexivity |].
    split; [apply notifyConsumers_run |].
    split.
    + unfold advance. cbn [trace consumers set_consumers].
      rewrite callbackCalls_app, Hcalls, <- app_assoc. reflexivity.
    + rewrite count_occ_app. f_equal.
      cbn [count_occ].
      destruct (Nat.eq_dec fn fn) as [_ | Hne]; [reflexivity | contradiction].
  - intros entry data s' Hdata Hrun.
    rewrite (processNotification_cached w entry data s Hdata) in Hrun.
    inversion Hrun. unfold advance. cbn [trace].
    rewrite !callbackCalls_app, Hcalls. cbn. rewrite app_nil_r. reflexivity.
Qed.

Lemma C9_witness :
  callbackCalls
    (trace (snd (processNotification calmWorld cachedEntry10 subscribedTwice10)))
  = [(7%nat, Some 6110); (7%nat, Some 6110)].
Proof.
  destruct (C9_fan_out_in_registration_order calmWorld (Some 6110)
              subscribedTwice10) as (_ & _ & Hjob).
  apply (Hjob cachedEntry10 6110); reflexivity.
Defined.

(** ** The startup check *)

Section DatastoreCheck.

Variable cfg : ExecutionDataConfig.
Variable w : World.

Lemma bs_DeleteBlob_run (cid : Cid) (s : State) :
  bs_DeleteBlob w cid s
  = (Returned (deleteBlob w cid), advance [EvDeleteBlob cid] 0 0 0 0 s).
Proof. unfold bs_DeleteBlob, bind, emit, ret. f_equal. Qed.

Lemma checkInvalidCIDs_invalid (rootID : Identifier) (cid : Cid) (err : error)
  (post : list (Cid * error)) (pre : list (Cid * error)) :
  forall missing errs s,
    forallb (loopContinues w) pre = true ->
    classifiedInvalid err = true ->
    exists s1,
      checkInvalidCIDs w (pre ++ (cid, err) :: post) rootID missing errs s
      = (Returned (false, Some ErrRequesterHalted), s1).
Proof.
  induction pre as [| [c e] pre IH]; intros missing errs s Hpre Hinv.
  - unfold classifiedInvalid in Hinv.
    apply andb_true_iff in Hinv. destruct Hinv as [Hinv Hi].
    apply andb_true_iff in Hinv. destruct Hinv as [Hnf Hhm].
    apply negb_true_iff in Hnf. apply negb_true_iff in Hhm.
    cbn [app checkInvalidCIDs]. rewrite Hnf, Hhm, Hi.
    eexists. reflexivity.
  - cbn [forallb] in Hpre. apply andb_true_iff in Hpre.
    destruct Hpre as [Hce Hpre]. unfold loopContinues in Hce.
    cbn [app checkInvalidCIDs].
    destruct (errors_Is (Some e) ErrNotFound).
    + apply IH; assumption.
    + destruct (errors_Is (Some e) ErrHashMismatch).
      * unfold bind at 1. rewrite bs_DeleteBlob_run.
        destruct (deleteBlob w c); [discriminate Hce |].
        apply IH; assumption.
      * apply negb_true_iff in Hce. rewrite Hce.
        apply IH; assumption.
Qed.

Lemma advance_events (l1 l2 : list Event) (s : State) :
  advance l2 0 0 0 0 (advance l1 0 0 0 0 s) = advance (l1 ++ l2) 0 0 0 0 s.
Proof. unfold advance. cbn. rewrite app_assoc. reflexivity. Qed.

Lemma checkInvalidCIDs_repairable (rootID : Identifier)
  (cids : list (Cid * error)) :
  forall missing s,
    forallb (repairable w) cids = true ->
    checkInvalidCIDs w cids rootID missing [] s
    = (Returned (missing || negb (match cids with [] => true | _ => false end),
                 None),
       advance (deletions cids) 0 0 0 0 s).
Proof.
  induction cids as [| [c e] cids IH]; intros missing s Hall.
  - cbn. rewrite orb_false_r, advance_nil. reflexivity.
  - cbn [forallb] in Hall. apply andb_true_iff in Hall.
    destruct Hall as [Hce Hall]. unfold repairable in Hce.
    cbn [checkInvalidCIDs deletions flat_map].
    destruct (errors_Is (Some e) ErrNotFound) eqn:Hnf.
    + rewrite (IH true s Hall). cbn. rewrite orb_true_r. reflexivity.
    + destruct (errors_Is (Some e) ErrHashMismatch); [| discriminate Hce].
      unfold bind at 1. rewrite bs_DeleteBlob_run.
      destruct (deleteBlob w c); [discriminate Hce |].
      rewrite (IH true _ Hall), advance_events. cbn. rewrite orb_true_r.
      reflexivity.
Qed.

Lemma checkHeights_invalid (fuel : nat) (height lastHeight : Z)
  (block : Block) (result : ExecutionResult) (pre : list (Cid * error))
  (cid : Cid) (err : error) (post : list (Cid * error)) (s : State) :
  height <= lastHeight ->
  ctxErr w (ctxPolls s) = None ->
  blocksByHeight w height = Ok block ->
  resultsByBlockID w (BlockID_of block) = Ok result ->
  edsCheck w (ExecutionDataID result) = (pre ++ (cid, err) :: post, false) ->
  forallb (loopContinues w) pre = true ->
  classifiedInvalid err = true ->
  exists s1,
    checkHeights cfg w (S fuel) height lastHeight s
    = (Thrown ErrRequesterHalted, haltState s1).
Proof.
  intros Hle Hctx Hblock Hres Hcheck Hpre Hinv.
  cbn [checkHeights].
  replace (height <=? lastHeight) with true by (symmetry; apply Z.leb_le; exact Hle).
  unfold bind at 1. unfold ctx_Err at 1. rewrite Hctx, Hblock, Hres.
  unfold bind at 1. unfold checkExecutionData at 1. unfold bind at 1.
  unfold eds_Check at 1. unfold bind at 1. unfold emit at 1. cbn [ret].
  rewrite Hcheck.
  destruct (checkInvalidCIDs_invalid (ExecutionDataID result) cid err post pre
              false [] (set_trace (trace (tick_ctx s) ++ [EvCheck (ExecutionDataID result)])
                          (tick_ctx s)) Hpre Hinv) as (s1 & Hrun).
  rewrite Hrun. exists s1. cbn. f_equal. state_eq.
Qed.

Lemma checkHeights_repairable (fuel : nat) (height lastHeight : Z)
  (block : Block) (result : ExecutionResult) (cids : list (Cid * error))
  (s : State) :
  height <= lastHeight ->
  ctxErr w (ctxPolls s) = None ->
  blocksByHeight w height = Ok block ->
  resultsByBlockID w (BlockID_of block) = Ok result ->
  edsCheck w (ExecutionDataID result) = (cids, false) ->
  cids <> [] ->
  forallb (repairable w) cids = true ->
  checkHeights cfg w (S fuel) height lastHeight s
  = checkHeights cfg w fuel (wrap64 (height + 1)) lastHeight
      (advance (EvCheck (ExecutionDataID result) :: deletions cids) 0 0 1 0 s).
Proof.
  intros Hle Hctx Hblock Hres Hcheck Hne Hall.
  cbn [checkHeights].
  replace (height <=? lastHeight) with true by (symmetry; apply Z.leb_le; exact Hle).
  unfold bind at 1. unfold ctx_Err at 1. rewrite Hctx, Hblock, Hres.
  unfold bind at 1. unfold checkExecutionData at 1. unfold bind at 1.
  unfold eds_Check at 1. unfold bind at 1. unfold emit at 1. cbn [ret].
  rewrite Hcheck.
  rewrite (checkInvalidCIDs_repairable (ExecutionDataID result) cids false _ Hall).
  destruct cids as [| ce cids]; [contradiction |].
  cbn [orb negb errors_Is when]. unfold bind at 1. cbn [ret].
  unfold bind at 1. cbn [ret]. f_equal. state_eq.
Qed.

Lemma checkDatastore_loop (fuel : nat) (lastHeight : Z) (s : State) :
  ctxErr w (ctxPolls s) = None ->
  checkDatastore cfg w fuel lastHeight s
  = checkHeights cfg w fuel (StartBlockHeight cfg) lastHeight (tick_ctx s).
Proof.
  intros Hctx. unfold checkDatastore, localExecutionDataService.
  unfold bind at 1. unfold ctx_Err at 1. rewrite Hctx. reflexivity.
Qed.

End DatastoreCheck.

(** C1: whenever a fetch outcome is classified as invalid blob data, in a
    fetch attempt or at the invalid-blob test of the startup check, the
    requester calls [Halt()] on the status, records the halted metric and
    throws [ErrRequesterHalted]; the retry loop ends with that throw, so
    no further attempt follows. *)
Theorem C1_invalid_data_halts (cfg : ExecutionDataConfig) (w : World) :
  (forall request result err s s1 fuel k attempt,
      resultsByBlockID w (BlockID request) = Ok result ->
      fetchExecutionData cfg w (ExecutionDataID result) (Height request) s
      = (Returned (Fail err), s1) ->
      isInvalidBlobError (Some err) = true ->
      processFetchRequest cfg w request s
      = (Thrown ErrRequesterHalted, haltState s1)
      /\ retry_Do w (S fuel) (backoff cfg w) k (fetchAttempt cfg w request) attempt s
         = (Thrown ErrRequesterHalted, haltState s1))
  /\ (forall fuel height lastHeight block result pre cid err post s,
         height <= lastHeight ->
         ctxErr w (ctxPolls s) = None ->
         blocksByHeight w height = Ok block ->
         resultsByBlockID w (BlockID_of block) = Ok result ->
         edsCheck w (ExecutionDataID result) = (pre ++ (cid, err) :: post, false) ->
         forallb (loopContinues w) pre = true ->
         classifiedInvalid err = true ->
         exists s1,
           checkHeights cfg w (S fuel) height lastHeight s
           = (Thrown ErrRequesterHalted, haltState s1))
  /\ (forall fuel lastHeight block result pre cid err post s,
         StartBlockHeight cfg <= lastHeight ->
         ctxErr w (ctxPolls s) = None ->
         ctxErr w (S (ctxPolls s)) = None ->
         blocksByHeight w (StartBlockHeight cfg) = Ok block ->
         resultsByBlockID w (BlockID_of block) = Ok result ->
         edsCheck w (ExecutionDataID result) = (pre ++ (cid, err) :: post, false) ->
         forallb (loopContinues w) pre = true ->
         classifiedInvalid err = true ->
         exists s1,
           checkDatastore cfg w (S fuel) lastHeight s
           = (Thrown ErrRequesterHalted, haltState s1))
  /\ (forall s1,
         trace (haltState s1)
         = trace s1 ++ [EvLogError "HALTING REQUESTER: invalid execution data found";
                        EvHalt; EvHaltedMetric]
         /\ persistedHalted (haltState s1) = true
         /\ st_halted (status (haltState s1)) = true
         /\ getCalls (haltState s1) = getCalls s1).
Proof.
  split; [| split; [| split]].
  - intros request result err s s1 fuel k attempt Hres Hfetch Hinv.
    pose proof (processFetchRequest_invalid cfg w request result err s s1
                  Hres Hfetch Hinv) as Hp.
    split; [exact Hp |]. apply retry_Do_thrown. exact Hp.
  - intros. eapply checkHeights_invalid; eassumption.
  - intros fuel lastHeight block result pre cid err post s
      Hle Hctx0 Hctx1 Hblock Hres Hcheck Hpre Hinv.
    rewrite checkDatastore_loop by exact Hctx0.
    eapply checkHeights_invalid; eassumption.
  - intros s1. repeat split.
Qed.

Lemma C1_witness :
  processSealedHeight cfg10 malformedWorld 5 request10 state10
  = (Thrown ErrRequesterHalted,
     haltState (snd (fetchExecutionData cfg10 malformedWorld 1110 10 state10)))
  /\ exists s1,
      checkHeights cfgCheck10 blobOversizeWorld 1 10 10 stateNotified10
      = (Thrown ErrRequesterHalted, haltState s1).
Proof.
  destruct (C1_invalid_data_halts cfg10 malformedWorld) as (Hfetch & _).
  destruct (C1_invalid_data_halts cfgCheck10 blobOversizeWorld)
    as (_ & Hcheck & _ & _).
  split.
  - apply (Hfetch request10 result10
             (Wrap MalformedDataError (Sentinel (Errorf "cbor: unexpected EOF")))
             state10 _ 4%nat 0%nat 0%nat); reflexivity.
  - apply (Hcheck 0%nat 10 10 {| BlockID_of := 110; HeaderHeight := 10 |}
             result10 [(7, Sentinel ErrNotFound)] 8
             (Sentinel BlobSizeLimitExceededError) [] stateNotified10);
      first [reflexivity | lia].
Defined.

(** C2, the defect: when the local check reports a blob missing,
    [checkExecutionData] returns [true] in the position its caller reads as
    "exists", so the startup check goes on to the next height without any
    fetch.  Here the tree of height 10 has lost blob 7: the check returns
    nil and the only event is the local check itself. *)
Theorem C2_missing_blob_is_not_refetched :
  checkExecutionData blobLostWorld 1110 stateNotified10
  = (Returned (true, None), advance [EvCheck 1110] 0 0 0 0 stateNotified10)
  /\ checkDatastore cfgCheck10 blobLostWorld 5 10 stateNotified10
     = (Returned None, advance [EvCheck 1110] 0 0 2 0 stateNotified10)
  /\ checkDatastore cfgCheck10 blobCorruptWorld 5 10 stateNotified10
     = (Returned None,
        advance [EvCheck 1110; EvDeleteBlob 7] 0 0 2 0 stateNotified10).
Proof. vm_compute. repeat split. Qed.

(** ** The component as a whole *)

Lemma bootstrap_halted (cfg : ExecutionDataConfig) (w : World) (fuel : nat)
  (s : State) :
  statusLoad w = None ->
  persistedHalted s = true ->
  bootstrap cfg w fuel s = (Returned false, cameUpHalted s).
Proof.
  intros Hload Hhalted. unfold bootstrap.
  unfold bind at 1. unfold status_Load at 1. rewrite Hload.
  cbn [when]. unfold bind at 1. cbn [ret]. unfold bind at 1.
  unfold status_Halted at 1. cbn [status set_status st_halted].
  rewrite Hhalted. unfold bind, emit, ret. f_equal.
Qed.

Lemma staysHalted_step (cfg : ExecutionDataConfig) (w : World)
  (c c' : Component) :
  statusLoad w = None ->
  staysHalted c -> step cfg w c c' -> staysHalted c'.
Proof.
  intros Hload (Hp & Hent & Hboot & Hblk & Hfetch & Hnotify & Hready) Hstep.
  destruct Hstep as
    [c Hn | c Hn | c Hb | c Hb Hnr Hcr | c fuel r s' Hb Hnr Hrun
     | c fuel e s' Hb Hnr Hrun | c fuel job o s' Hb Hrun Hfin
     | c entry o s' Hnr Hnext Hrun | c keep | c fn s' Hrun].
  - repeat split; assumption.
  - repeat split; assumption.
  - repeat split; try assumption. cbn. discriminate.
  - exfalso. unfold componentReady in Hcr.
    destruct Hboot as [Hw | Hr]; rewrite ?Hw, ?Hr in Hcr; discriminate Hcr.
  - rewrite (bootstrap_halted cfg w fuel (mem c) Hload Hp) in Hrun.
    inversion Hrun; subst r s'. unfold staysHalted. cbn.
    repeat split; try assumption.
    + right. reflexivity.
    + rewrite filter_app, Hfetch. reflexivity.
    + rewrite filter_app, Hnotify. reflexivity.
    + intros Hin. apply in_app_or in Hin. destruct Hin as [Hin | [Hin | []]].
      * contradiction.
      * discriminate Hin.
  - rewrite (bootstrap_halted cfg w fuel (mem c) Hload Hp) in Hrun.
    discriminate Hrun.
  - contradiction.
  - exfalso. unfold next_to_notify in Hnext. rewrite Hent in Hnext.
    destruct (st_halted (status (mem c))); discriminate Hnext.
  - unfold staysHalted. cbn. rewrite Hent. repeat split; assumption.
  - inversion Hrun; subst s'. unfold staysHalted. cbn.
    repeat split; assumption.
Qed.

Lemma runL_reachable : reachable cfg10 loadFailsWorld runL_0 runL_7.
Proof.
  apply reach_step with (c := runL_6).
  apply reach_step with (c := runL_5).
  apply reach_step with (c := runL_4).
  apply reach_step with (c := runL_3).
  apply reach_step with (c := runL_2).
  apply reach_step with (c := runL_1).
  apply reach_step with (c := runL_0).
  apply reach_init.
  - unfold runL_1. apply step_ntf_start. reflexivity.
  - unfold runL_2. apply step_ntf_ready. reflexivity.
  - unfold runL_3. apply step_blk_ready. reflexivity.
  - unfold runL_4. apply step_bootstrap with (fuel := 0%nat);
      vm_compute; reflexivity.
  - unfold runL_5. apply step_blk_start; vm_compute; reflexivity.
  - unfold runL_6.
    apply step_fetch with (fuel := 1%nat) (job := BlockJob block13)
                          (o := Returned tt); vm_compute; reflexivity.
  - unfold runL_7.
    apply step_notify with (entry := entry13) (o := Returned tt);
      vm_compute; reflexivity.
Qed.

(** C5 as the spec has it fails when the stored flag is set but the load
    of the stored state fails: [bootstrap] logs the failure, goes on with
    the defaults and calls [ready()]; the block consumer is started, the
    block of height 13 is fetched and its notification is sent. *)
Lemma C5_counterexample :
  persistedHalted (mem runL_0) = true
  /\ bootstrap cfg10 loadFailsWorld 0 (mem runL_3)
     = (Returned true,
        advance [EvLogError "failed to load notification state. using defaults";
                 EvReady] 0 0 0 0 (mem runL_3))
  /\ reachable cfg10 loadFailsWorld (New cfg10 (Some 12) true) runL_7
  /\ componentReady runL_7 = true
  /\ blkPc runL_7 = BlkStarted
  /\ filter isFetchEvent (trace (mem runL_7))
     = [EvFetchStarted; EvGet (WithTimeout SignalerCtx 300000000000) 1113]
  /\ notifiedHeights (trace (mem runL_7)) = [13].
Proof.
  split; [reflexivity |].
  split; [vm_compute; reflexivity |].
  split; [exact runL_reachable |].
  split; [vm_compute; reflexivity |].
  split; [vm_compute; reflexivity |].
  split; vm_compute; reflexivity.
Qed.

(** C5, amended: a requester that comes up with the stored halted flag set,
    and whose load of the stored state succeeds, has its bootstrap worker
    log the condition and return without calling [ready()]; from then on
    the component never reports ready, the block consumer is never
    started, no fetch takes place and no subscriber is notified. *)
Theorem C5_halted_requester_does_no_work
  (cfg : ExecutionDataConfig) (w : World) (persistedNotified : option Z)
  (c : Component) :
  statusLoad w = None ->
  reachable cfg w (New cfg persistedNotified true) c ->
  (forall fuel,
      bootstrap cfg w fuel (mem c) = (Returned false, cameUpHalted (mem c)))
  /\ (bootPc c = BootWaiting \/ bootPc c = BootReturned false)
  /\ componentReady c = false
  /\ blkPc c <> BlkStarted
  /\ filter isFetchEvent (trace (mem c)) = []
  /\ filter isNotifyEvent (trace (mem c)) = []
  /\ ~ In EvReady (trace (mem c)).
Proof.
  intros Hload Hreach.
  assert (Hinv : staysHalted c).
  { induction Hreach as [| c c' _ IH Hstep].
    - unfold staysHalted. cbn. repeat split; try (left; reflexivity).
      + discriminate.
      + intros [].
    - eapply staysHalted_step; eassumption. }
  destruct Hinv as (Hp & Hent & Hboot & Hblk & Hfetch & Hnotify & Hready).
  repeat split; try assumption.
  - intros fuel. apply bootstrap_halted; assumption.
  - unfold componentReady.
    destruct Hboot as [Hw | Hr]; rewrite ?Hw, ?Hr; reflexivity.
Qed.

Lemma C5_witness :
  componentReady haltedComponent10 = false
  /\ blkPc haltedComponent10 <> BlkStarted
  /\ filter isFetchEvent (trace (mem haltedComponent10)) = []
  /\ filter isNotifyEvent (trace (mem haltedComponent10)) = [].
Proof.
  destruct (C5_halted_requester_does_no_work cfg10 calmWorld (Some 12)
              haltedComponent10) as (_ & _ & Hready & Hblk & Hfetch & Hnotify & _).
  - reflexivity.
  - eapply reach_step.
    + eapply reach_step; [apply reach_init |].
      apply step_ntf_start. reflexivity.
    + apply (step_bootstrap cfg10 calmWorld
               (set_ntfPc NtfStarted haltedStart10) 0%nat false); reflexivity.
  - repeat split; assumption.
Defined.

(** *** Operations that leave the notified cursor alone *)

Lemma sameNotified_refl (s : State) : sameNotified s s.
Proof. split; reflexivity. Qed.

Lemma sameNotified_trans (s1 s2 s3 : State) :
  sameNotified s1 s2 -> sameNotified s2 s3 -> sameNotified s1 s3.
Proof. intros [H1 H2] [H3 H4]. split; congruence. Qed.

Lemma keeps_ret {A} (a : A) : keeps (ret a).
Proof. intros s. apply sameNotified_refl. Qed.

Lemma keeps_throw {A} (e : error) : keeps (@throw A e).
Proof. intros s. apply sameNotified_refl. Qed.

Lemma keeps_exhausted {A} : keeps (@exhausted A).
Proof. intros s. apply sameNotified_refl. Qed.

Lemma keeps_bind {A B} (m : M A) (f : A -> M B) :
  keeps m -> (forall a, keeps (f a)) -> keeps (bind m f).
Proof.
  intros Hm Hf s. unfold bind. specialize (Hm s).
  destruct (m s) as [[a | e |] s1]; cbn [snd] in *; try exact Hm.
  eapply sameNotified_trans; [exact Hm | apply Hf].
Qed.

Lemma keeps_emit (ev : Event) :
  notifiedHeights [ev] = [] -> keeps (emit ev).
Proof.
  intros Hev s. split; cbn; [reflexivity |].
  rewrite notifiedHeights_app, Hev, app_nil_r. reflexivity.
Qed.

Lemma keeps_when (b : bool) (m : M unit) : keeps m -> keeps (when b m).
Proof. intros Hm. destruct b; [exact Hm | apply keeps_ret]. Qed.

Create HintDb keeps.

#[local] Hint Resolve keeps_ret keeps_throw keeps_exhausted keeps_when : keeps.

Ltac keeps_step :=
  match goal with
  | |- keeps (bind _ _) => apply keeps_bind; [| intros ?]
  | |- keeps (emit _) => apply keeps_emit; reflexivity
  | |- keeps (when _ _) => apply keeps_when
  | |- keeps (match ?x with _ => _ end) => destruct x
  | |- keeps _ => solve [eauto with keeps]
  end.

Ltac keeps_auto := repeat keeps_step.

Section Keeps.

Variable cfg : ExecutionDataConfig.
Variable w : World.

Lemma keeps_eds_Get ctx id : keeps (eds_Get w ctx id).
Proof. intros s. split; cbn; [reflexivity |].
  rewrite notifiedHeights_app, app_nil_r. reflexivity. Qed.

Lemma keeps_eds_Add ctx ed : keeps (eds_Add w ctx ed).
Proof. intros s. split; cbn; [reflexivity |].
  rewrite notifiedHeights_app, app_nil_r. reflexivity. Qed.

Lemma keeps_ctx_Err : keeps (ctx_Err w).
Proof. intros s. split; reflexivity. Qed.

Lemma keeps_backoff k : keeps (backoff cfg w k).
Proof. intros s. split; reflexivity. Qed.

Lemma keeps_status_Halt : keeps status_Halt.
Proof. intros s. split; cbn; [reflexivity |].
  rewrite notifiedHeights_app, app_nil_r. reflexivity. Qed.

Lemma keeps_status_Fetched entry : keeps (status_Fetched entry).
Proof. intros s. split; cbn; [reflexivity |].
  rewrite notifiedHeights_app, app_nil_r. reflexivity. Qed.

Lemma keeps_status_Load : keeps (status_Load w).
Proof. intros s. unfold status_Load. destruct (statusLoad w); split; reflexivity. Qed.

Lemma keeps_status_Halted : keeps status_Halted.
Proof. intros s. split; reflexivity. Qed.

Lemma keeps_status_LastNotified : keeps status_LastNotified.
Proof. intros s. split; reflexivity. Qed.

Hint Resolve keeps_eds_Get keeps_eds_Add keeps_ctx_Err keeps_backoff
  keeps_status_Halt keeps_status_Fetched keeps_status_Load
  keeps_status_Halted keeps_status_LastNotified : keeps.

Lemma keeps_bs_DeleteBlob cid : keeps (bs_DeleteBlob w cid).
Proof. unfold bs_DeleteBlob. keeps_auto. Qed.

Lemma keeps_eds_Check root : keeps (eds_Check w root).
Proof. unfold eds_Check. keeps_auto. Qed.

Hint Resolve keeps_bs_DeleteBlob keeps_eds_Check : keeps.

Lemma keeps_fetchExecutionData id height :
  keeps (fetchExecutionData cfg w id height).
Proof. unfold fetchExecutionData. keeps_auto. Qed.

Hint Resolve keeps_fetchExecutionData : keeps.

Lemma keeps_processFetchRequest request :
  keeps (processFetchRequest cfg w request).
Proof. unfold processFetchRequest. keeps_auto. Qed.

Hint Resolve keeps_processFetchRequest : keeps.

Lemma keeps_fetchAttempt request attempt :
  keeps (fetchAttempt cfg w request attempt).
Proof. unfold fetchAttempt. keeps_auto. Qed.

Hint Resolve keeps_fetchAttempt : keeps.

Lemma keeps_retry_Do request fuel :
  forall k attempt,
    keeps (retry_Do w fuel (backoff cfg w) k (fetchAttempt cfg w request) attempt).
Proof.
  induction fuel as [| fuel IH]; intros k attempt; cbn [retry_Do].
  - apply keeps_exhausted.
  - keeps_auto.
Qed.

Hint Resolve keeps_retry_Do : keeps.

Lemma keeps_processSealedHeight fuel request :
  keeps (processSealedHeight cfg w fuel request).
Proof.
  intros s. destruct (Z.leb_spec (RetryDelay cfg) 0) as [Hle | Hgt].
  - rewrite processSealedHeight_no_backoff by exact Hle. apply sameNotified_refl.
  - rewrite processSealedHeight_retry by exact Hgt. apply keeps_retry_Do.
Qed.

Hint Resolve keeps_processSealedHeight : keeps.

Lemma keeps_processBlockJob fuel job :
  keeps (processBlockJob cfg w fuel job (emit EvComplete)).
Proof. unfold processBlockJob. keeps_auto. Qed.

Lemma keeps_checkInvalidCIDs rootID cids :
  forall missing errs, keeps (checkInvalidCIDs w cids rootID missing errs).
Proof.
  induction cids as [| [c e] cids IH]; intros missing errs;
    cbn [checkInvalidCIDs]; keeps_auto.
Qed.

Hint Resolve keeps_checkInvalidCIDs : keeps.

Lemma keeps_checkExecutionData rootID : keeps (checkExecutionData w rootID).
Proof. unfold checkExecutionData. keeps_auto. Qed.

Hint Resolve keeps_checkExecutionData : keeps.

Lemma keeps_checkHeights fuel :
  forall height lastHeight, keeps (checkHeights cfg w fuel height lastHeight).
Proof.
  induction fuel as [| fuel IH]; intros height lastHeight; cbn [checkHeights].
  - apply keeps_exhausted.
  - keeps_auto.
Qed.

Hint Resolve keeps_checkHeights : keeps.

Lemma keeps_checkDatastore fuel lastHeight :
  keeps (checkDatastore cfg w fuel lastHeight).
Proof. unfold checkDatastore, localExecutionDataService. keeps_auto. Qed.

Hint Resolve keeps_checkDatastore : keeps.

Lemma keeps_bootstrap fuel : keeps (bootstrap cfg w fuel).
Proof. unfold bootstrap. keeps_auto. Qed.

End Keeps.

(** *** The first notification *)

Lemma notifiedHeights_callbacks (ed : option ExecutionData) (fns : list Callback) :
  notifiedHeights (map (fun fn => EvCallback fn ed) fns) = [].
Proof. induction fns as [| fn fns IH]; [reflexivity | exact IH]. Qed.

Lemma processNotification_notified (w : World) (entry : BlockEntry) (s : State) :
  match processNotification w entry s with
  | (Returned _, s1) =>
      st_lastNotified (status s1) = st_lastNotified (status s)
      /\ notifiedHeights (trace s1)
         = notifiedHeights (trace s) ++ [Height entry]
  | (Thrown _, s1) => sameNotified s s1
  | (Exhausted, _) => False
  end.
Proof.
  destruct (EntryData entry) as [ed |] eqn:Hdata.
  - rewrite (processNotification_cached w entry ed s Hdata).
    unfold advance. cbn [status trace]. split; [reflexivity |].
    rewrite !notifiedHeights_app, notifiedHeights_callbacks. reflexivity.
  - destruct (resultsByBlockID w (BlockID entry)) as [result | e] eqn:Hres.
    + destruct (edsGet w (getCalls s) (ExecutionDataID result)) as [ed | e]
        eqn:Hget.
      * rewrite (processNotification_refetched w entry result ed s
                   Hdata Hres Hget).
        unfold advance. cbn [status trace]. split; [reflexivity |].
        rewrite !notifiedHeights_app, notifiedHeights_callbacks. reflexivity.
      * rewrite (processNotification_refetch_fails w entry result e s
                   Hdata Hres Hget).
        split; cbn; [reflexivity |].
        rewrite notifiedHeights_app, app_nil_r. reflexivity.
    + unfold processNotification. rewrite Hdata, Hres. cbn.
      apply sameNotified_refl.
Qed.

Lemma wrap64_rootHeight_succ (cfg : ExecutionDataConfig) :
  0 <= StartBlockHeight cfg < 2 ^ 64 ->
  wrap64 (rootHeight cfg + 1) = StartBlockHeight cfg.
Proof.
  intros Hrange. unfold rootHeight, wrap64.
  rewrite Zplus_mod_idemp_l.
  replace (StartBlockHeight cfg - 1 + 1) with (StartBlockHeight cfg) by lia.
  apply Z.mod_small. exact Hrange.
Qed.

Lemma next_to_notify_height (st : Status) (entry : BlockEntry) :
  next_to_notify st = Some entry ->
  Height entry = wrap64 (st_lastNotified st + 1).
Proof.
  unfold next_to_notify. destruct (st_halted st); [discriminate |].
  intros Hfind. apply find_some in Hfind. destruct Hfind as [_ Heq].
  apply Z.eqb_eq. exact Heq.
Qed.

Lemma startsAtStart_same (cfg : ExecutionDataConfig) (s s' : State) :
  sameNotified s s' -> startsAtStart cfg s -> startsAtStart cfg s'.
Proof.
  intros [Hlast Htrace] [[Hnone Hroot] | [rest Hsome]].
  - left. split; congruence.
  - right. exists rest. congruence.
Qed.

Lemma startsAtStart_step (cfg : ExecutionDataConfig) (w : World)
  (c c' : Component) :
  0 <= StartBlockHeight cfg < 2 ^ 64 ->
  startsAtStart cfg (mem c) -> step cfg w c c' -> startsAtStart cfg (mem c').
Proof.
  intros Hrange Hinv Hstep.
  destruct Hstep as
    [c Hn | c Hn | c Hb | c Hb Hnr Hcr | c fuel r s' Hb Hnr Hrun
     | c fuel e s' Hb Hnr Hrun | c fuel job o s' Hb Hrun Hfin
     | c entry o s' Hnr Hnext Hrun | c keep | c fn s' Hrun];
    cbn [mem set_mem set_ntfPc set_blkPc set_bootPc]; try exact Hinv.
  - pose proof (keeps_bootstrap cfg w fuel (mem c)) as Hk.
    rewrite Hrun in Hk. eapply startsAtStart_same; eassumption.
  - pose proof (keeps_bootstrap cfg w fuel (mem c)) as Hk.
    rewrite Hrun in Hk. eapply startsAtStart_same; eassumption.
  - pose proof (keeps_processBlockJob cfg w fuel job (mem c)) as Hk.
    rewrite Hrun in Hk. eapply startsAtStart_same; eassumption.
  - apply next_to_notify_height in Hnext.
    unfold processNotificationJob in Hrun. cbn [JobToBlockEntry] in Hrun.
    unfold bind at 1 in Hrun. cbn [ret] in Hrun. unfold bind at 1 in Hrun.
    pose proof (processNotification_notified w entry (mem c)) as Hcases.
    destruct (processNotification w entry (mem c)) as [[[] | e |] s1].
    + destruct Hcases as [Hlast Htrace].
      unfold mark_notified in Hrun. inversion Hrun; subst o s'.
      unfold startsAtStart. cbn [trace status set_trace set_status st_lastNotified].
      rewrite notifiedHeights_app, Htrace, app_nil_r.
      destruct Hinv as [[Hnone Hroot] | [rest Hsome]].
      * right. exists []. rewrite Hnone, Hnext, Hroot.
        rewrite wrap64_rootHeight_succ by exact Hrange. reflexivity.
      * right. exists (rest ++ [Height entry]). rewrite Hsome. reflexivity.
    + inversion Hrun; subst o s'. eapply startsAtStart_same; eassumption.
    + contradiction.
  - inversion Hrun; subst s'. exact Hinv.
Qed.

(** C3: with [StartBlockHeight = 0] the cursor handed to both consumers is
    [0 - 1] in uint64, that is [2^64 - 1], whose successor in uint64 is 0;
    on a first start the first job the notification consumer can take is
    the one of height 0, and the first notification recorded, if any, is
    for height 0. *)
Theorem C3_first_notification_is_height_zero
  (cfg : ExecutionDataConfig) (w : World) (haltedFlag : bool) (c : Component) :
  StartBlockHeight cfg = 0 ->
  reachable cfg w (New cfg None haltedFlag) c ->
  rootHeight cfg = 2 ^ 64 - 1
  /\ wrap64 (rootHeight cfg + 1) = 0
  /\ (notifiedHeights (trace (mem c)) = []
      \/ exists rest, notifiedHeights (trace (mem c)) = 0 :: rest)
  /\ (notifiedHeights (trace (mem c)) = [] ->
      forall entry,
        next_to_notify (status (mem c)) = Some entry -> Height entry = 0).
Proof.
  intros Hstart Hreach.
  assert (Hrange : 0 <= StartBlockHeight cfg < 2 ^ 64) by (rewrite Hstart; lia).
  assert (Hinv : startsAtStart cfg (mem c)).
  { induction Hreach as [| c c' _ IH Hstep].
    - left. split; reflexivity.
    - eapply startsAtStart_step; eassumption. }
  assert (Hroot : rootHeight cfg = 2 ^ 64 - 1).
  { unfold rootHeight, wrap64. rewrite Hstart. reflexivity. }
  split; [exact Hroot |].
  split; [rewrite Hroot; reflexivity |].
  split.
  - destruct Hinv as [[Hnone _] | [rest Hsome]].
    + left. exact Hnone.
    + right. exists rest. rewrite Hsome, Hstart. reflexivity.
  - intros Hnone entry Hnext.
    apply next_to_notify_height in Hnext. rewrite Hnext.
    destruct Hinv as [[_ Hlast] | [rest Hsome]].
    + rewrite Hlast, Hroot. reflexivity.
    + rewrite Hsome in Hnone. discriminate Hnone.
Qed.

Lemma run0_reachable : reachable cfg0 calmWorld (New cfg0 None false) run0_8.
Proof.
  apply reach_step with (c := run0_7).
  apply reach_step with (c := run0_6).
  apply reach_step with (c := run0_5).
  apply reach_step with (c := run0_4).
  apply reach_step with (c := run0_3).
  apply reach_step with (c := run0_2).
  apply reach_step with (c := run0_1).
  apply reach_step with (c := New cfg0 None false).
  apply reach_init.
  - unfold run0_1. apply step_ntf_start. reflexivity.
  - unfold run0_2. apply step_ntf_ready. reflexivity.
  - unfold run0_3. apply step_blk_ready. reflexivity.
  - unfold run0_4. apply step_bootstrap with (fuel := 0%nat);
      vm_compute; reflexivity.
  - unfold run0_5. apply step_blk_start; vm_compute; reflexivity.
  - unfold run0_6.
    apply step_fetch with (fuel := 1%nat) (job := BlockJob block0)
                          (o := Returned tt); vm_compute; reflexivity.
  - unfold run0_7. apply step_subscribe with (fn := 1%nat).
    vm_compute; reflexivity.
  - unfold run0_8.
    apply step_notify with (entry := entry0) (o := Returned tt);
      vm_compute; reflexivity.
Defined.

Lemma C3_witness :
  notifiedHeights (trace (mem run0_8)) = [0]
  /\ callbackCalls (trace (mem run0_8)) = [(1%nat, Some 6100)]
  /\ (notifiedHeights (trace (mem run0_8)) = []
      \/ exists rest, notifiedHeights (trace (mem run0_8)) = 0 :: rest).
Proof.
  split; [vm_compute; reflexivity |]. split; [vm_compute; reflexivity |].
  apply (C3_first_notification_is_height_zero cfg0 calmWorld false run0_8).
  - reflexivity.
  - exact run0_reachable.
Defined.

(** ** More of the fetch worker *)

(** X1: [fetchExecutionData] always returns (it never throws): it makes one
    network get under the timeout context, writes to the local blobstore
    only after a successful get, and its fetch-finished metric reports
    success exactly when the result carries no error. *)
Theorem X1_fetch_calls_and_metrics
  (cfg : ExecutionDataConfig) (w : World) (id : Identifier) (height : Z)
  (s : State) :
  exists r s1 adds,
    fetchExecutionData cfg w id height s = (Returned r, s1)
    /\ trace s1
       = trace s
         ++ [EvFetchStarted; EvGet (WithTimeout SignalerCtx (FetchTimeout cfg)) id]
         ++ adds
         ++ [EvFetchFinished (match r with Ok _ => true | Fail _ => false end)
               height]
    /\ getCalls s1 = S (getCalls s)
    /\ addCalls s1 = (List.length adds + addCalls s)%nat
    /\ match edsGet w (getCalls s) id with
       | Fail e => adds = [] /\ r = Fail e
       | Ok ed =>
           adds = [EvAdd SignalerCtx ed]
           /\ match edsAdd w (addCalls s) ed with
              | None => r = Ok ed
              | Some e =>
                  r = Fail (Wrap (Errorf "failed to write execution data to blobstore") e)
              end
       end.
Proof.
  destruct (edsGet w (getCalls s) id) as [ed | e] eqn:Hget.
  - destruct (edsAdd w (addCalls s) ed) as [e |] eqn:Hadd.
    + eexists _, _, [EvAdd SignalerCtx ed].
      split; [apply fetchExecutionData_add_fails; eassumption |].
      repeat split.
    + eexists _, _, [EvAdd SignalerCtx ed].
      split; [apply fetchExecutionData_succeeds; eassumption |].
      repeat split.
  - eexists _, _, [].
    split; [apply fetchExecutionData_get_fails; eassumption |].
    repeat split.
Qed.

(** X2: when no execution result is stored for the block of a job, the
    fetch worker throws the lookup error at once: the state is untouched,
    so no network call was made and no metric recorded, and the job is not
    completed. *)
Theorem X2_missing_result_is_thrown
  (cfg : ExecutionDataConfig) (w : World) (fuel : nat) (block : Block)
  (complete : M unit) (s : State) (e : error) :
  0 < RetryDelay cfg ->
  resultsByBlockID w (BlockID_of block) = Fail e ->
  processBlockJob cfg w (S fuel) (BlockJob block) complete s
  = (Thrown (Wrap (Errorf "failed to lookup execution result for block") e), s).
Proof.
  intros Hpos Hres.
  unfold processBlockJob. cbn [JobToBlock]. unfold bind at 1. cbn [ret].
  unfold bind at 1. rewrite processSealedHeight_retry by exact Hpos.
  erewrite retry_Do_thrown; [reflexivity |].
  unfold processFetchRequest, bind. cbn [BlockID]. rewrite Hres. reflexivity.
Qed.

Lemma X2_witness :
  processBlockJob cfg10 noResultWorld 3 (BlockJob block10) (emit EvComplete)
    state10
  = (Thrown (Wrap (Errorf "failed to lookup execution result for block")
               storageError), state10).
Proof.
  apply (X2_missing_result_is_thrown cfg10 noResultWorld 2 block10
           (emit EvComplete) state10 storageError); reflexivity.
Defined.

Lemma retry_Do_cancelled_state (cfg : ExecutionDataConfig) (w : World)
  (request : BlockEntry) (result : ExecutionResult) (fuel k attempt : nat)
  (s : State) (cerr : error) :
  resultsByBlockID w (BlockID request) = Ok result ->
  getFailsRetried w (ExecutionDataID result) (getCalls s) ->
  ctxErr w (ctxPolls s) = Some cerr ->
  retry_Do w (S fuel) (backoff cfg w) k (fetchAttempt cfg w request) attempt s
  = (Returned (Some cerr),
     advance ([EvFetchStarted; EvGet (fetchCtx cfg) (ExecutionDataID result);
               EvFetchFinished false (Height request);
               EvLogError "failed to get execution data for block"]
              ++ (if (0 <? attempt)%nat then [EvFetchRetried] else []))
       1 0 1 1 s).
Proof.
  intros Hres (e & Hget & Hinv & Hretry) Hctx.
  pose proof (processFetchRequest_retried cfg w request result e s _ Hres
                (fetchExecutionData_get_fails cfg w _ (Height request) s e Hget)
                Hinv Hretry) as Hp.
  cbn [retry_Do]. unfold bind at 1. unfold fetchAttempt at 1.
  unfold bind at 1. rewrite Hp.
  destruct attempt as [| attempt']; cbn [Nat.ltb Nat.leb when];
    unfold bind, ret, emit, backoff, WithJitterPercent, WithCappedDuration,
      draw, ctx_Err; cbn;
    rewrite Hctx; cbn; f_equal; state_eq.
Qed.

(** X3: when a fetch attempt fails with a retried error and the parent
    context is done, the block job ends quietly: one network get was made,
    nothing is thrown, no wait is taken, and the job is not completed. *)
Theorem X3_cancelled_job_ends_quietly
  (cfg : ExecutionDataConfig) (w : World) (fuel : nat) (block : Block)
  (result : ExecutionResult) (complete : M unit) (s : State) (cerr : error) :
  0 < RetryDelay cfg ->
  resultsByBlockID w (BlockID_of block) = Ok result ->
  getFailsRetried w (ExecutionDataID result) (getCalls s) ->
  ctxErr w (ctxPolls s) = Some cerr ->
  processBlockJob cfg w (S fuel) (BlockJob block) complete s
  = (Returned tt,
     advance [EvFetchStarted;
              EvGet (WithTimeout SignalerCtx (FetchTimeout cfg))
                (ExecutionDataID result);
              EvFetchFinished false (HeaderHeight block);
              EvLogError "failed to get execution data for block"]
       1 0 1 1 s).
Proof.
  intros Hpos Hres Hfail Hctx.
  unfold processBlockJob. cbn [JobToBlock]. unfold bind at 1. cbn [ret].
  unfold bind at 1. rewrite processSealedHeight_retry by exact Hpos.
  rewrite (retry_Do_cancelled_state cfg w
             {| BlockID := BlockID_of block; Height := HeaderHeight block;
                EntryData := None |} result fuel 0 0 s cerr Hres Hfail Hctx).
  reflexivity.
Qed.

Lemma X3_witness :
  processBlockJob cfg10 cancelledWorld 3 (BlockJob block10) (emit EvComplete)
    state10
  = (Returned tt,
     advance [EvFetchStarted; EvGet (WithTimeout SignalerCtx 300000000000) 1110;
              EvFetchFinished false 10;
              EvLogError "failed to get execution data for block"]
       1 0 1 1 state10).
Proof.
  apply (X3_cancelled_job_ends_quietly cfg10 cancelledWorld 2 block10 result10
           (emit EvComplete) state10 (Sentinel Canceled)).
  - reflexivity.
  - reflexivity.
  - exists (Sentinel BlobNotFoundError). repeat split; reflexivity.
  - reflexivity.
Defined.

Lemma retry_Do_returns_error (cfg : ExecutionDataConfig) (w : World)
  (request : BlockEntry) (fuel : nat) :
  forall k attempt s e s',
    retry_Do w fuel (backoff cfg w) k (fetchAttempt cfg w request) attempt s
    = (Returned (Some e), s') ->
    exists i, ctxPolls s' = S i /\ ctxErr w i = Some e.
Proof.
  induction fuel as [| fuel IH]; intros k attempt s e s' Hrun.
  - discriminate Hrun.
  - cbn [retry_Do] in Hrun. unfold bind at 1 in Hrun.
    unfold fetchAttempt at 1 in Hrun. unfold bind at 1 in Hrun.
    destruct (processFetchRequest cfg w request s) as [[[err |] | e0 |] sp];
      try discriminate Hrun.
    + unfold bind at 1 in Hrun.
      destruct (when (0 <? attempt)%nat (emit EvFetchRetried) sp)
        as [[[] | e0 |] sq]; try discriminate Hrun.
      cbn [ret fst snd] in Hrun.
      unfold bind at 1 in Hrun. rewrite backoff_run in Hrun.
      unfold bind at 1 in Hrun. unfold ctx_Err at 1 in Hrun.
      destruct (ctxErr w (ctxPolls (tick_rand sq))) as [cerr |] eqn:Hctx.
      * inversion Hrun; subst. exists (ctxPolls sq). split; [reflexivity |].
        exact Hctx.
      * unfold bind at 1, emit at 1 in Hrun. apply IH in Hrun. exact Hrun.
    + unfold bind at 1 in Hrun.
      destruct (when (0 <? attempt)%nat (emit EvFetchRetried) sp)
        as [[[] | e0 |] sq]; discriminate Hrun.
Qed.

(** X4: the only error [processSealedHeight] ever returns is the error of
    the parent context, read at its last poll; errors of the fetch itself
    are retried or thrown, never returned. *)
Theorem X4_only_context_error_is_returned
  (cfg : ExecutionDataConfig) (w : World) (fuel : nat) (request : BlockEntry)
  (s : State) (e : error) (s' : State) :
  processSealedHeight cfg w fuel request s = (Returned (Some e), s') ->
  exists i, ctxPolls s' = S i /\ ctxErr w i = Some e.
Proof.
  intros Hrun.
  destruct (Z.leb_spec (RetryDelay cfg) 0) as [Hle | Hgt].
  - rewrite processSealedHeight_no_backoff in Hrun by exact Hle.
    discriminate Hrun.
  - rewrite processSealedHeight_retry in Hrun by exact Hgt.
    eapply retry_Do_returns_error. exact Hrun.
Qed.

Lemma X4_witness :
  exists i,
    ctxPolls (snd (processSealedHeight cfg10 cancelledWorld 3 request10 state10))
    = S i
    /\ ctxErr cancelledWorld i = Some (Sentinel Canceled).
Proof.
  apply (X4_only_context_error_is_returned cfg10 cancelledWorld 3 request10
           state10 (Sentinel Canceled)).
  vm_compute. reflexivity.
Defined.

(** ** More of the startup check *)

Lemma heightsFrom_S (height : Z) (n : nat) :
  heightsFrom height (S n) = height :: heightsFrom (height + 1) n.
Proof.
  unfold heightsFrom. cbn [seq map]. rewrite Z.add_0_r. f_equal.
  rewrite <- seq_shift, map_map. apply map_ext. intros i. lia.
Qed.

Lemma checkHeights_clean_step (cfg : ExecutionDataConfig) (w : World)
  (fuel : nat) (height lastHeight : Z) (s : State) :
  height <= lastHeight ->
  ctxErr w (ctxPolls s) = None ->
  cleanAt w height = true ->
  checkHeights cfg w (S fuel) height lastHeight s
  = checkHeights cfg w fuel (wrap64 (height + 1)) lastHeight
      (advance (checkEvent w height) 0 0 1 0 s).
Proof.
  intros Hle Hctx Hclean. unfold cleanAt, checkEvent, rootAt in *.
  cbn [checkHeights].
  replace (height <=? lastHeight) with true by (symmetry; apply Z.leb_le; exact Hle).
  unfold bind at 1. unfold ctx_Err at 1. rewrite Hctx.
  destruct (blocksByHeight w height) as [block | e]; [| discriminate Hclean].
  destruct (resultsByBlockID w (BlockID_of block)) as [result | e];
    [| discriminate Hclean].
  unfold bind at 1. unfold checkExecutionData at 1. unfold bind at 1.
  unfold eds_Check at 1. unfold bind at 1. unfold emit at 1. cbn [ret].
  destruct (edsCheck w (ExecutionDataID result)) as [cids ok].
  cbn [snd] in Hclean. subst ok.
  cbn [errors_Is when negb]. unfold bind at 1. cbn [ret].
  unfold bind at 1. cbn [ret]. f_equal. state_eq.
Qed.

Lemma checkHeights_clean_run (cfg : ExecutionDataConfig) (w : World)
  (lastHeight : Z) (n : nat) :
  forall fuel height s,
    0 <= height ->
    height + Z.of_nat n <= 2 ^ 64 - 1 ->
    height + Z.of_nat n - 1 <= lastHeight ->
    (forall i, (i < n)%nat -> cleanAt w (height + Z.of_nat i) = true) ->
    (forall i, (i < n)%nat -> ctxErr w (i + ctxPolls s)%nat = None) ->
    checkHeights cfg w (n + fuel) height lastHeight s
    = checkHeights cfg w fuel (height + Z.of_nat n) lastHeight
        (advance (flat_map (checkEvent w) (heightsFrom height n)) 0 0 n 0 s).
Proof.
  induction n as [| n IH]; intros fuel height s Hpos Hmax Hlast Hclean Hctx.
  - cbn. rewrite Z.add_0_r, advance_nil. reflexivity.
  - change (S n + fuel)%nat with (S (n + fuel)).
    rewrite checkHeights_clean_step.
    + assert (Hwrap : wrap64 (height + 1) = height + 1).
      { unfold wrap64. apply Z.mod_small. lia. }
      rewrite Hwrap, IH.
      * rewrite heightsFrom_S. cbn [flat_map].
        replace (height + 1 + Z.of_nat n) with (height + Z.of_nat (S n)) by lia.
        f_equal. unfold advance. cbn. rewrite <- app_assoc, Nat.add_succ_r.
        reflexivity.
      * lia.
      * lia.
      * lia.
      * intros i Hi.
        replace (height + 1 + Z.of_nat i) with (height + Z.of_nat (S i)) by lia.
        apply Hclean. lia.
      * intros i Hi. cbn [ctxPolls advance]. rewrite Nat.add_succ_r.
        apply (Hctx (S i)). lia.
    + lia.
    + apply (Hctx 0%nat). lia.
    + replace height with (height + Z.of_nat 0) by (cbn; lia).
      apply Hclean. lia.
Qed.

Lemma checkDatastore_consistent
  (cfg : ExecutionDataConfig) (w : World) (n fuel : nat) (s : State) :
  0 <= StartBlockHeight cfg ->
  StartBlockHeight cfg + Z.of_nat n <= 2 ^ 64 - 1 ->
  (forall i, (i < n)%nat ->
             cleanAt w (StartBlockHeight cfg + Z.of_nat i) = true) ->
  (forall i, (i <= n)%nat -> ctxErr w (i + ctxPolls s)%nat = None) ->
  checkDatastore cfg w (n + S fuel)
    (StartBlockHeight cfg + Z.of_nat n - 1) s
  = (Returned None,
     advance (flat_map (checkEvent w) (heightsFrom (StartBlockHeight cfg) n))
       0 0 (S n) 0 s).
Proof.
  intros Hpos Hmax Hclean Hctx.
  rewrite checkDatastore_loop by (apply (Hctx 0%nat); lia).
  rewrite checkHeights_clean_run; try assumption; try lia.
  - cbn [checkHeights].
    replace (StartBlockHeight cfg + Z.of_nat n
             <=? StartBlockHeight cfg + Z.of_nat n - 1) with false
      by (symmetry; apply Z.leb_gt; lia).
    unfold ret. f_equal. unfold advance. cbn. rewrite Nat.add_succ_r.
    reflexivity.
  - intros i Hi. cbn [ctxPolls tick_ctx]. rewrite Nat.add_succ_r.
    apply (Hctx (S i)). lia.
Qed.

(** X5: over a store in which every tree from [StartBlockHeight] up to the
    last notified height is whole, the startup check returns nil after one
    local check per height, in ascending order; it deletes nothing, fetches
    nothing and leaves the status as it was. *)
Theorem X5_check_of_consistent_store
  (cfg : ExecutionDataConfig) (w : World) (n fuel : nat) (s : State) :
  0 <= StartBlockHeight cfg ->
  StartBlockHeight cfg + Z.of_nat n <= 2 ^ 64 - 1 ->
  (forall i, (i < n)%nat ->
             cleanAt w (StartBlockHeight cfg + Z.of_nat i) = true) ->
  (forall i, (i <= n)%nat -> ctxErr w (i + ctxPolls s)%nat = None) ->
  checkDatastore cfg w (n + S fuel)
    (StartBlockHeight cfg + Z.of_nat n - 1) s
  = (Returned None,
     advance (flat_map (checkEvent w) (heightsFrom (StartBlockHeight cfg) n))
       0 0 (S n) 0 s).
Proof.
  intros Hpos Hmax Hclean Hctx.
  rewrite checkDatastore_loop by (apply (Hctx 0%nat); lia).
  rewrite checkHeights_clean_run; try assumption; try lia.
  - cbn [checkHeights].
    replace (StartBlockHeight cfg + Z.of_nat n
             <=? StartBlockHeight cfg + Z.of_nat n - 1) with false
      by (symmetry; apply Z.leb_gt; lia).
    unfold ret. f_equal. unfold advance. cbn. rewrite Nat.add_succ_r.
    reflexivity.
  - intros i Hi. cbn [ctxPolls tick_ctx]. rewrite Nat.add_succ_r.
    apply (Hctx (S i)). lia.
Qed.

Lemma X5_witness :
  checkDatastore cfgCheck10 calmWorld 4 12 stateNotified12
  = (Returned None,
     advance [EvCheck 1110; EvCheck 1111; EvCheck 1112] 0 0 4 0 stateNotified12).
Proof.
  apply (X5_check_of_consistent_store cfgCheck10 calmWorld 3 0 stateNotified12).
  - cbn. lia.
  - cbn. lia.
  - intros i Hi. reflexivity.
  - intros i Hi. reflexivity.
Defined.

(** X6: when the parent context is done at the start of an iteration, the
    startup check stops there and returns nil: the heights from that one
    on are not examined, and no error tells the caller so. *)
Theorem X6_cancelled_check_returns_nil
  (cfg : ExecutionDataConfig) (w : World) (n fuel : nat) (lastHeight : Z)
  (s : State) (cerr : error) :
  0 <= StartBlockHeight cfg ->
  StartBlockHeight cfg + Z.of_nat n <= 2 ^ 64 - 1 ->
  StartBlockHeight cfg + Z.of_nat n <= lastHeight ->
  (forall i, (i < n)%nat ->
             cleanAt w (StartBlockHeight cfg + Z.of_nat i) = true) ->
  (forall i, (i <= n)%nat -> ctxErr w (i + ctxPolls s)%nat = None) ->
  ctxErr w (S n + ctxPolls s)%nat = Some cerr ->
  checkDatastore cfg w (n + S fuel) lastHeight s
  = (Returned None,
     advance (flat_map (checkEvent w) (heightsFrom (StartBlockHeight cfg) n))
       0 0 (S (S n)) 0 s).
Proof.
  intros Hpos Hmax Hlast Hclean Hctx Hdone.
  rewrite checkDatastore_loop by (apply (Hctx 0%nat); lia).
  rewrite checkHeights_clean_run; try assumption; try lia.
  - cbn [checkHeights].
    replace (StartBlockHeight cfg + Z.of_nat n <=? lastHeight) with true
      by (symmetry; apply Z.leb_le; lia).
    unfold bind at 1. unfold ctx_Err at 1.
    cbn [ctxPolls advance tick_ctx]. rewrite Nat.add_succ_r.
    cbn [Nat.add] in Hdone. rewrite Hdone.
    unfold ret. f_equal. unfold advance. cbn. rewrite Nat.add_succ_r.
    reflexivity.
  - intros i Hi. cbn [ctxPolls tick_ctx]. rewrite Nat.add_succ_r.
    apply (Hctx (S i)). lia.
Qed.

Lemma X6_witness :
  checkDatastore cfgCheck10 cancelledLaterWorld 4 12 stateNotified12
  = (Returned None, advance [EvCheck 1110] 0 0 3 0 stateNotified12).
Proof.
  apply (X6_cancelled_check_returns_nil cfgCheck10 cancelledLaterWorld 1 2 12
           stateNotified12 (Sentinel Canceled)).
  - cbn. lia.
  - cbn. lia.
  - cbn. lia.
  - intros i Hi. reflexivity.
  - intros i Hi. destruct i as [| [| i]]; [reflexivity | reflexivity | lia].
  - reflexivity.
Defined.

(** X7: the loop of the startup check compares uint64 heights with [<=]:
    when the last height is the largest uint64, the height wraps to 0 after
    it and the condition never fails, so over whole trees and a live
    context the check neither returns nor throws. *)
Theorem X7_check_up_to_max_uint64_never_ends
  (cfg : ExecutionDataConfig) (w : World) (fuel : nat) :
  forall (height : Z) (s : State),
    0 <= height < 2 ^ 64 ->
    (forall h, 0 <= h < 2 ^ 64 -> cleanAt w h = true) ->
    (forall i, ctxErr w i = None) ->
    fst (checkHeights cfg w fuel height (2 ^ 64 - 1) s) = Exhausted.
Proof.
  induction fuel as [| fuel IH]; intros height s Hrange Hclean Hctx.
  - reflexivity.
  - rewrite checkHeights_clean_step.
    + apply IH; try assumption.
      unfold wrap64. apply Z.mod_pos_bound. lia.
    + lia.
    + apply Hctx.
    + apply Hclean. exact Hrange.
Qed.

Lemma X7_witness :
  fst (checkHeights cfgCheck10 calmWorld 50 10 (2 ^ 64 - 1) stateNotified12)
  = Exhausted.
Proof.
  apply (X7_check_up_to_max_uint64_never_ends cfgCheck10 calmWorld 50 10
           stateNotified12).
  - lia.
  - intros h Hh. reflexivity.
  - intros i. reflexivity.
Defined.

Lemma checkInvalidCIDs_prefix (w : World) (rootID : Identifier)
  (rest : list (Cid * error)) (pre : list (Cid * error)) :
  forall missing errs s,
    forallb (loopContinues w) pre = true ->
    checkInvalidCIDs w (pre ++ rest) rootID missing errs s
    = checkInvalidCIDs w rest rootID (missing || loopMissing pre)
        (errs ++ loopOthers pre) (advance (loopDeletes pre) 0 0 0 0 s).
Proof.
  induction pre as [| [c e] pre IH]; intros missing errs s Hpre.
  - cbn. rewrite orb_false_r, app_nil_r, advance_nil. reflexivity.
  - cbn [forallb] in Hpre. apply andb_true_iff in Hpre.
    destruct Hpre as [Hce Hpre]. unfold loopContinues in Hce.
    cbn [app checkInvalidCIDs loopDeletes loopMissing loopOthers flat_map existsb].
    destruct (errors_Is (Some e) ErrNotFound).
    + rewrite IH by exact Hpre. cbn. rewrite !orb_true_r. reflexivity.
    + destruct (errors_Is (Some e) ErrHashMismatch).
      * unfold bind at 1. rewrite bs_DeleteBlob_run.
        destruct (deleteBlob w c); [discriminate Hce |].
        rewrite IH by exact Hpre. rewrite advance_events.
        cbn. rewrite !orb_true_r. reflexivity.
      * apply negb_true_iff in Hce. rewrite Hce.
        rewrite IH by exact Hpre. cbn. rewrite <- app_assoc. reflexivity.
Qed.

Lemma checkExecutionData_failed (w : World) (rootID : Identifier)
  (cids : list (Cid * error)) (s : State) :
  edsCheck w rootID = (cids, false) ->
  checkExecutionData w rootID s
  = checkInvalidCIDs w cids rootID false []
      (advance [EvCheck rootID] 0 0 0 0 s).
Proof.
  intros Hcheck. unfold checkExecutionData. unfold bind at 1.
  unfold eds_Check at 1. unfold bind at 1. unfold emit at 1. cbn [ret].
  rewrite Hcheck. reflexivity.
Qed.

Lemma checkHeights_check_error (cfg : ExecutionDataConfig) (w : World)
  (fuel : nat) (height lastHeight : Z) (block : Block)
  (result : ExecutionResult) (missing : bool) (e : error) (s s1 : State) :
  height <= lastHeight ->
  ctxErr w (ctxPolls s) = None ->
  blocksByHeight w height = Ok block ->
  resultsByBlockID w (BlockID_of block) = Ok result ->
  checkExecutionData w (ExecutionDataID result) (tick_ctx s)
  = (Returned (missing, Some e), s1) ->
  has_kind RequesterHalted e = false ->
  checkHeights cfg w (S fuel) height lastHeight s = (Returned (Some e), s1).
Proof.
  intros Hle Hctx Hblock Hres Hcheck Hnot.
  cbn [checkHeights].
  replace (height <=? lastHeight) with true by (symmetry; apply Z.leb_le; exact Hle).
  unfold bind at 1. unfold ctx_Err at 1. rewrite Hctx, Hblock, Hres.
  unfold bind at 1. rewrite Hcheck. cbn [errors_Is]. rewrite Hnot.
  reflexivity.
Qed.

(** X8: the loop of [checkExecutionData] stops at the first corrupted blob
    it cannot delete and returns the deletion error: the corrupted blobs
    before it have been deleted, the CIDs after it are not looked at, and
    the startup check returns that error without halting or fetching. *)
Theorem X8_failed_delete_ends_the_check
  (cfg : ExecutionDataConfig) (w : World) (rootID : Identifier)
  (pre : list (Cid * error)) (cid : Cid) (err : error)
  (post : list (Cid * error)) (derr : error) (s : State) :
  edsCheck w rootID = (pre ++ (cid, err) :: post, false) ->
  forallb (loopContinues w) pre = true ->
  errors_Is (Some err) ErrNotFound = false ->
  errors_Is (Some err) ErrHashMismatch = true ->
  deleteBlob w cid = Some derr ->
  checkExecutionData w rootID s
  = (Returned (false, Some (Wrap (Errorf "failed to delete corrupted CID") derr)),
     advance (EvCheck rootID :: loopDeletes pre ++ [EvDeleteBlob cid]) 0 0 0 0 s)
  /\ (forall fuel height lastHeight block,
         height <= lastHeight ->
         ctxErr w (ctxPolls s) = None ->
         blocksByHeight w height = Ok block ->
         resultsByBlockID w (BlockID_of block)
         = Ok {| ExecutionDataID := rootID |} ->
         has_kind RequesterHalted derr = false ->
         checkHeights cfg w (S fuel) height lastHeight s
         = (Returned (Some (Wrap (Errorf "failed to delete corrupted CID") derr)),
            advance (EvCheck rootID :: loopDeletes pre ++ [EvDeleteBlob cid])
              0 0 1 0 s)).
Proof.
  intros Hcheck Hpre Hnf Hhm Hdel.
  assert (Hrun : forall s0,
             checkExecutionData w rootID s0
             = (Returned (false, Some (Wrap (Errorf "failed to delete corrupted CID") derr)),
                advance (EvCheck rootID :: loopDeletes pre ++ [EvDeleteBlob cid])
                  0 0 0 0 s0)).
  { intros s0. rewrite (checkExecutionData_failed w rootID _ s0 Hcheck).
    rewrite checkInvalidCIDs_prefix by exact Hpre.
    cbn [checkInvalidCIDs]. rewrite Hnf, Hhm.
    unfold bind at 1. rewrite bs_DeleteBlob_run, Hdel.
    unfold ret. f_equal. rewrite !advance_events. reflexivity. }
  split; [apply Hrun |].
  intros fuel height lastHeight block Hle Hctx Hblock Hres Hnot.
  assert (Hnot' : has_kind RequesterHalted
                    (Wrap (Errorf "failed to delete corrupted CID") derr)
                  = false)
    by (rewrite has_kind_Errorf_wrap by discriminate; exact Hnot).
  rewrite (checkHeights_check_error cfg w fuel height lastHeight block _ false
             _ s _ Hle Hctx Hblock Hres (Hrun (tick_ctx s)) Hnot').
  reflexivity.
Qed.

Lemma X8_witness :
  checkExecutionData deleteRefusedWorld 1110 stateNotified10
  = (Returned (false, Some (Wrap (Errorf "failed to delete corrupted CID")
                              (Sentinel (Errorf "read-only datastore")))),
     advance [EvCheck 1110; EvDeleteBlob 7; EvDeleteBlob 9] 0 0 0 0
       stateNotified10).
Proof.
  apply (X8_failed_delete_ends_the_check cfgCheck10 deleteRefusedWorld 1110
           [(7, Sentinel ErrHashMismatch); (8, Sentinel ErrNotFound)] 9
           (Sentinel ErrHashMismatch) [(10, Sentinel ErrHashMismatch)]
           (Sentinel (Errorf "read-only datastore")) stateNotified10);
    reflexivity.
Defined.

(** X9: errors of no known kind met by the local check are collected in
    the order of the CIDs and returned together as one multierror, after the
    corrupted blobs have been deleted; the startup check returns that error
    at this height, whether or not blobs were also missing. *)
Theorem X9_unknown_errors_are_collected
  (cfg : ExecutionDataConfig) (w : World) (rootID : Identifier)
  (cids : list (Cid * error)) (s : State) :
  edsCheck w rootID = (cids, false) ->
  forallb (loopContinues w) cids = true ->
  loopOthers cids <> [] ->
  checkExecutionData w rootID s
  = (Returned (loopMissing cids, Some (Multi (loopOthers cids))),
     advance (EvCheck rootID :: loopDeletes cids) 0 0 0 0 s)
  /\ (forall fuel height lastHeight block,
         height <= lastHeight ->
         ctxErr w (ctxPolls s) = None ->
         blocksByHeight w height = Ok block ->
         resultsByBlockID w (BlockID_of block)
         = Ok {| ExecutionDataID := rootID |} ->
         has_kind RequesterHalted (Multi (loopOthers cids)) = false ->
         checkHeights cfg w (S fuel) height lastHeight s
         = (Returned (Some (Multi (loopOthers cids))),
            advance (EvCheck rootID :: loopDeletes cids) 0 0 1 0 s)).
Proof.
  intros Hcheck Hall Hothers.
  assert (Hrun : forall s0,
             checkExecutionData w rootID s0
             = (Returned (loopMissing cids, Some (Multi (loopOthers cids))),
                advance (EvCheck rootID :: loopDeletes cids) 0 0 0 0 s0)).
  { intros s0. rewrite (checkExecutionData_failed w rootID _ s0 Hcheck).
    rewrite <- (app_nil_r cids) at 1.
    rewrite checkInvalidCIDs_prefix by exact Hall.
    cbn [checkInvalidCIDs app orb]. unfold ret. rewrite advance_events.
    destruct (loopOthers cids) as [| e l]; [contradiction |]. reflexivity. }
  split; [apply Hrun |].
  intros fuel height lastHeight block Hle Hctx Hblock Hres Hnot.
  rewrite (checkHeights_check_error cfg w fuel height lastHeight block _
             (loopMissing cids) _ s _ Hle Hctx Hblock Hres
             (Hrun (tick_ctx s)) Hnot).
  reflexivity.
Qed.

Lemma X9_witness :
  checkExecutionData readErrorWorld 1110 stateNotified10
  = (Returned (true, Some (Multi [Sentinel (Errorf "input/output error");
                                  Sentinel (Errorf "bad sector")])),
     advance [EvCheck 1110] 0 0 0 0 stateNotified10).
Proof.
  apply (X9_unknown_errors_are_collected cfgCheck10 readErrorWorld 1110
           [(7, Sentinel (Errorf "input/output error"));
            (8, Sentinel ErrNotFound);
            (9, Sentinel (Errorf "bad sector"))] stateNotified10).
  - reflexivity.
  - reflexivity.
  - discriminate.
Defined.

Lemma checkInvalidCIDs_shape (w : World) (rootID : Identifier)
  (cids : list (Cid * error)) :
  forall missing errs s,
    exists r evs,
      checkInvalidCIDs w cids rootID missing errs s
      = (Returned r, advance evs 0 0 0 0 s)
      /\ forallb isDeleteBlob evs = true
      /\ (r = (false, None) -> cids = [] /\ missing = false /\ errs = []).
Proof.
  induction cids as [| [c e] cids IH]; intros missing errs s.
  - exists (missing, ErrorOrNil errs), []. cbn [checkInvalidCIDs].
    rewrite advance_nil. split; [reflexivity |]. split; [reflexivity |].
    intros Hr. inversion Hr as [[Hm He]].
    split; [reflexivity |]. split; [reflexivity |].
    destruct errs; [reflexivity | discriminate He].
  - cbn [checkInvalidCIDs].
    destruct (errors_Is (Some e) ErrNotFound).
    + destruct (IH true errs s) as (r & evs & Hrun & Hdel & Hnone).
      exists r, evs. split; [exact Hrun |]. split; [exact Hdel |].
      intros Hr. destruct (Hnone Hr) as (_ & Hm & _). discriminate Hm.
    + destruct (errors_Is (Some e) ErrHashMismatch).
      * unfold bind at 1. rewrite bs_DeleteBlob_run.
        destruct (deleteBlob w c) as [derr |].
        -- eexists _, [EvDeleteBlob c]. split; [reflexivity |].
           split; [reflexivity |]. intros Hr. discriminate Hr.
        -- destruct (IH true errs (advance [EvDeleteBlob c] 0 0 0 0 s))
             as (r & evs & Hrun & Hdel & Hnone).
           exists r, (EvDeleteBlob c :: evs). rewrite Hrun, advance_events.
           split; [reflexivity |]. split; [exact Hdel |].
           intros Hr. destruct (Hnone Hr) as (_ & Hm & _). discriminate Hm.
      * destruct (isInvalidBlobError (Some e)).
        -- eexists _, []. rewrite advance_nil. split; [reflexivity |].
           split; [reflexivity |]. intros Hr. discriminate Hr.
        -- destruct (IH missing (errs ++ [e]) s)
             as (r & evs & Hrun & Hdel & Hnone).
           exists r, evs. split; [exact Hrun |]. split; [exact Hdel |].
           intros Hr. destruct (Hnone Hr) as (_ & _ & He).
           destruct errs; discriminate He.
Qed.

Lemma checkHeights_continues (cfg : ExecutionDataConfig) (w : World)
  (fuel : nat) (height lastHeight : Z) (block : Block)
  (result : ExecutionResult) (s s1 : State) :
  height <= lastHeight ->
  ctxErr w (ctxPolls s) = None ->
  blocksByHeight w height = Ok block ->
  resultsByBlockID w (BlockID_of block) = Ok result ->
  checkExecutionData w (ExecutionDataID result) (tick_ctx s)
  = (Returned (true, None), s1) ->
  checkHeights cfg w (S fuel) height lastHeight s
  = checkHeights cfg w fuel (wrap64 (height + 1)) lastHeight s1.
Proof.
  intros Hle Hctx Hblock Hres Hcheck.
  cbn [checkHeights].
  replace (height <=? lastHeight) with true by (symmetry; apply Z.leb_le; exact Hle).
  unfold bind at 1. unfold ctx_Err at 1. rewrite Hctx, Hblock, Hres.
  unfold bind at 1. rewrite Hcheck. reflexivity.
Qed.

Lemma checkHeights_halts (cfg : ExecutionDataConfig) (w : World)
  (fuel : nat) (height lastHeight : Z) (block : Block)
  (result : ExecutionResult) (missing : bool) (e : error) (s s1 : State) :
  height <= lastHeight ->
  ctxErr w (ctxPolls s) = None ->
  blocksByHeight w height = Ok block ->
  resultsByBlockID w (BlockID_of block) = Ok result ->
  checkExecutionData w (ExecutionDataID result) (tick_ctx s)
  = (Returned (missing, Some e), s1) ->
  has_kind RequesterHalted e = true ->
  checkHeights cfg w (S fuel) height lastHeight s
  = (Thrown ErrRequesterHalted, haltState s1).
Proof.
  intros Hle Hctx Hblock Hres Hcheck Hhalt.
  cbn [checkHeights].
  replace (height <=? lastHeight) with true by (symmetry; apply Z.leb_le; exact Hle).
  unfold bind at 1. unfold ctx_Err at 1. rewrite Hctx, Hblock, Hres.
  unfold bind at 1. rewrite Hcheck. cbn [errors_Is]. rewrite Hhalt.
  cbn. f_equal. state_eq.
Qed.

(** X10: in the startup check a height is fetched again only when the
    local check fails without naming any CID.  When the local check
    succeeds, or names at least one CID, the iteration makes no fetch: its
    only effects are the check and deletions of blobs, and it goes on to
    the next height, returns an error, or halts. *)
Theorem X10_refetch_only_without_reported_cid
  (cfg : ExecutionDataConfig) (w : World) (fuel : nat)
  (height lastHeight : Z) (block : Block) (result : ExecutionResult)
  (s : State) :
  height <= lastHeight ->
  ctxErr w (ctxPolls s) = None ->
  blocksByHeight w height = Ok block ->
  resultsByBlockID w (BlockID_of block) = Ok result ->
  (edsCheck w (ExecutionDataID result) = ([], false) ->
   checkHeights cfg w (S fuel) height lastHeight s
   = bind (processSealedHeight cfg w fuel
             {| BlockID := BlockID_of block; Height := height;
                EntryData := None |})
          (fun _ => checkHeights cfg w fuel (wrap64 (height + 1)) lastHeight)
          (advance [EvCheck (ExecutionDataID result)] 0 0 1 0 s))
  /\ (forall cids ok,
         edsCheck w (ExecutionDataID result) = (cids, ok) ->
         ok = true \/ cids <> [] ->
         exists evs,
           forallb isDeleteBlob evs = true
           /\ let s1 := advance (EvCheck (ExecutionDataID result) :: evs)
                          0 0 1 0 s in
              checkHeights cfg w (S fuel) height lastHeight s
              = checkHeights cfg w fuel (wrap64 (height + 1)) lastHeight s1
              \/ (exists e,
                     checkHeights cfg w (S fuel) height lastHeight s
                     = (Returned (Some e), s1))
              \/ checkHeights cfg w (S fuel) height lastHeight s
                 = (Thrown ErrRequesterHalted, haltState s1)).
Proof.
  intros Hle Hctx Hblock Hres. split.
  - intros Hcheck. cbn [checkHeights].
    replace (height <=? lastHeight) with true
      by (symmetry; apply Z.leb_le; exact Hle).
    unfold bind at 1. unfold ctx_Err at 1. rewrite Hctx, Hblock, Hres.
    unfold bind at 1.
    rewrite (checkExecutionData_failed w _ _ _ Hcheck).
    cbn [checkInvalidCIDs ErrorOrNil ret errors_Is when negb].
    unfold bind at 1. cbn [ret]. unfold bind at 1. unfold bind at 1.
    replace (advance [EvCheck (ExecutionDataID result)] 0 0 0 0 (tick_ctx s))
      with (advance [EvCheck (ExecutionDataID result)] 0 0 1 0 s)
      by reflexivity.
    unfold bind.
    destruct (processSealedHeight cfg w fuel
                {| BlockID := BlockID_of block; Height := height;
                   EntryData := None |}
                (advance [EvCheck (ExecutionDataID result)] 0 0 1 0 s))
      as [[r | e |] sp]; reflexivity.
  - intros cids ok Hcheck Hcase. destruct ok.
    + exists []. split; [reflexivity |]. cbn zeta. left.
      apply (checkHeights_continues cfg w fuel height lastHeight block result);
        try assumption.
      unfold checkExecutionData. unfold bind at 1.
      unfold eds_Check at 1. unfold bind at 1. unfold emit at 1. cbn [ret].
      rewrite Hcheck. reflexivity.
    + destruct Hcase as [Hok | Hne]; [discriminate Hok |].
      destruct (checkInvalidCIDs_shape w (ExecutionDataID result) cids false []
                  (advance [EvCheck (ExecutionDataID result)] 0 0 0 0 (tick_ctx s)))
        as (r & evs & Hrun & Hdel & Hnone).
      exists evs. split; [exact Hdel |]. cbn zeta.
      assert (Hce : checkExecutionData w (ExecutionDataID result) (tick_ctx s)
                    = (Returned r,
                       advance (EvCheck (ExecutionDataID result) :: evs)
                         0 0 1 0 s)).
      { rewrite (checkExecutionData_failed w _ _ _ Hcheck), Hrun.
        rewrite advance_events. reflexivity. }
      destruct r as [exists_ [e |]].
      * destruct (has_kind RequesterHalted e) eqn:Hhalt.
        -- right. right.
           apply (checkHeights_halts cfg w fuel height lastHeight block result
                    exists_ e); assumption.
        -- right. left. exists e.
           apply (checkHeights_check_error cfg w fuel height lastHeight block
                    result exists_ e); assumption.
      * destruct exists_.
        -- left.
           apply (checkHeights_continues cfg w fuel height lastHeight block
                    result); assumption.
        -- exfalso. destruct (Hnone eq_refl) as (Hnil & _). contradiction.
Qed.

Lemma X10_witness :
  checkHeights cfgCheck10 emptyReportWorld 2 10 10 stateNotified10
  = bind (processSealedHeight cfgCheck10 emptyReportWorld 1 request10)
         (fun _ => checkHeights cfgCheck10 emptyReportWorld 1 (wrap64 (10 + 1)) 10)
         (advance [EvCheck 1110] 0 0 1 0 stateNotified10)
  /\ getCalls (snd (checkHeights cfgCheck10 emptyReportWorld 2 10 10
                      stateNotified10)) = 1%nat.
Proof.
  split.
  - apply (X10_refetch_only_without_reported_cid cfgCheck10 emptyReportWorld 1
             10 10 block10 result10 stateNotified10);
      first [reflexivity | lia].
  - vm_compute. reflexivity.
Defined.

(** ** More of bootstrap and of the workers of [New] *)

Lemma advance_events_counts (l1 l2 : list Event) (c : nat) (s : State) :
  advance l2 0 0 0 0 (advance l1 0 0 c 0 s) = advance (l1 ++ l2) 0 0 c 0 s.
Proof. unfold advance. cbn. rewrite app_assoc. reflexivity. Qed.

Lemma bootstrap_not_halted (cfg : ExecutionDataConfig) (w : World)
  (fuel : nat) (s : State) :
  statusLoad w = None ->
  persistedHalted s = false ->
  bootstrap cfg w fuel s
  = if CheckEnabled cfg then
      match checkDatastore cfg w fuel (st_lastNotified (status s)) (loaded s) with
      | (Returned None, s1) => (Returned true, advance [EvReady] 0 0 0 0 s1)
      | (Returned (Some e), s1) => (Thrown e, s1)
      | (Thrown e, s1) => (Thrown e, s1)
      | (Exhausted, s1) => (Exhausted, s1)
      end
    else (Returned true, advance [EvReady] 0 0 0 0 (loaded s)).
Proof.
  intros Hload Hhalted.
  unfold bootstrap, bind, status_Load, status_Halted, status_LastNotified,
    when, emit, ret, throw, loaded.
  rewrite Hload. cbn -[checkDatastore]. rewrite Hhalted.
  destruct (CheckEnabled cfg); cbn -[checkDatastore].
  - match goal with
    | |- context [checkDatastore cfg w fuel ?l ?s0] =>
        destruct (checkDatastore cfg w fuel l s0) as [[[e |] | e |] s1]
    end; reflexivity.
  - reflexivity.
Qed.

Lemma checkHeights_block_missing (cfg : ExecutionDataConfig) (w : World)
  (fuel : nat) (height lastHeight : Z) (e : error) (s : State) :
  height <= lastHeight ->
  ctxErr w (ctxPolls s) = None ->
  blocksByHeight w height = Fail e ->
  checkHeights cfg w (S fuel) height lastHeight s
  = (Returned (Some (Wrap (Errorf "failed to get block for height") e)),
     advance [] 0 0 1 0 s).
Proof.
  intros Hle Hctx Hblock. cbn [checkHeights].
  replace (height <=? lastHeight) with true by (symmetry; apply Z.leb_le; exact Hle).
  unfold bind at 1. unfold ctx_Err at 1. rewrite Hctx, Hblock.
  unfold ret. f_equal. state_eq. rewrite app_nil_r. reflexivity.
Qed.

(** X11: when the startup check comes to a height at or below the last
    notified one for which no block is stored, [bootstrap] throws the
    lookup error to the parent and never calls [ready()]; the heights
    before it were checked and left as they were. *)
Theorem X11_missing_block_crashes_bootstrap
  (cfg : ExecutionDataConfig) (w : World) (n fuel : nat) (s : State)
  (e : error) :
  statusLoad w = None ->
  persistedHalted s = false ->
  CheckEnabled cfg = true ->
  0 <= StartBlockHeight cfg ->
  StartBlockHeight cfg + Z.of_nat n <= 2 ^ 64 - 1 ->
  StartBlockHeight cfg + Z.of_nat n <= st_lastNotified (status s) ->
  (forall i, (i < n)%nat ->
             cleanAt w (StartBlockHeight cfg + Z.of_nat i) = true) ->
  (forall i, (i <= S n)%nat -> ctxErr w (i + ctxPolls s)%nat = None) ->
  blocksByHeight w (StartBlockHeight cfg + Z.of_nat n) = Fail e ->
  bootstrap cfg w (n + S fuel) s
  = (Thrown (Wrap (Errorf "failed to get block for height") e),
     advance (flat_map (checkEvent w) (heightsFrom (StartBlockHeight cfg) n))
       0 0 (S (S n)) 0 (loaded s)).
Proof.
  intros Hload Hhalted Hcheck Hpos Hmax Hlast Hclean Hctx Hblock.
  rewrite bootstrap_not_halted by assumption. rewrite Hcheck.
  rewrite checkDatastore_loop by (apply (Hctx 0%nat); lia).
  rewrite checkHeights_clean_run; try assumption; try lia.
  - rewrite (checkHeights_block_missing cfg w fuel _ _ e).
    + f_equal. unfold advance, loaded. cbn. rewrite app_nil_r, !Nat.add_succ_r.
      reflexivity.
    + exact Hlast.
    + cbn [ctxPolls advance tick_ctx loaded set_status].
      rewrite Nat.add_succ_r. apply (Hctx (S n)). lia.
    + exact Hblock.
  - intros i Hi. cbn [ctxPolls tick_ctx loaded set_status].
    rewrite Nat.add_succ_r. apply (Hctx (S i)). lia.
Qed.

Lemma X11_witness :
  bootstrap cfgCheck10 noBlockWorld 1 stateNotified12
  = (Thrown (Wrap (Errorf "failed to get block for height") storageError),
     advance [] 0 0 2 0 (loaded stateNotified12)).
Proof.
  apply (X11_missing_block_crashes_bootstrap cfgCheck10 noBlockWorld 0 0
           stateNotified12 storageError).
  - reflexivity.
  - reflexivity.
  - reflexivity.
  - cbn. lia.
  - cbn. lia.
  - cbn. lia.
  - intros i Hi. lia.
  - intros i Hi. reflexivity.
  - reflexivity.
Defined.

(** X12: a requester that does not come up halted signals ready, and
    returns, as soon as the startup check is through: at once when the
    check is disabled, and after one local check per height, with nothing
    deleted or fetched, when every tree up to the last notified height is
    whole. *)
Theorem X12_bootstrap_signals_ready
  (cfg : ExecutionDataConfig) (w : World) (n fuel : nat) (s : State) :
  statusLoad w = None ->
  persistedHalted s = false ->
  (CheckEnabled cfg = false ->
   bootstrap cfg w fuel s
   = (Returned true, advance [EvReady] 0 0 0 0 (loaded s)))
  /\ (CheckEnabled cfg = true ->
      0 <= StartBlockHeight cfg ->
      StartBlockHeight cfg + Z.of_nat n <= 2 ^ 64 - 1 ->
      st_lastNotified (status s) = StartBlockHeight cfg + Z.of_nat n - 1 ->
      (forall i, (i < n)%nat ->
                 cleanAt w (StartBlockHeight cfg + Z.of_nat i) = true) ->
      (forall i, (i <= n)%nat -> ctxErr w (i + ctxPolls s)%nat = None) ->
      bootstrap cfg w (n + S fuel) s
      = (Returned true,
         advance (flat_map (checkEvent w) (heightsFrom (StartBlockHeight cfg) n)
                  ++ [EvReady]) 0 0 (S n) 0 (loaded s))).
Proof.
  intros Hload Hhalted. split.
  - intros Hcheck. rewrite bootstrap_not_halted by assumption.
    rewrite Hcheck. reflexivity.
  - intros Hcheck Hpos Hmax Hlast Hclean Hctx.
    rewrite bootstrap_not_halted by assumption. rewrite Hcheck, Hlast.
    rewrite checkDatastore_consistent; try assumption.
    f_equal. rewrite advance_events_counts. reflexivity.
Qed.

Lemma X12_witness :
  bootstrap cfgCheck10 calmWorld 4 stateNotified12
  = (Returned true,
     advance [EvCheck 1110; EvCheck 1111; EvCheck 1112; EvReady] 0 0 4 0
       (loaded stateNotified12)).
Proof.
  pose proof (X12_bootstrap_signals_ready cfgCheck10 calmWorld 3 0
                stateNotified12 eq_refl eq_refl) as (_ & Hchecked).
  apply Hchecked.
  - reflexivity.
  - cbn. lia.
  - cbn. lia.
  - reflexivity.
  - intros i Hi. reflexivity.
  - intros i Hi. reflexivity.
Defined.

(** X13: by the waits of the workers of [New], the bootstrap worker runs
    only once the notification consumer is ready, and the block consumer is
    started only after the bootstrap worker has returned having called
    [ready()] and the notification worker has called [ready()]. *)
Theorem X13_block_consumer_starts_last
  (cfg : ExecutionDataConfig) (w : World) (persistedNotified : option Z)
  (haltedFlag : bool) (c : Component) :
  reachable cfg w (New cfg persistedNotified haltedFlag) c ->
  (blkPc c = BlkStarted ->
   bootPc c = BootReturned true /\ ntfPc c = NtfReady)
  /\ (bootPc c <> BootWaiting -> ntfPc c <> NtfInit).
Proof.
  intros Hreach. induction Hreach as [| c c' _ IH Hstep].
  - cbn. split; [discriminate | intros H; contradiction].
  - destruct IH as [Hblk Hboot].
    destruct Hstep as
      [c Hn | c Hn | c Hb | c Hb Hnr Hcr | c fuel r s' Hb Hnr Hrun
       | c fuel e s' Hb Hnr Hrun | c fuel job o s' Hb Hrun Hfin
       | c entry o s' Hnr Hnext Hrun | c keep | c fn s' Hrun];
      cbn [blkPc bootPc ntfPc set_mem set_ntfPc set_blkPc set_bootPc];
      try (split; assumption).
    + split; [| discriminate].
      intros Hs. destruct (Hblk Hs) as [_ Hr]. congruence.
    + split; [| discriminate].
      intros Hs. destruct (Hblk Hs) as [Hr _]. split; [exact Hr | reflexivity].
    + split; [discriminate | exact Hboot].
    + split; [| exact Hboot]. intros _.
      unfold componentReady in Hcr.
      destruct (bootPc c) as [| [|] | e]; try discriminate Hcr.
      destruct (blkPc c); destruct (ntfPc c); try discriminate Hcr;
        split; reflexivity.
    + unfold notificationConsumerReady in Hnr. split.
      * intros Hs. destruct (Hblk Hs) as [Hr _]. congruence.
      * intros _ Hn. rewrite Hn in Hnr. discriminate Hnr.
    + unfold notificationConsumerReady in Hnr. split.
      * intros Hs. destruct (Hblk Hs) as [Hr _]. congruence.
      * intros _ Hn. rewrite Hn in Hnr. discriminate Hnr.
Qed.

Lemma X13_witness :
  bootPc run0_8 = BootReturned true /\ ntfPc run0_8 = NtfReady.
Proof.
  destruct (X13_block_consumer_starts_last cfg0 calmWorld None false run0_8
              run0_reachable) as [Hblk _].
  apply Hblk. reflexivity.
Defined.

(** X14: neither a block job nor [bootstrap] with its startup check ever
    notifies: whatever the collaborators answer and however the run ends,
    the notification-sent metrics recorded and the notified cursor are
    after it what they were before. *)
Theorem X14_fetching_never_notifies
  (cfg : ExecutionDataConfig) (w : World) (fuel : nat) (job : Job) (s : State) :
  (notifiedHeights
     (trace (snd (processBlockJob cfg w fuel job (emit EvComplete) s)))
   = notifiedHeights (trace s)
   /\ st_lastNotified
        (status (snd (processBlockJob cfg w fuel job (emit EvComplete) s)))
      = st_lastNotified (status s))
  /\ (notifiedHeights (trace (snd (bootstrap cfg w fuel s)))
      = notifiedHeights (trace s)
      /\ st_lastNotified (status (snd (bootstrap cfg w fuel s)))
         = st_lastNotified (status s)).
Proof.
  destruct (keeps_processBlockJob cfg w fuel job s) as [Hlast Htrace].
  destruct (keeps_bootstrap cfg w fuel s) as [Hlast' Htrace'].
  repeat split; assumption.
Qed.
